(** * Shallow embedding of the workflow execution context of the history
    service (service/history/workflowExecutionContext.go).

    The context is stateful Go code that talks to persistence through the
    shard.  It is modelled as a state monad over a [World] holding the
    contexts, the log of storage calls issued so far and the log of task
    notifications.  The answers of storage are an oracle: the [n]-th storage
    call made in a run receives [env_answer env n].  The mutable state builder
    is an opaque collaborator (spec section 6); it is modelled by the answers
    its methods give.  Go's [(value, error)] results are kept as pairs, a
    [nil] error being [None]; a Go panic (nil dereference, index out of
    range, failed type assertion) is a distinct exit of the monad, during
    which deferred functions see [retError == nil]. *)

From Stdlib Require Import ZArith List String Bool Lia.
From Stdlib Require Import Strings.Byte.
From Stdlib Require Import Classes.RelationClasses.
Import ListNotations.
Open Scope Z_scope.

(** ** Errors *)

Inductive Err :=
| InternalServiceError (msg : string)
| BadRequestError (msg : string)
| EntityNotExistsError
| ConditionFailedError
| WorkflowExecutionAlreadyStartedError
| TimeoutError
| ErrConflict
| OtherError (code : nat).

Definition isInternalServiceError (e : Err) : bool :=
  match e with InternalServiceError _ => true | _ => false end.

(** ** Data model (package persistence) *)

Inductive transactionPolicy := transactionPolicyActive | transactionPolicyPassive.

(** persistence.WorkflowStateCompleted and the close statuses. *)
Definition WorkflowStateCreated : Z := 0.
Definition WorkflowStateRunning : Z := 1.
Definition WorkflowStateCompleted : Z := 2.
Definition WorkflowCloseStatusNone : Z := 0.
Definition WorkflowCloseStatusCompleted : Z := 1.
Definition WorkflowCloseStatusContinuedAsNew : Z := 5.

Record WorkflowExecution := mkWorkflowExecution {
  WorkflowId : string;
  RunId : string
}.

Record ExecutionInfo := mkExecutionInfo {
  ei_DomainID : string;
  ei_WorkflowID : string;
  ei_RunID : string;
  ei_NextEventID : Z;
  ei_State : Z;
  ei_CloseStatus : Z
}.

Record ExecutionStats := mkExecutionStats { HistorySize : Z }.

Record ReplicationState := mkReplicationState {
  rs_CurrentVersion : Z;
  rs_LastWriteVersion : Z
}.

Record HistoryEvent := mkHistoryEvent { EventId : Z; Version : Z }.

Record WorkflowEvents := mkWorkflowEvents {
  we_DomainID : string;
  we_WorkflowID : string;
  we_RunID : string;
  we_BranchToken : list byte;
  we_Events : list HistoryEvent
}.

(** The fields of persistence.HistoryReplicationTask the code reads or writes. *)
Record HistoryReplicationTask := mkHistoryReplicationTask {
  hrt_FirstEventID : Z;
  hrt_NextEventID : Z;
  hrt_EventStoreVersion : Z;
  hrt_BranchToken : list byte;
  hrt_NewRunEventStoreVersion : Z;
  hrt_NewRunBranchToken : list byte
}.

(** The dynamic type behind the persistence.Task interface. *)
Inductive TaskKind :=
| ActivityTask
| DecisionTask
| CloseExecutionTask
| UserTimerTask
| DeleteHistoryEventTask
| HistoryReplication (h : HistoryReplicationTask)
| SyncActivityTask.

Record Task := mkTask {
  task_kind : TaskKind;
  task_Version : Z;
  task_VisibilityTimestamp : Z
}.

Definition isHistoryReplicationTask (t : Task) : bool :=
  match task_kind t with HistoryReplication _ => true | _ => false end.

Record WorkflowMutation := mkWorkflowMutation {
  wm_ExecutionInfo : ExecutionInfo;
  wm_ExecutionStats : option ExecutionStats;
  wm_ReplicationState : option ReplicationState;
  wm_TransferTasks : list Task;
  wm_ReplicationTasks : list Task;
  wm_TimerTasks : list Task;
  wm_Condition : Z
}.

Record WorkflowSnapshot := mkWorkflowSnapshot {
  ws_ExecutionInfo : ExecutionInfo;
  ws_ExecutionStats : option ExecutionStats;
  ws_ReplicationState : option ReplicationState;
  ws_ChildExecutionInfos : list Z;
  ws_SignalInfos : list Z;
  ws_SignalRequestedIDs : list string;
  ws_TransferTasks : list Task;
  ws_ReplicationTasks : list Task;
  ws_TimerTasks : list Task;
  ws_Condition : Z
}.

(** persistence.WorkflowMutableState as read back by GetWorkflowExecution. *)
Record WorkflowMutableState := mkWorkflowMutableState {
  wms_ExecutionInfo : ExecutionInfo;
  wms_ExecutionStats : ExecutionStats;
  wms_ReplicationState : option ReplicationState
}.

(** ** Requests sent to persistence *)

Record GetWorkflowExecutionRequest := mkGetRequest {
  get_DomainID : string;
  get_Execution : WorkflowExecution
}.

Record AppendHistoryEventsRequest := mkAppendRequest {
  ah_DomainID : string;
  ah_Execution : WorkflowExecution;
  ah_FirstEventID : Z;
  ah_EventBatchVersion : Z;
  ah_Events : list HistoryEvent
}.

Record AppendHistoryNodesRequest := mkAppendNodesRequest {
  an_IsNewBranch : bool;
  an_Info : string;
  an_BranchToken : list byte;
  an_Events : list HistoryEvent
}.

Record CreateWorkflowExecutionRequest := mkCreateRequest {
  cr_CreateWorkflowMode : Z;
  cr_PreviousRunID : string;
  cr_PreviousLastWriteVersion : Z;
  cr_NewWorkflowSnapshot : WorkflowSnapshot
}.

Record UpdateWorkflowExecutionRequest := mkUpdateRequest {
  UpdateWorkflowMutation : WorkflowMutation;
  NewWorkflowSnapshot : option WorkflowSnapshot
}.

Record ConflictResolveWorkflowExecutionRequest := mkConflictResolveRequest {
  cf_PrevRunID : string;
  cf_PrevLastWriteVersion : Z;
  cf_PrevState : Z;
  ResetWorkflowSnapshot : WorkflowSnapshot
}.

Record ResetWorkflowExecutionRequest := mkResetRequest {
  BaseRunID : string;
  BaseRunNextEventID : Z;
  CurrentRunID : string;
  CurrentRunNextEventID : Z;
  CurrentWorkflowMutation : option WorkflowMutation;
  rs_NewWorkflowSnapshot : WorkflowSnapshot
}.

(** One storage call, as issued to the execution manager or the shard. *)
Inductive Call :=
| CallGetWorkflowExecution (r : GetWorkflowExecutionRequest)
| CallAppendHistoryEvents (r : AppendHistoryEventsRequest)
| CallAppendHistoryV2Events (r : AppendHistoryNodesRequest) (domainID : string)
    (execution : WorkflowExecution)
| CallCreateWorkflowExecution (r : CreateWorkflowExecutionRequest)
| CallUpdateWorkflowExecution (r : UpdateWorkflowExecutionRequest)
| CallConflictResolveWorkflowExecution (r : ConflictResolveWorkflowExecutionRequest)
| CallResetWorkflowExecution (r : ResetWorkflowExecutionRequest).

Definition isUpdateCall (c : Call) : bool :=
  match c with CallUpdateWorkflowExecution _ => true | _ => false end.

Definition isGetCall (c : Call) : bool :=
  match c with CallGetWorkflowExecution _ => true | _ => false end.

(** What one storage call answers: its error, the byte size it reports
    (appends) and the state it reads (gets). *)
Record Answer := mkAnswer {
  ans_err : option Err;
  ans_size : Z;
  ans_state : WorkflowMutableState
}.

(** ** The mutable state collaborator (interface mutableState)

    Each method the context calls is called at most once per operation, so
    the builder is given by the answers of those methods. *)

Inductive result (A : Type) := Ok (a : A) | Fail (e : Err).
Arguments Ok {A} a.
Arguments Fail {A} e.

Record mutableState := mkMutableState {
  ms_ExecutionInfo : ExecutionInfo;
  ms_ReplicationState : option ReplicationState;
  ms_IsWorkflowExecutionRunning : bool;
  ms_HasBufferedEvents : bool;
  ms_FlushBufferedEvents : option Err;
  ms_CurrentVersion : Z;
  ms_HistoryBuilderEvents : list HistoryEvent;
  ms_CurrentBranch : list byte;
  ms_CloseTransactionAsMutation :
    Z -> transactionPolicy -> result (WorkflowMutation * list WorkflowEvents);
  ms_CloseTransactionAsSnapshot :
    Z -> transactionPolicy -> result (WorkflowSnapshot * list WorkflowEvents);
  ms_ReplicationPolicy : option Z
}.

Record DomainEntry := mkDomainEntry {
  de_Name : string;
  de_FailoverVersion : Z;
  de_ReplicationPolicy : Z
}.

(** ** The execution context (workflowExecutionContextImpl) *)

Record workflowExecutionContext := mkContext {
  domainID : string;
  workflowExecution : WorkflowExecution;
  msBuilder : option mutableState;
  stats : option ExecutionStats;
  updateCondition : Z
}.

(** The two context objects an operation can touch: the receiver of a commit
    and the paired new-run context of a continue-as-new. *)
Inductive Slot := SlotCurrent | SlotNew.

Record World := mkWorld {
  w_current : workflowExecutionContext;
  w_new : workflowExecutionContext;
  w_calls : list Call;
  w_notified : list (list Task * list Task * list Task)
}.

Definition ctx_of (w : World) (s : Slot) : workflowExecutionContext :=
  match s with SlotCurrent => w_current w | SlotNew => w_new w end.

Definition set_ctx (w : World) (s : Slot) (c : workflowExecutionContext) : World :=
  match s with
  | SlotCurrent => mkWorld c (w_new w) (w_calls w) (w_notified w)
  | SlotNew => mkWorld (w_current w) c (w_calls w) (w_notified w)
  end.

(** The environment every operation runs in: the storage oracle, the retry
    budget of persistenceOperationRetryPolicy, the transience classifier
    common.IsPersistenceTransientError, cluster metadata, the domain cache,
    the mutable state builder's Load and the shard's clock. *)
Record Env := mkEnv {
  env_answer : nat -> Answer;
  env_retry_budget : nat;
  env_is_transient : Err -> bool;
  env_global_domain_enabled : bool;
  env_domain : result DomainEntry;
  env_load : WorkflowMutableState -> mutableState;
  env_now : Z
}.

(** ** The monad *)

Inductive Panic := NilDereference | IndexOutOfRange | TypeAssertion.

Inductive Exit (A : Type) := Normal (a : A) | Panicked (p : Panic).
Arguments Normal {A} a.
Arguments Panicked {A} p.

Definition M (A : Type) := World -> Exit A * World.

Definition ret {A} (a : A) : M A := fun w => (Normal a, w).

Definition bind {A B} (m : M A) (k : A -> M B) : M B :=
  fun w => match m w with
           | (Normal a, w') => k a w'
           | (Panicked p, w') => (Panicked p, w')
           end.

Notation "x <- m ;; k" := (bind m (fun x => k))
  (at level 61, m at next level, right associativity).
Notation "m ;;; k" := (bind m (fun _ => k))
  (at level 61, right associativity).
Notation "m >>= k" := (bind m k) (at level 58, left associativity).

Definition panic {A} (p : Panic) : M A := fun w => (Panicked p, w).

Definition getCtx (s : Slot) : M workflowExecutionContext :=
  fun w => (Normal (ctx_of w s), w).

Definition putCtx (s : Slot) (c : workflowExecutionContext) : M unit :=
  fun w => (Normal tt, set_ctx w s c).

(** [if err != nil { return err }] in a function whose result is [error]. *)
Definition check (e : option Err) (k : M (option Err)) : M (option Err) :=
  match e with Some _ => ret e | None => k end.

(** [defer func() { if retError != nil { c.clear() } }()]: the deferred call
    runs when the body returns a non-nil error, not when it panics. *)
Definition deferOnError {A} (cleanup : M unit) (body : M (A * option Err))
  : M (A * option Err) :=
  r <- body ;;
  match snd r with
  | Some _ => cleanup ;;; ret r
  | None => ret r
  end.

Definition deferOnError' (cleanup : M unit) (body : M (option Err)) : M (option Err) :=
  r <- body ;;
  match r with
  | Some _ => cleanup ;;; ret r
  | None => ret r
  end.

(** Field assignments the code performs on the persisted records. *)
Definition wm_set_ExecutionStats (m : WorkflowMutation) (size : Z) : WorkflowMutation :=
  mkWorkflowMutation (wm_ExecutionInfo m) (Some (mkExecutionStats size))
    (wm_ReplicationState m) (wm_TransferTasks m) (wm_ReplicationTasks m)
    (wm_TimerTasks m) (wm_Condition m).

Definition wm_set_ReplicationTasks (m : WorkflowMutation) (ts : list Task) : WorkflowMutation :=
  mkWorkflowMutation (wm_ExecutionInfo m) (wm_ExecutionStats m)
    (wm_ReplicationState m) (wm_TransferTasks m) ts (wm_TimerTasks m) (wm_Condition m).

Definition ws_set_ExecutionStats (s : WorkflowSnapshot) (size : Z) : WorkflowSnapshot :=
  mkWorkflowSnapshot (ws_ExecutionInfo s) (Some (mkExecutionStats size))
    (ws_ReplicationState s) (ws_ChildExecutionInfos s) (ws_SignalInfos s)
    (ws_SignalRequestedIDs s) (ws_TransferTasks s) (ws_ReplicationTasks s)
    (ws_TimerTasks s) (ws_Condition s).

Definition ws_set_ReplicationTasks (s : WorkflowSnapshot) (ts : list Task) : WorkflowSnapshot :=
  mkWorkflowSnapshot (ws_ExecutionInfo s) (ws_ExecutionStats s)
    (ws_ReplicationState s) (ws_ChildExecutionInfos s) (ws_SignalInfos s)
    (ws_SignalRequestedIDs s) (ws_TransferTasks s) ts (ws_TimerTasks s) (ws_Condition s).

Definition ws_set_Tasks (s : WorkflowSnapshot) (transfer replication timer : list Task)
  : WorkflowSnapshot :=
  mkWorkflowSnapshot (ws_ExecutionInfo s) (ws_ExecutionStats s)
    (ws_ReplicationState s) (ws_ChildExecutionInfos s) (ws_SignalInfos s)
    (ws_SignalRequestedIDs s) transfer replication timer (ws_Condition s).

Definition ctx_set_cache (c : workflowExecutionContext) (ms : option mutableState)
  (st : option ExecutionStats) : workflowExecutionContext :=
  mkContext (domainID c) (workflowExecution c) ms st (updateCondition c).

Definition ctx_set_updateCondition (c : workflowExecutionContext) (cond : Z)
  : workflowExecutionContext :=
  mkContext (domainID c) (workflowExecution c) (msBuilder c) (stats c) cond.

(** Modelled from the spec: mutableStateBuilder.UpdateReplicationStateVersion
    and UpdateReplicationPolicy, which are not in this file.  Spec 4.7: the
    mutable state is stamped with the domain's (failoverVersion,
    replicationPolicy). *)
Definition UpdateReplicationStateVersion (ms : mutableState) (version : Z)
  (force : bool) : mutableState :=
  mkMutableState (ms_ExecutionInfo ms)
    (match ms_ReplicationState ms with
     | Some rs => Some (mkReplicationState version (rs_LastWriteVersion rs))
     | None => None
     end)
    (ms_IsWorkflowExecutionRunning ms) (ms_HasBufferedEvents ms)
    (ms_FlushBufferedEvents ms) (ms_CurrentVersion ms) (ms_HistoryBuilderEvents ms)
    (ms_CurrentBranch ms) (ms_CloseTransactionAsMutation ms)
    (ms_CloseTransactionAsSnapshot ms) (ms_ReplicationPolicy ms).

Definition UpdateReplicationPolicy (ms : mutableState) (policy : Z) : mutableState :=
  mkMutableState (ms_ExecutionInfo ms) (ms_ReplicationState ms)
    (ms_IsWorkflowExecutionRunning ms) (ms_HasBufferedEvents ms)
    (ms_FlushBufferedEvents ms) (ms_CurrentVersion ms) (ms_HistoryBuilderEvents ms)
    (ms_CurrentBranch ms) (ms_CloseTransactionAsMutation ms)
    (ms_CloseTransactionAsSnapshot ms) (Some policy).

(** Modelled from the spec: setTaskInfo, which is not in this file.  Spec
    4.6 step 1: the task descriptors are stamped with the workflow's
    CurrentVersion and [now]. *)
Definition stampTask (version now : Z) (t : Task) : Task :=
  mkTask (task_kind t) version now.

Definition setTaskInfo (version now : Z) (transferTasks timerTasks : list Task)
  : list Task * list Task :=
  (map (stampTask version now) transferTasks, map (stampTask version now) timerTasks).

(** The two assignments of the merge loop on a HistoryReplicationTask. *)
Definition setNewRun (branchToken : list byte) (eventStoreVersion : Z) (t : Task) : Task :=
  match task_kind t with
  | HistoryReplication h =>
      mkTask (HistoryReplication
                (mkHistoryReplicationTask (hrt_FirstEventID h) (hrt_NextEventID h)
                   (hrt_EventStoreVersion h) (hrt_BranchToken h)
                   eventStoreVersion branchToken))
        (task_Version t) (task_VisibilityTimestamp t)
  | _ => t
  end.

Definition errNoNewRunReplicationTask : Err :=
  InternalServiceError
    "unable to find replication task from new workflow for continue as new replication".

Definition errNoCurrentReplicationTask : Err :=
  InternalServiceError
    "unable to find replication task from current workflow for continue as new replication".

(** mergeContinueAsNewReplicationTasks: the HistoryReplicationTasks of the
    current mutation are updated in place; the result carries the mutation
    and the snapshot as the caller sees them afterwards. *)
Definition mergeContinueAsNewReplicationTasks
  (currentWorkflowMutation : WorkflowMutation)
  (newWorkflowSnapshot : option WorkflowSnapshot)
  : Exit (WorkflowMutation * option WorkflowSnapshot * option Err) :=
  if negb (ei_CloseStatus (wm_ExecutionInfo currentWorkflowMutation)
           =? WorkflowCloseStatusContinuedAsNew)
  then Normal (currentWorkflowMutation, newWorkflowSnapshot, None)
  else
    (* it is possible that continue as new is done as part of passive logic *)
    match wm_ReplicationTasks currentWorkflowMutation with
    | [] => Normal (currentWorkflowMutation, newWorkflowSnapshot, None)
    | currentTasks =>
        match newWorkflowSnapshot with
        | None => Normal (currentWorkflowMutation, newWorkflowSnapshot,
                          Some errNoNewRunReplicationTask)
        | Some snapshot =>
            (* len(newWorkflowSnapshot.ReplicationTasks) != 1 is every shape
               but a singleton *)
            match ws_ReplicationTasks snapshot with
            | [newTask] =>
                (* the unchecked type assertion to a HistoryReplicationTask pointer *)
                match task_kind newTask with
                | HistoryReplication newRunTask =>
                    let snapshot' := ws_set_ReplicationTasks snapshot [] in
                    let tasks' := map (setNewRun (hrt_BranchToken newRunTask)
                                         (hrt_EventStoreVersion newRunTask))
                                      currentTasks in
                    let taskUpdated := existsb isHistoryReplicationTask currentTasks in
                    let mutation' := wm_set_ReplicationTasks currentWorkflowMutation tasks' in
                    if taskUpdated then Normal (mutation', Some snapshot', None)
                    else Normal (mutation', Some snapshot', Some errNoCurrentReplicationTask)
                | _ => Panicked TypeAssertion
                end
            | _ => Normal (currentWorkflowMutation, newWorkflowSnapshot,
                           Some errNoNewRunReplicationTask)
            end
        end
    end.

(** newWorkflowExecutionContext: nothing cached yet, a zero history size, and
    the zero value of updateCondition. *)
Definition newWorkflowExecutionContext (domainID : string) (execution : WorkflowExecution)
  : workflowExecutionContext :=
  mkContext domainID execution None (Some (mkExecutionStats 0)) 0.

Section Context.

Variable env : Env.

(** A single storage call: it is logged, and answered by the oracle. *)
Definition storageCall (c : Call) : M Answer :=
  fun w => (Normal (env_answer env (List.length (w_calls w))),
            mkWorld (w_current w) (w_new w) ((w_calls w ++ [c])%list) (w_notified w)).

(** backoff.Retry(op, persistenceOperationRetryPolicy,
    common.IsPersistenceTransientError) around one storage call; the last
    answer is what the captured [resp] holds. *)
Fixpoint retryCall (fuel : nat) (c : Call) : M Answer :=
  a <- storageCall c ;;
  match ans_err a with
  | None => ret a
  | Some e =>
      match fuel with
      | O => ret a
      | S fuel' => if env_is_transient env e then retryCall fuel' c else ret a
      end
  end.

Definition appendHistoryEventsWithRetry (request : AppendHistoryEventsRequest)
  : M (Z * option Err) :=
  a <- retryCall (env_retry_budget env) (CallAppendHistoryEvents request) ;;
  ret (ans_size a, ans_err a).

Definition appendHistoryV2EventsWithRetry (domainID : string)
  (execution : WorkflowExecution) (request : AppendHistoryNodesRequest)
  : M (Z * option Err) :=
  a <- retryCall (env_retry_budget env)
         (CallAppendHistoryV2Events request domainID execution) ;;
  ret (ans_size a, ans_err a).

(** persistence.BuildHistoryGarbageCleanupInfo *)
Definition BuildHistoryGarbageCleanupInfo (domainID workflowID runID : string) : string :=
  (domainID ++ ":" ++ workflowID ++ ":" ++ runID)%string.

Definition persistFirstWorkflowEvents (workflowEvents : WorkflowEvents)
  : M (Z * option Err) :=
  match we_Events workflowEvents with
  | [] => ret (0, Some (InternalServiceError
                          "cannot persist first workflow events with empty events"))
  | firstEvent :: _ =>
      let domainID := we_DomainID workflowEvents in
      let workflowID := we_WorkflowID workflowEvents in
      let runID := we_RunID workflowEvents in
      let execution := mkWorkflowExecution workflowID runID in
      let branchToken := we_BranchToken workflowEvents in
      let events := we_Events workflowEvents in
      match branchToken with
      | [] =>
          appendHistoryEventsWithRetry
            (mkAppendRequest domainID execution (EventId firstEvent)
               (Version firstEvent) events)
      | _ =>
          appendHistoryV2EventsWithRetry domainID execution
            (mkAppendNodesRequest true
               (BuildHistoryGarbageCleanupInfo domainID workflowID runID)
               branchToken events)
      end
  end.

Definition persistNonFirstWorkflowEvents (workflowEvents : WorkflowEvents)
  : M (Z * option Err) :=
  match we_Events workflowEvents with
  | [] => ret (0, None) (* allow update workflow without events *)
  | firstEvent :: _ =>
      let domainID := we_DomainID workflowEvents in
      let execution := mkWorkflowExecution (we_WorkflowID workflowEvents)
                         (we_RunID workflowEvents) in
      let branchToken := we_BranchToken workflowEvents in
      let events := we_Events workflowEvents in
      match branchToken with
      | [] =>
          appendHistoryEventsWithRetry
            (mkAppendRequest domainID execution (EventId firstEvent)
               (Version firstEvent) events)
      | _ =>
          appendHistoryV2EventsWithRetry domainID execution
            (mkAppendNodesRequest false "" branchToken events)
      end
  end.

(** [for _, workflowEvents := range workflowEventsSeq] appending each batch
    with persistNonFirstWorkflowEvents and summing the sizes. *)
Fixpoint persistNonFirstLoop (workflowEventsSeq : list WorkflowEvents) (size : Z)
  : M (Z * option Err) :=
  match workflowEventsSeq with
  | [] => ret (size, None)
  | workflowEvents :: rest =>
      r <- persistNonFirstWorkflowEvents workflowEvents ;;
      match snd r with
      | Some err => ret (size, Some err)
      | None => persistNonFirstLoop rest (size + fst r)
      end
  end.

Definition clear (s : Slot) : M unit :=
  c <- getCtx s ;; putCtx s (ctx_set_cache c None None).

Definition getHistorySize (s : Slot) : M Z :=
  c <- getCtx s ;;
  match stats c with
  | Some st => ret (HistorySize st)
  | None => panic NilDereference
  end.

Definition setHistorySize (s : Slot) (size : Z) : M unit :=
  c <- getCtx s ;;
  match stats c with
  | Some _ => putCtx s (ctx_set_cache c (msBuilder c) (Some (mkExecutionStats size)))
  | None => panic NilDereference
  end.

Definition getDomainName : string :=
  match env_domain env with Ok d => de_Name d | Fail _ => "" end.

Definition notifyTasks (transferTasks replicationTasks timerTasks : list Task) : M unit :=
  fun w => (Normal tt, mkWorld (w_current w) (w_new w) (w_calls w)
                         ((w_notified w ++ [(transferTasks, replicationTasks, timerTasks)])%list)).

Definition getWorkflowExecutionWithRetry (request : GetWorkflowExecutionRequest)
  : M (option WorkflowMutableState * option Err) :=
  a <- retryCall (env_retry_budget env) (CallGetWorkflowExecution request) ;;
  match ans_err a with
  | None => ret (Some (ans_state a), None)
  | Some EntityNotExistsError => ret (None, ans_err a) (* not logged *)
  | Some _ => ret (None, ans_err a)                    (* logged *)
  end.

Definition createWorkflowExecutionWithRetry (request : CreateWorkflowExecutionRequest)
  : M (option unit * option Err) :=
  a <- retryCall (env_retry_budget env) (CallCreateWorkflowExecution request) ;;
  match ans_err a with
  | None => ret (Some tt, None)
  | Some WorkflowExecutionAlreadyStartedError => ret (None, ans_err a) (* not logged *)
  | Some _ => ret (None, ans_err a)                                    (* logged *)
  end.

Definition updateWorkflowExecutionWithRetry (request : UpdateWorkflowExecutionRequest)
  : M (option unit * option Err) :=
  a <- retryCall (env_retry_budget env) (CallUpdateWorkflowExecution request) ;;
  match ans_err a with
  | None => ret (Some tt, None)
  | Some ConditionFailedError => ret (None, Some ErrConflict)
  | Some _ => ret (None, ans_err a) (* logged with the updateCondition *)
  end.

Definition loadWorkflowExecutionInternal (s : Slot) : M (option Err) :=
  c <- getCtx s ;;
  match msBuilder c with
  | Some _ => ret None
  | None =>
      r <- getWorkflowExecutionWithRetry (mkGetRequest (domainID c) (workflowExecution c)) ;;
      match r with
      | (_, Some err) => ret (Some err)
      | (None, None) => panic NilDereference
      | (Some state, None) =>
          c <- getCtx s ;;
          putCtx s (mkContext (domainID c) (workflowExecution c)
                      (Some (env_load env state))
                      (Some (wms_ExecutionStats state))
                      (ei_NextEventID (wms_ExecutionInfo state))) ;;;
          ret None
      end
  end.

Definition updateVersion (s : Slot) : M (option Err) :=
  c <- getCtx s ;;
  if env_global_domain_enabled env then
    match msBuilder c with
    | None => panic NilDereference
    | Some ms =>
        match ms_ReplicationState ms with
        | None => ret None
        | Some _ =>
            if negb (ms_IsWorkflowExecutionRunning ms) then
              (* we should not update the version on mutable state when the
                 workflow is finished *)
              ret None
            else
              match env_domain env with
              | Fail err => ret (Some err)
              | Ok domainEntry =>
                  let ms' := UpdateReplicationPolicy
                               (UpdateReplicationStateVersion ms
                                  (de_FailoverVersion domainEntry) false)
                               (de_ReplicationPolicy domainEntry) in
                  putCtx s (ctx_set_cache c (Some ms') (stats c)) ;;; ret None
              end
        end
    end
  else ret None.

Definition loadWorkflowExecution (s : Slot) : M (option mutableState * option Err) :=
  err <- loadWorkflowExecutionInternal s ;;
  match err with
  | Some _ => ret (None, err)
  | None =>
      err <- updateVersion s ;;
      match err with
      | Some _ => ret (None, err)
      | None => c <- getCtx s ;; ret (msBuilder c, None)
      end
  end.

Definition loadExecutionStats (s : Slot) : M (option ExecutionStats * option Err) :=
  r <- loadWorkflowExecution s ;;
  match snd r with
  | Some err => ret (None, Some err)
  | None => c <- getCtx s ;; ret (stats c, None)
  end.

Definition createWorkflowExecution (s : Slot) (newWorkflow : WorkflowSnapshot)
  (historySize now createMode : Z) (prevRunID : string) (prevLastWriteVersion : Z)
  : M (option Err) :=
  let createRequest :=
    mkCreateRequest createMode prevRunID prevLastWriteVersion
      (ws_set_ExecutionStats newWorkflow historySize) in
  r <- createWorkflowExecutionWithRetry createRequest ;;
  check (snd r)
    (notifyTasks (ws_TransferTasks newWorkflow) (ws_ReplicationTasks newWorkflow)
       (ws_TimerTasks newWorkflow) ;;;
     ret None).

Definition conflictResolveWorkflowExecution (s : Slot) (now : Z) (prevRunID : string)
  (prevLastWriteVersion prevState : Z) (resetMutableState : mutableState)
  (resetHistorySize : Z) : M (option mutableState * option Err) :=
  (* this only resets one mutableState for a workflow *)
  match ms_CloseTransactionAsSnapshot resetMutableState now transactionPolicyPassive with
  | Fail err => ret (None, Some err)
  | Ok (resetWorkflow, workflowEventsSeq) =>
      if negb (List.length workflowEventsSeq =? 0)%nat then
        ret (None, Some (BadRequestError "reset mutable state should not generate new events"))
      else
        let resetWorkflow := ws_set_ExecutionStats resetWorkflow resetHistorySize in
        a <- storageCall (CallConflictResolveWorkflowExecution
                            (mkConflictResolveRequest prevRunID prevLastWriteVersion
                               prevState resetWorkflow)) ;;
        match ans_err a with
        | Some err => ret (None, Some err)
        | None =>
            notifyTasks (ws_TransferTasks resetWorkflow) (ws_ReplicationTasks resetWorkflow)
              (ws_TimerTasks resetWorkflow) ;;;
            clear s ;;;
            loadWorkflowExecution s
        end
  end.

(** updateWorkflowExecutionWithNew, first phase: close the current workflow
    as a mutation, append its event batches as non-first batches, and stamp
    the mutation with the running history size. *)
Definition closeCurrentAndPersist (s : Slot) (now : Z)
  (currentWorkflowTransactionPolicy : transactionPolicy)
  : M (result WorkflowMutation) :=
  c <- getCtx s ;;
  match msBuilder c with
  | None => panic NilDereference
  | Some ms =>
      match ms_CloseTransactionAsMutation ms now currentWorkflowTransactionPolicy with
      | Fail err => ret (Fail err)
      | Ok (currentWorkflow, workflowEventsSeq) =>
          currentWorkflowSize <- getHistorySize s ;;
          r <- persistNonFirstLoop workflowEventsSeq currentWorkflowSize ;;
          match r with
          | (_, Some err) => ret (Fail err)
          | (currentWorkflowSize, None) =>
              setHistorySize s currentWorkflowSize ;;;
              ret (Ok (wm_set_ExecutionStats currentWorkflow currentWorkflowSize))
          end
      end
  end.

(** Second phase, inside [if newContext != nil && newMutableState != nil &&
    newWorkflowTransactionPolicy != nil]: close the new run as a snapshot and
    append its first event batch, [workflowEventsSeq[0]]. *)
Definition closeNewAndPersist (s newContext : Slot) (newMutableState : mutableState)
  (now : Z) (newWorkflowTransactionPolicy : transactionPolicy)
  : M (result WorkflowSnapshot) :=
  match ms_CloseTransactionAsSnapshot newMutableState now newWorkflowTransactionPolicy with
  | Fail err => ret (Fail err)
  | Ok (newWorkflow, workflowEventsSeq) =>
      newWorkflowSizeSize <- getHistorySize newContext ;;
      match workflowEventsSeq with
      | [] => panic IndexOutOfRange
      | firstWorkflowEvents :: _ =>
          r <- persistFirstWorkflowEvents firstWorkflowEvents ;;
          match r with
          | (_, Some err) => ret (Fail err)
          | (eventsSize, None) =>
              setHistorySize newContext (newWorkflowSizeSize + eventsSize) ;;;
              ret (Ok (ws_set_ExecutionStats newWorkflow (newWorkflowSizeSize + eventsSize)))
          end
      end
  end.

(** Third phase: the continue-as-new merge, the storage update, the new
    update condition and the task notifications.  The history event
    notification and the metrics touch neither the contexts nor storage. *)
Definition commitUpdate (s : Slot) (currentWorkflow : WorkflowMutation)
  (newWorkflow : option WorkflowSnapshot) : M (option Err) :=
  match mergeContinueAsNewReplicationTasks currentWorkflow newWorkflow with
  | Panicked p => panic p
  | Normal (_, _, Some err) => ret (Some err)
  | Normal (currentWorkflow, newWorkflow, None) =>
      r <- updateWorkflowExecutionWithRetry (mkUpdateRequest currentWorkflow newWorkflow) ;;
      check (snd r)
        (c <- getCtx s ;;
         putCtx s (ctx_set_updateCondition c (ei_NextEventID (wm_ExecutionInfo currentWorkflow))) ;;;
         notifyTasks (wm_TransferTasks currentWorkflow) (wm_ReplicationTasks currentWorkflow)
           (wm_TimerTasks currentWorkflow) ;;;
         match newWorkflow with
         | Some nw =>
             notifyTasks (ws_TransferTasks nw) (ws_ReplicationTasks nw) (ws_TimerTasks nw) ;;;
             ret None
         | None => ret None
         end)
  end.

Definition updateWorkflowExecutionWithNew (s : Slot) (now : Z)
  (newContext : option Slot) (newMutableState : option mutableState)
  (currentWorkflowTransactionPolicy : transactionPolicy)
  (newWorkflowTransactionPolicy : option transactionPolicy) : M (option Err) :=
  deferOnError' (clear s)
    (r <- closeCurrentAndPersist s now currentWorkflowTransactionPolicy ;;
     match r with
     | Fail err => ret (Some err)
     | Ok currentWorkflow =>
         match newContext, newMutableState, newWorkflowTransactionPolicy with
         | Some nc, Some nms, Some np =>
             deferOnError' (clear nc)
               (r2 <- closeNewAndPersist s nc nms now np ;;
                match r2 with
                | Fail err => ret (Some err)
                | Ok newWorkflow => commitUpdate s currentWorkflow (Some newWorkflow)
                end)
         | _, _, _ => commitUpdate s currentWorkflow None
         end
     end).

Definition updateWorkflowExecutionAsActive (s : Slot) (now : Z) : M (option Err) :=
  updateWorkflowExecutionWithNew s now None None transactionPolicyActive None.

Definition updateWorkflowExecutionWithNewAsActive (s : Slot) (now : Z)
  (newContext : Slot) (newMutableState : mutableState) : M (option Err) :=
  updateWorkflowExecutionWithNew s now (Some newContext) (Some newMutableState)
    transactionPolicyActive (Some transactionPolicyActive).

Definition updateWorkflowExecutionAsPassive (s : Slot) (now : Z) : M (option Err) :=
  updateWorkflowExecutionWithNew s now None None transactionPolicyPassive None.

Definition updateWorkflowExecutionWithNewAsPassive (s : Slot) (now : Z)
  (newContext : Slot) (newMutableState : mutableState) : M (option Err) :=
  updateWorkflowExecutionWithNew s now (Some newContext) (Some newMutableState)
    transactionPolicyPassive (Some transactionPolicyPassive).

Definition errResetBufferedEvents : Err :=
  InternalServiceError "reset workflow execution shouldn't have buffered events".

Definition errResetEventBatches : Err :=
  InternalServiceError "reset workflow execution should generate exactly 1 event batch".

Definition errResetPending : Err :=
  InternalServiceError
    "something went wrong, we shouldn't see any pending childWF, sending Signal or signal requested".

(** resetWorkflowExecution, after the new run's snapshot is closed and its
    single batch appended: stamp the snapshot, check for pending children and
    signals, and issue the storage reset. *)
Definition resetCommit (s : Slot) (currMutableState : mutableState) (updateCurr : bool)
  (currTransferTasks currTimerTasks : list Task) (resetWorkflow : WorkflowSnapshot)
  (newHistorySize : Z) (newTransferTasks newTimerTasks : list Task)
  (currReplicationTasks newReplicationTasks : list Task)
  (baseRunID : string) (baseRunNextEventID : Z) : M (option Err) :=
  let resetWorkflow :=
    ws_set_Tasks (ws_set_ExecutionStats resetWorkflow newHistorySize)
      newTransferTasks newReplicationTasks newTimerTasks in
  if (0 <? List.length (ws_ChildExecutionInfos resetWorkflow))%nat
     || (0 <? List.length (ws_SignalInfos resetWorkflow))%nat
     || (0 <? List.length (ws_SignalRequestedIDs resetWorkflow))%nat
  then ret (Some errResetPending)
  else
    c <- getCtx s ;;
    currentMutation <-
      (if updateCurr then
         currSize <- getHistorySize s ;;
         ret (Some (mkWorkflowMutation (ms_ExecutionInfo currMutableState)
                      (Some (mkExecutionStats currSize))
                      (ms_ReplicationState currMutableState)
                      currTransferTasks currReplicationTasks currTimerTasks
                      (updateCondition c)))
       else ret None) ;;
    let resetWFReq :=
      mkResetRequest baseRunID baseRunNextEventID
        (ei_RunID (ms_ExecutionInfo currMutableState))
        (ei_NextEventID (ms_ExecutionInfo currMutableState))
        currentMutation resetWorkflow in
    a <- storageCall (CallResetWorkflowExecution resetWFReq) ;;
    check (ans_err a)
      (notifyTasks (ws_TransferTasks resetWorkflow) (ws_ReplicationTasks resetWorkflow)
         (ws_TimerTasks resetWorkflow) ;;;
       match currentMutation with
       | Some m =>
           notifyTasks (wm_TransferTasks m) (wm_ReplicationTasks m) (wm_TimerTasks m) ;;;
           ret None
       | None => ret None
       end).

Definition resetWorkflowExecution (s : Slot) (currMutableState : mutableState)
  (updateCurr : bool) (closeTask cleanupTask : option Task)
  (newMutableState : mutableState) (newHistorySize : Z)
  (newTransferTasks newTimerTasks : list Task)
  (currReplicationTasks newReplicationTasks : list Task)
  (baseRunID : string) (baseRunNextEventID : Z) : M (option Err) :=
  let now := env_now env in
  let currTransferTasks := match closeTask with Some t => [t] | None => [] end in
  let currTimerTasks := match cleanupTask with Some t => [t] | None => [] end in
  let '(currTransferTasks, currTimerTasks) :=
    setTaskInfo (ms_CurrentVersion currMutableState) now currTransferTasks currTimerTasks in
  let '(newTransferTasks, newTimerTasks) :=
    setTaskInfo (ms_CurrentVersion newMutableState) now newTransferTasks newTimerTasks in
  (* Since we always reset to decision task, there shouldn't be any buffered events. *)
  if ms_HasBufferedEvents newMutableState then ret (Some errResetBufferedEvents)
  else
  check (ms_FlushBufferedEvents currMutableState)
  (check (ms_FlushBufferedEvents newMutableState)
  ((if updateCurr then
      let currentExecutionInfo := ms_ExecutionInfo currMutableState in
      r <- persistNonFirstWorkflowEvents
             (mkWorkflowEvents (ei_DomainID currentExecutionInfo)
                (ei_WorkflowID currentExecutionInfo) (ei_RunID currentExecutionInfo)
                (ms_CurrentBranch currMutableState)
                (ms_HistoryBuilderEvents currMutableState)) ;;
      check (snd r)
        (size <- getHistorySize s ;; setHistorySize s (size + fst r) ;;; ret None)
    else ret None) >>= fun err =>
   check err
   (* the reason to use passive policy is because this resetWorkflowExecution
      function mostly handcraft all parameters to be persisted *)
   (match ms_CloseTransactionAsSnapshot newMutableState now transactionPolicyPassive with
    | Fail err => ret (Some err)
    | Ok (resetWorkflow, workflowEventsSeq) =>
        if negb (List.length workflowEventsSeq =? 1)%nat then ret (Some errResetEventBatches)
        else
          r <- persistNonFirstLoop workflowEventsSeq newHistorySize ;;
          check (snd r)
            (resetCommit s currMutableState updateCurr currTransferTasks currTimerTasks
               resetWorkflow (fst r) newTransferTasks newTimerTasks
               currReplicationTasks newReplicationTasks baseRunID baseRunNextEventID)
    end))).

End Context.

(** ** Concrete fixtures *)

Module Fixtures.

Definition info (runID : string) (nextEventID closeStatus : Z) : ExecutionInfo :=
  mkExecutionInfo "domain" "wf" runID nextEventID WorkflowStateRunning closeStatus.

Definition batch (runID : string) (events : list HistoryEvent) : WorkflowEvents :=
  mkWorkflowEvents "domain" "wf" runID [] events.

Definition mutation (nextEventID closeStatus : Z) (replicationTasks : list Task)
  (condition : Z) : WorkflowMutation :=
  mkWorkflowMutation (info "r1" nextEventID closeStatus) None None [] replicationTasks []
    condition.

Definition snapshot (runID : string) (replicationTasks : list Task) : WorkflowSnapshot :=
  mkWorkflowSnapshot (info runID 3 WorkflowCloseStatusNone) None None [] [] [] [] replicationTasks
    [] 0.

Definition hrt (branchToken : list byte) (eventStoreVersion : Z) : Task :=
  mkTask (HistoryReplication (mkHistoryReplicationTask 1 3 eventStoreVersion branchToken 0 []))
    0 0.

Definition syncTask : Task := mkTask SyncActivityTask 0 0.

(** A mutable state whose transactions close with the given results. *)
Definition msWith (replicationState : option ReplicationState) (hasBuffered : bool)
  (closeMutation : result (WorkflowMutation * list WorkflowEvents))
  (closeSnapshot : result (WorkflowSnapshot * list WorkflowEvents)) : mutableState :=
  mkMutableState (info "r1" 10 WorkflowCloseStatusNone) replicationState true hasBuffered
    None 1 [] [] (fun _ _ => closeMutation) (fun _ _ => closeSnapshot) None.

Definition plainMs : mutableState :=
  msWith None false (Ok (mutation 12 WorkflowCloseStatusNone [] 10,
                     [batch "r1" [mkHistoryEvent 10 1; mkHistoryEvent 11 1]]))
     (Ok (snapshot "r1" [], [])).

Definition persisted : WorkflowMutableState :=
  mkWorkflowMutableState (info "r1" 10 WorkflowCloseStatusNone) (mkExecutionStats 100) None.

(** Storage answers every call with success and a 200 byte payload, or with
    [err] from call number [failAt] on. *)
Definition envWith (failAt : nat) (err : Err) (globalDomains : bool)
  (domain : result DomainEntry) : Env :=
  mkEnv (fun n => if (n <? failAt)%nat then mkAnswer None 200 persisted
                  else mkAnswer (Some err) 0 persisted)
    2 (fun e => match e with TimeoutError => true | _ => false end)
    globalDomains domain (fun _ => plainMs) 0.

Definition okEnv : Env := envWith 1000 TimeoutError false (Ok (mkDomainEntry "domain" 7 1)).

Definition ctxWith (runID : string) (cached : option mutableState) (size condition : Z)
  : workflowExecutionContext :=
  mkContext "domain" (mkWorkflowExecution "wf" runID) cached
    (match cached with Some _ => Some (mkExecutionStats size) | None => None end) condition.

Definition worldOf (current new : workflowExecutionContext) : World :=
  mkWorld current new [] [].

Definition freshNew : workflowExecutionContext :=
  mkContext "domain" (mkWorkflowExecution "wf" "r2") None (Some (mkExecutionStats 0)) 0.

End Fixtures.

Import Fixtures.

(** ** Frame reasoning

    [preserves R m]: running [m] from any world relates the world before and
    the world after by the preorder [R], whatever [m] returns. *)

Definition preserves (R : World -> World -> Prop) {A} (m : M A) : Prop :=
  forall w, R w (snd (m w)).

(** The storage log only grows, by calls satisfying [P]; the contexts and the
    notifications are untouched. *)
Definition io_only (P : Call -> bool) (w w' : World) : Prop :=
  w_current w' = w_current w /\ w_new w' = w_new w /\ w_notified w' = w_notified w /\
  exists l, w_calls w' = (w_calls w ++ l)%list /\ forallb P l = true.

(** The cached mutable states of both contexts are untouched. *)
Definition same_cache (w w' : World) : Prop :=
  msBuilder (w_current w') = msBuilder (w_current w) /\
  msBuilder (w_new w') = msBuilder (w_new w).

Definition notUpdate (c : Call) : bool := negb (isUpdateCall c).

Definition resolverMs : mutableState :=
  msWith None false (Ok (mutation 12 WorkflowCloseStatusNone [] 10, []))
    (Ok (snapshot "r1" [], [batch "r1" [mkHistoryEvent 12 1]])).

(** The computation never stops with the panic [p]. *)
Definition never (p : Panic) {A} (m : M A) : Prop :=
  forall w, fst (m w) <> Panicked p.

Definition isResetCall (c : Call) : bool :=
  match c with CallResetWorkflowExecution _ => true | _ => false end.

(** No task notification was sent. *)
Definition same_notified (w w' : World) : Prop := w_notified w' = w_notified w.

(** [t'] is [t] with at most the new-run fields of a HistoryReplicationTask
    changed. *)
Definition sameExceptNewRun (t t' : Task) : Prop :=
  task_Version t' = task_Version t /\
  task_VisibilityTimestamp t' = task_VisibilityTimestamp t /\
  (match task_kind t, task_kind t' with
   | HistoryReplication h, HistoryReplication h' =>
       hrt_FirstEventID h' = hrt_FirstEventID h /\ hrt_NextEventID h' = hrt_NextEventID h /\
       hrt_EventStoreVersion h' = hrt_EventStoreVersion h /\
       hrt_BranchToken h' = hrt_BranchToken h
   | k, k' => k' = k
   end).

(** A new run whose snapshot closes with one first batch. *)
Definition pairedMs : mutableState :=
  msWith None false (Ok (mutation 3 WorkflowCloseStatusNone [] 1, []))
    (Ok (snapshot "r2" [], [batch "r2" [mkHistoryEvent 1 1]])).

(** A running workflow of a global domain, with replication state. *)
Definition replicatedMs : mutableState :=
  msWith (Some (mkReplicationState 1 1)) false
    (Ok (mutation 12 WorkflowCloseStatusNone [] 10, [])) (Ok (snapshot "r1" [], [])).

(** A new run whose snapshot closes without any event batch. *)
Definition emptyNewMs : mutableState :=
  msWith None false (Ok (mutation 3 WorkflowCloseStatusNone [] 1, []))
    (Ok (snapshot "r2" [], [])).

(** A current workflow whose transaction fails to close. *)
Definition failingMs : mutableState :=
  msWith None false (Fail (OtherError 2)) (Ok (snapshot "r1" [], [])).

(** The computation, when it ends with an error, sent no notification. *)
Definition quiet_on_error (m : M (option Err)) : Prop :=
  forall w e w', m w = (Normal (Some e), w') -> w_notified w' = w_notified w.

(** A current workflow continuing as new whose only replication task is not
    a history replication task. *)
Definition canSyncMs : mutableState :=
  msWith None false (Ok (mutation 12 WorkflowCloseStatusContinuedAsNew [syncTask] 10, []))
    (Ok (snapshot "r1" [], [])).

(** A new run whose snapshot carries one history replication task and one
    event batch. *)
Definition canNewMs : mutableState :=
  msWith None false (Ok (mutation 3 WorkflowCloseStatusNone [] 1, []))
    (Ok (snapshot "r2" [hrt [x01] 2], [batch "r2" [mkHistoryEvent 1 1]])).

(** A new run of a reset whose snapshot still holds a pending child. *)
Definition pendingChildMs : mutableState :=
  msWith None false (Ok (mutation 3 WorkflowCloseStatusNone [] 1, []))
    (Ok (mkWorkflowSnapshot (info "r2" 3 WorkflowCloseStatusNone) None None [1] [] [] [] [] [] 0,
         [batch "r2" [mkHistoryEvent 1 1]])).

Definition notReset (c : Call) : bool := negb (isResetCall c).

(** Every storage call made satisfies [P], and no task was notified. *)
Definition calls_without (P : Call -> bool) (w w' : World) : Prop :=
  w_notified w' = w_notified w /\
  exists l, w_calls w' = (w_calls w ++ l)%list /\ forallb P l = true.

(** The computation makes only calls satisfying [P], notifies nothing, and
    does not end in success. *)
Definition rejects (P : Call -> bool) (m : M (option Err)) : Prop :=
  forall w, calls_without P w (snd (m w)) /\ fst (m w) <> Normal None.

(** The update condition of the context in [s] is unchanged. *)
Definition keeps_condition (s : Slot) (w w' : World) : Prop :=
  updateCondition (ctx_of w' s) = updateCondition (ctx_of w s).

(** A finished workflow of a global domain, with replication state. *)
Definition finishedMs : mutableState :=
  mkMutableState (info "r1" 10 WorkflowCloseStatusCompleted) (Some (mkReplicationState 1 1))
    false false None 1 [] [] (fun _ _ => Ok (mutation 12 WorkflowCloseStatusCompleted [] 10, []))
    (fun _ _ => Ok (snapshot "r1" [], [])) None.

(** How backoff.Retry went through the answers from call number [base] on:
    the first [n] answers were errors the classifier deems transient, each
    followed by another attempt within the budget [fuel], and the answer at
    [base + n] ended the loop, being a success, an error that is not
    transient, or the last attempt the budget allows. *)
Definition retried (env : Env) (fuel base n : nat) : Prop :=
  (n <= fuel)%nat /\
  (forall k, (k < n)%nat ->
     exists e, ans_err (env_answer env (base + k)) = Some e /\ env_is_transient env e = true) /\
  (n = fuel \/
   match ans_err (env_answer env (base + n)) with
   | None => True
   | Some e => env_is_transient env e = false
   end).

(** Spec scenario 2: an active update with one 200 byte batch advances the
    update condition from 10 to 12 and the history size by 200. *)
Example scenario_active_update :
  let '(r, w) := updateWorkflowExecutionAsActive okEnv SlotCurrent 0
                   (worldOf (ctxWith "r1" (Some plainMs) 100 10) freshNew) in
  r = Normal None /\ updateCondition (w_current w) = 12
  /\ stats (w_current w) = Some (mkExecutionStats 300)
  /\ List.length (w_calls w) = 2%nat.
Proof. vm_compute. repeat split; reflexivity. Qed.

(** Spec scenario 3: the update is answered with a condition failure. *)
Example scenario_conflict :
  let '(r, w) := updateWorkflowExecutionAsActive (envWith 1 ConditionFailedError false (Fail TimeoutError))
                   SlotCurrent 0 (worldOf (ctxWith "r1" (Some plainMs) 100 10) freshNew) in
  r = Normal (Some ErrConflict) /\ msBuilder (w_current w) = None.
Proof. vm_compute. split; reflexivity. Qed.

#[local] Instance io_only_preorder P : PreOrder (io_only P).
Proof.
  split.
  - intros w. repeat split. exists []. rewrite app_nil_r. auto.
  - intros w1 w2 w3 (E1 & E2 & E3 & l & El & Pl) (F1 & F2 & F3 & l' & Fl & Pl').
    repeat split; try congruence.
    exists (l ++ l')%list. rewrite Fl, El, app_assoc. split; [reflexivity|].
    rewrite forallb_app, Pl, Pl'. reflexivity.
Qed.

#[local] Instance same_cache_preorder : PreOrder same_cache.
Proof.
  split.
  - intros w. split; reflexivity.
  - intros w1 w2 w3 [E1 E2] [F1 F2]. split; congruence.
Qed.

Lemma preserves_bind {R} `{PreOrder World R} {A B} (m : M A) (k : A -> M B) :
  preserves R m -> (forall a, preserves R (k a)) -> preserves R (bind m k).
Proof.
  intros Hm Hk w. unfold bind. specialize (Hm w).
  destruct (m w) as [[a|p] w'] eqn:E; simpl in *.
  - etransitivity; [exact Hm | apply Hk].
  - exact Hm.
Qed.

Lemma preserves_ret {R} `{PreOrder World R} {A} (a : A) : preserves R (ret a).
Proof. intros w. simpl. reflexivity. Qed.

Lemma preserves_panic {R} `{PreOrder World R} {A} (p : Panic) : preserves R (@panic A p).
Proof. intros w. simpl. reflexivity. Qed.

Lemma preserves_getCtx {R} `{PreOrder World R} s : preserves R (getCtx s).
Proof. intros w. simpl. reflexivity. Qed.

Lemma io_only_same_cache P {A} (m : M A) : preserves (io_only P) m -> preserves same_cache m.
Proof.
  intros Hm w. destruct (Hm w) as (E1 & E2 & _). split; congruence.
Qed.

Lemma storageCall_io env P c : P c = true -> preserves (io_only P) (storageCall env c).
Proof.
  intros Pc w. simpl. repeat split. exists [c]. simpl. rewrite Pc. auto.
Qed.

Lemma setHistorySize_same_cache s size : preserves same_cache (setHistorySize s size).
Proof.
  intros w. unfold setHistorySize, bind, getCtx.
  destruct (stats (ctx_of w s)); [|simpl; split; reflexivity].
  destruct s; simpl; split; reflexivity.
Qed.

Lemma notifyTasks_same_cache a b c : preserves same_cache (notifyTasks a b c).
Proof. intros w. simpl. split; reflexivity. Qed.

Lemma getHistorySize_io P s : preserves (io_only P) (getHistorySize s).
Proof.
  intros w. unfold getHistorySize, bind, getCtx. simpl.
  destruct (stats (ctx_of w s)); simpl; reflexivity.
Qed.

Create HintDb frames.
#[local] Hint Extern 1 (preserves _ (ret _)) => apply preserves_ret : frames.
#[local] Hint Extern 1 (preserves _ (panic _)) => apply preserves_panic : frames.
#[local] Hint Extern 1 (preserves _ (getCtx _)) => apply preserves_getCtx : frames.
#[local] Hint Resolve storageCall_io setHistorySize_same_cache notifyTasks_same_cache
  getHistorySize_io : frames.

Ltac preserve :=
  repeat (cbv beta;
    match goal with
    | |- preserves _ (bind _ _) => apply preserves_bind; [ | intro ]
    | |- preserves _ (check ?e _) => unfold check
    | |- preserves _ (match ?x with _ => _ end) => destruct x
    | |- preserves same_cache _ =>
        solve [apply (io_only_same_cache (fun _ => true)); eauto with frames
              | apply (io_only_same_cache notUpdate); eauto with frames]
    | |- _ => solve [eauto with frames]
    end).

Lemma retryCall_io env P fuel c : P c = true -> preserves (io_only P) (retryCall env fuel c).
Proof.
  intros Pc. induction fuel as [|fuel IH]; simpl; preserve.
Qed.
#[local] Hint Resolve retryCall_io : frames.


Lemma persistNonFirstWorkflowEvents_io env ev :
  preserves (io_only notUpdate) (persistNonFirstWorkflowEvents env ev).
Proof.
  unfold persistNonFirstWorkflowEvents, appendHistoryEventsWithRetry,
    appendHistoryV2EventsWithRetry. preserve.
Qed.

Lemma persistFirstWorkflowEvents_io env ev :
  preserves (io_only notUpdate) (persistFirstWorkflowEvents env ev).
Proof.
  unfold persistFirstWorkflowEvents, appendHistoryEventsWithRetry,
    appendHistoryV2EventsWithRetry. preserve.
Qed.
#[local] Hint Resolve persistNonFirstWorkflowEvents_io persistFirstWorkflowEvents_io : frames.

Lemma persistNonFirstLoop_io env seq size :
  preserves (io_only notUpdate) (persistNonFirstLoop env seq size).
Proof.
  revert size. induction seq as [|ev seq IH]; intros size; simpl; preserve.
Qed.
#[local] Hint Resolve persistNonFirstLoop_io : frames.

(** ** Helper lemmas on the world *)

Lemma ctx_of_set_ctx_same w s c : ctx_of (set_ctx w s c) s = c.
Proof. destruct s; reflexivity. Qed.

Lemma ctx_of_set_ctx_other w s s' c : s <> s' -> ctx_of (set_ctx w s c) s' = ctx_of w s'.
Proof. destruct s, s'; simpl; congruence. Qed.

Lemma set_ctx_ctx_of w s : set_ctx w s (ctx_of w s) = w.
Proof. destruct w, s; reflexivity. Qed.

Lemma set_ctx_calls w s c : w_calls (set_ctx w s c) = w_calls w.
Proof. destruct s; reflexivity. Qed.

Lemma ctx_set_cache_same c : ctx_set_cache c (msBuilder c) (stats c) = c.
Proof. destruct c; reflexivity. Qed.

Lemma persistNonFirstLoop_empty env seq size w :
  Forall (fun b => we_Events b = []) seq ->
  persistNonFirstLoop env seq size w = (Normal (size, None), w).
Proof.
  intros Hall. revert size. induction Hall as [|b seq Hb _ IH]; intros size; simpl.
  - reflexivity.
  - unfold bind, persistNonFirstWorkflowEvents. rewrite Hb. simpl.
    rewrite IH. f_equal. f_equal. f_equal. lia.
Qed.

Lemma merge_keeps_execution m nw m' nw' r :
  mergeContinueAsNewReplicationTasks m nw = Normal (m', nw', r) ->
  wm_ExecutionInfo m' = wm_ExecutionInfo m /\ wm_Condition m' = wm_Condition m.
Proof.
  unfold mergeContinueAsNewReplicationTasks.
  destruct (negb _); [intros H; inversion H; auto|].
  destruct (wm_ReplicationTasks m) as [|t0 ts]; [intros H; inversion H; auto|].
  destruct nw as [snap|]; [|intros H; inversion H; auto].
  destruct (ws_ReplicationTasks snap) as [|t [|t1 ts1]];
    try (intros H; inversion H; auto; fail).
  destruct (task_kind t); try discriminate.
  destruct (existsb _ _); intros H; inversion H; auto.
Qed.

Lemma setNewRun_all bt v ts t' h' :
  In t' (map (setNewRun bt v) ts) -> task_kind t' = HistoryReplication h' ->
  hrt_NewRunBranchToken h' = bt /\ hrt_NewRunEventStoreVersion h' = v.
Proof.
  intros Hin Hk. apply in_map_iff in Hin. destruct Hin as (u & <- & _).
  unfold setNewRun in Hk.
  destruct (task_kind u) eqn:Eu; simpl in Hk; try rewrite Eu in Hk;
    inversion Hk; subst; simpl; auto.
Qed.

(** ** C7: empty event batches *)

(** C7: a batch with no events is refused by persistFirstWorkflowEvents
    (size 0, internal error) and accepted by persistNonFirstWorkflowEvents
    (size 0, no error), neither touching storage; so closing the current
    workflow with only empty batches leaves the history size unchanged,
    issues no storage call and lets the commit go on. *)
Theorem empty_batch_persistence (env : Env) (ev : WorkflowEvents) (w : World)
  (Hempty : we_Events ev = []) :
  persistFirstWorkflowEvents env ev w =
    (Normal (0, Some (InternalServiceError
                        "cannot persist first workflow events with empty events")), w)
  /\ persistNonFirstWorkflowEvents env ev w = (Normal (0, None), w)
  /\ (forall s now policy ms m seq st,
        msBuilder (ctx_of w s) = Some ms ->
        ms_CloseTransactionAsMutation ms now policy = Ok (m, seq) ->
        Forall (fun b => we_Events b = []) seq ->
        stats (ctx_of w s) = Some st ->
        closeCurrentAndPersist env s now policy w =
          (Normal (Ok (wm_set_ExecutionStats m (HistorySize st))), w)).
Proof.
  unfold persistFirstWorkflowEvents, persistNonFirstWorkflowEvents.
  rewrite Hempty. split; [reflexivity|]. split; [reflexivity|].
  intros s now policy ms m seq st Hms Hclose Hall Hst.
  unfold closeCurrentAndPersist, bind, getCtx. rewrite Hms, Hclose.
  unfold getHistorySize, bind, getCtx. rewrite Hst. simpl.
  rewrite persistNonFirstLoop_empty by exact Hall.
  unfold setHistorySize, bind, getCtx, putCtx. rewrite Hst. simpl.
  destruct st as [size]. simpl.
  rewrite <- Hst, ctx_set_cache_same, set_ctx_ctx_of. reflexivity.
Qed.

Lemma empty_batch_persistence_witness :
  we_Events (batch "r1" []) = [] /\
  persistNonFirstWorkflowEvents okEnv (batch "r1" [])
    (worldOf (ctxWith "r1" (Some plainMs) 100 10) freshNew) =
    (Normal (0, None), worldOf (ctxWith "r1" (Some plainMs) 100 10) freshNew).
Proof.
  split; [reflexivity|].
  apply (empty_batch_persistence okEnv (batch "r1" [])
           (worldOf (ctxWith "r1" (Some plainMs) 100 10) freshNew)).
  reflexivity.
Defined.

(** ** C6: reset with buffered events *)

(** C6: a reset whose new mutable state has buffered events returns the
    internal error "reset workflow execution shouldn't have buffered events"
    with the world untouched: no history is appended, no storage reset is
    issued and no context changes. *)
Theorem reset_refuses_buffered_events (env : Env) (s : Slot)
  (currMutableState : mutableState) (updateCurr : bool) (closeTask cleanupTask : option Task)
  (newMutableState : mutableState) (newHistorySize : Z)
  (newTransferTasks newTimerTasks currReplicationTasks newReplicationTasks : list Task)
  (baseRunID : string) (baseRunNextEventID : Z) (w : World)
  (Hbuffered : ms_HasBufferedEvents newMutableState = true) :
  resetWorkflowExecution env s currMutableState updateCurr closeTask cleanupTask
    newMutableState newHistorySize newTransferTasks newTimerTasks
    currReplicationTasks newReplicationTasks baseRunID baseRunNextEventID w
  = (Normal (Some errResetBufferedEvents), w)
  /\ isInternalServiceError errResetBufferedEvents = true.
Proof.
  split; [|reflexivity].
  unfold resetWorkflowExecution.
  destruct (setTaskInfo _ _ _ _). destruct (setTaskInfo _ _ _ _).
  rewrite Hbuffered. reflexivity.
Qed.

Lemma reset_refuses_buffered_events_witness :
  ms_HasBufferedEvents (msWith None true (Ok (mutation 12 0 [] 10, [])) (Ok (snapshot "r2" [], [])))
    = true /\
  resetWorkflowExecution okEnv SlotCurrent plainMs true None None
    (msWith None true (Ok (mutation 12 0 [] 10, [])) (Ok (snapshot "r2" [], []))) 0 [] [] [] []
    "r0" 5 (worldOf (ctxWith "r1" (Some plainMs) 100 10) freshNew)
  = (Normal (Some errResetBufferedEvents), worldOf (ctxWith "r1" (Some plainMs) 100 10) freshNew).
Proof.
  split; [reflexivity|].
  apply (reset_refuses_buffered_events okEnv SlotCurrent plainMs true None None
           (msWith None true (Ok (mutation 12 0 [] 10, [])) (Ok (snapshot "r2" [], [])))
           0 [] [] [] [] "r0" 5 (worldOf (ctxWith "r1" (Some plainMs) 100 10) freshNew)).
  reflexivity.
Defined.

(** ** C10: the unchecked type assertion of the merge *)

(** C10: the continue-as-new merge panics exactly when the current mutation
    is ContinuedAsNew with replication tasks and the new snapshot's single
    replication task is not a HistoryReplicationTask; the length check does
    not rule this out, as the concrete snapshot with one sync-activity task
    shows. *)
Theorem merge_type_assertion_panics (m : WorkflowMutation) (nw : option WorkflowSnapshot) :
  ((exists p, mergeContinueAsNewReplicationTasks m nw = Panicked p) <->
   (ei_CloseStatus (wm_ExecutionInfo m) = WorkflowCloseStatusContinuedAsNew /\
    wm_ReplicationTasks m <> [] /\
    exists snap t, nw = Some snap /\ ws_ReplicationTasks snap = [t] /\
                   isHistoryReplicationTask t = false))
  /\ List.length (ws_ReplicationTasks (snapshot "r2" [syncTask])) = 1%nat
  /\ mergeContinueAsNewReplicationTasks
       (mutation 12 WorkflowCloseStatusContinuedAsNew [hrt [] 0] 10)
       (Some (snapshot "r2" [syncTask])) = Panicked TypeAssertion.
Proof.
  split; [|split; reflexivity].
  unfold mergeContinueAsNewReplicationTasks. split.
  - intros [p Hp].
    destruct (ei_CloseStatus (wm_ExecutionInfo m) =? WorkflowCloseStatusContinuedAsNew)
      eqn:Ecan; simpl in Hp; [|discriminate].
    apply Z.eqb_eq in Ecan. split; [exact Ecan|].
    destruct (wm_ReplicationTasks m) as [|t0 ts]; [discriminate|].
    split; [discriminate|].
    destruct nw as [snap|]; [|discriminate].
    destruct (ws_ReplicationTasks snap) as [|t [|t1 ts1]] eqn:Et; try discriminate.
    exists snap, t. split; [reflexivity|]. split; [exact Et|].
    unfold isHistoryReplicationTask.
    destruct (task_kind t); try reflexivity.
    destruct (_ || _); discriminate.
  - intros (Ecan & Hts & snap & t & -> & Et & Ht).
    rewrite Ecan, Z.eqb_refl. simpl.
    destruct (wm_ReplicationTasks m) as [|t0 ts]; [congruence|].
    rewrite Et. unfold isHistoryReplicationTask in Ht.
    destruct (task_kind t); try discriminate; eexists; reflexivity.
Qed.

(** ** C3: the continue-as-new replication-task merge *)

(** C3 (amended): outside an active continue-as-new the merge changes
    nothing; in an active continue-as-new with no new snapshot or a number of
    new-run replication tasks other than one, the merge fails with an
    internal error and the commit returns it without any storage call; with
    exactly one new-run task that is a HistoryReplicationTask, every
    HistoryReplicationTask of the current mutation afterwards carries its
    BranchToken and EventStoreVersion and the new snapshot has no
    replication tasks left; with exactly one new-run task of another kind,
    the merge, and with it the commit, panics on the type assertion before
    any storage call. *)
Theorem merge_continue_as_new (env : Env) (s : Slot) (m : WorkflowMutation)
  (nw : option WorkflowSnapshot) (w : World) :
  ((ei_CloseStatus (wm_ExecutionInfo m) <> WorkflowCloseStatusContinuedAsNew \/
    wm_ReplicationTasks m = []) ->
   mergeContinueAsNewReplicationTasks m nw = Normal (m, nw, None))
  /\ (ei_CloseStatus (wm_ExecutionInfo m) = WorkflowCloseStatusContinuedAsNew ->
      wm_ReplicationTasks m <> [] ->
      (nw = None \/ exists snap, nw = Some snap /\
                                 List.length (ws_ReplicationTasks snap) <> 1%nat) ->
      mergeContinueAsNewReplicationTasks m nw = Normal (m, nw, Some errNoNewRunReplicationTask)
      /\ isInternalServiceError errNoNewRunReplicationTask = true
      /\ commitUpdate env s m nw w = (Normal (Some errNoNewRunReplicationTask), w))
  /\ (forall snap t h,
        ei_CloseStatus (wm_ExecutionInfo m) = WorkflowCloseStatusContinuedAsNew ->
        wm_ReplicationTasks m <> [] ->
        nw = Some snap -> ws_ReplicationTasks snap = [t] ->
        task_kind t = HistoryReplication h ->
        exists m' snap' r,
          mergeContinueAsNewReplicationTasks m nw = Normal (m', Some snap', r)
          /\ ws_ReplicationTasks snap' = []
          /\ forall t' h', In t' (wm_ReplicationTasks m') ->
                           task_kind t' = HistoryReplication h' ->
                           hrt_NewRunBranchToken h' = hrt_BranchToken h
                           /\ hrt_NewRunEventStoreVersion h' = hrt_EventStoreVersion h)
  /\ (forall snap t,
        ei_CloseStatus (wm_ExecutionInfo m) = WorkflowCloseStatusContinuedAsNew ->
        wm_ReplicationTasks m <> [] ->
        nw = Some snap -> ws_ReplicationTasks snap = [t] ->
        isHistoryReplicationTask t = false ->
        mergeContinueAsNewReplicationTasks m nw = Panicked TypeAssertion
        /\ commitUpdate env s m nw w = (Panicked TypeAssertion, w)).
Proof.
  split; [|split; [|split]].
  - unfold mergeContinueAsNewReplicationTasks. intros [Hne | Hnil].
    + apply Z.eqb_neq in Hne. rewrite Hne. reflexivity.
    + destruct (negb _); [reflexivity|]. rewrite Hnil. reflexivity.
  - intros Ecan Hts Hnw.
    assert (Hmerge : mergeContinueAsNewReplicationTasks m nw
                     = Normal (m, nw, Some errNoNewRunReplicationTask)).
    { unfold mergeContinueAsNewReplicationTasks.
rewrite Ecan, Z.eqb_refl. simpl.
      destruct (wm_ReplicationTasks m) as [|t0 ts]; [congruence|].
      destruct Hnw as [-> | (snap & -> & Hlen)]; [reflexivity|].
      destruct (ws_ReplicationTasks snap) as [|t [|t1 ts1]]; try reflexivity.
      simpl in Hlen. congruence. }
    split; [exact Hmerge|]. split; [reflexivity|].
    unfold commitUpdate. rewrite Hmerge. reflexivity.
  - intros snap t h Ecan Hts -> Et Ht.
    unfold mergeContinueAsNewReplicationTasks. rewrite Ecan, Z.eqb_refl. simpl.
    destruct (wm_ReplicationTasks m) as [|t0 ts] eqn:Em; [congruence|].
    rewrite Et, Ht. simpl.
    destruct (isHistoryReplicationTask t0 || existsb isHistoryReplicationTask ts);
      do 3 eexists; (split; [reflexivity|]); (split; [reflexivity|]);
      intros t' h' Hin Hk;
      exact (setNewRun_all (hrt_BranchToken h) (hrt_EventStoreVersion h) (t0 :: ts) t' h' Hin Hk).
  - intros snap t Ecan Hts -> Et Ht.
    assert (Hmerge : mergeContinueAsNewReplicationTasks m (Some snap) = Panicked TypeAssertion).
    { unfold mergeContinueAsNewReplicationTasks. rewrite Ecan, Z.eqb_refl. simpl.
      destruct (wm_ReplicationTasks m) as [|t0 ts]; [congruence|].
      rewrite Et. unfold isHistoryReplicationTask in Ht.
      destruct (task_kind t); try discriminate; reflexivity. }
    split; [exact Hmerge|].
    unfold commitUpdate. rewrite Hmerge. reflexivity.
Qed.

(** C3 is refuted at a ContinuedAsNew mutation with one history replication
    task and a new snapshot whose single replication task is a
    sync-activity task: the merge does not complete, it panics. *)
Lemma merge_single_task_counterexample :
  mergeContinueAsNewReplicationTasks
    (mutation 12 WorkflowCloseStatusContinuedAsNew [hrt [] 0] 10)
    (Some (snapshot "r2" [syncTask])) = Panicked TypeAssertion.
Proof. reflexivity. Qed.

(** ** C5: conflict resolution producing events *)

(** C5 (amended): the replacement mutable state is closed as a snapshot under
    the passive policy; if that close yields one or more event batches, the
    call returns a BadRequestError before any storage operation (the world is
    unchanged, so nothing is retried). *)
Theorem conflict_resolve_rejects_events (env : Env) (s : Slot) (now : Z)
  (prevRunID : string) (prevLastWriteVersion prevState : Z)
  (resetMutableState : mutableState) (resetHistorySize : Z) (w : World)
  (snap : WorkflowSnapshot) (workflowEventsSeq : list WorkflowEvents)
  (Hclose : ms_CloseTransactionAsSnapshot resetMutableState now transactionPolicyPassive
            = Ok (snap, workflowEventsSeq))
  (Hevents : workflowEventsSeq <> []) :
  conflictResolveWorkflowExecution env s now prevRunID prevLastWriteVersion prevState
    resetMutableState resetHistorySize w
  = (Normal (None, Some (BadRequestError "reset mutable state should not generate new events")), w).
Proof.
  unfold conflictResolveWorkflowExecution. rewrite Hclose.
  destruct workflowEventsSeq; [congruence|]. reflexivity.
Qed.


Lemma conflict_resolve_rejects_events_witness :
  ms_CloseTransactionAsSnapshot resolverMs 0 transactionPolicyPassive
    = Ok (snapshot "r1" [], [batch "r1" [mkHistoryEvent 12 1]])
  /\ conflictResolveWorkflowExecution okEnv SlotCurrent 0 "r0" 0 WorkflowStateRunning
       resolverMs 100 (worldOf (ctxWith "r1" (Some plainMs) 100 10) freshNew)
     = (Normal (None, Some (BadRequestError "reset mutable state should not generate new events")),
        worldOf (ctxWith "r1" (Some plainMs) 100 10) freshNew).
Proof.
  split; [reflexivity|].
  apply (conflict_resolve_rejects_events okEnv SlotCurrent 0 "r0" 0 WorkflowStateRunning
           resolverMs 100 (worldOf (ctxWith "r1" (Some plainMs) 100 10) freshNew)
           (snapshot "r1" []) [batch "r1" [mkHistoryEvent 12 1]]).
  - reflexivity.
  - discriminate.
Defined.

(** C5 is refuted by a resolver whose close yields one batch: the error
    returned is a BadRequestError, not an internal error. *)
Lemma conflict_resolve_error_kind_counterexample :
  conflictResolveWorkflowExecution okEnv SlotCurrent 0 "r0" 0 WorkflowStateRunning
    resolverMs 100 (worldOf (ctxWith "r1" (Some plainMs) 100 10) freshNew)
  = (Normal (None, Some (BadRequestError "reset mutable state should not generate new events")),
     worldOf (ctxWith "r1" (Some plainMs) 100 10) freshNew)
  /\ isInternalServiceError
       (BadRequestError "reset mutable state should not generate new events") = false.
Proof. split; reflexivity. Qed.

(** ** C1 and C2: clearing the cache on a failed commit *)

Lemma clear_world s w :
  clear s w = (Normal tt, set_ctx w s (ctx_set_cache (ctx_of w s) None None)).
Proof. reflexivity. Qed.

Lemma clear_cleared s w x :
  msBuilder (ctx_of w x) = None -> stats (ctx_of w x) = None ->
  msBuilder (ctx_of (snd (clear s w)) x) = None /\ stats (ctx_of (snd (clear s w)) x) = None.
Proof.
  rewrite clear_world. simpl. destruct s, x; simpl; auto.
Qed.

Lemma deferOnError_clear s body w e w' :
  deferOnError' (clear s) body w = (Normal (Some e), w') ->
  msBuilder (ctx_of w' s) = None /\ stats (ctx_of w' s) = None.
Proof.
  unfold deferOnError', bind.
  destruct (body w) as [[[r|]|p] w1]; simpl; intros H; inversion H; subst.
  rewrite ctx_of_set_ctx_same. simpl. auto.
Qed.

Lemma deferOnError_clear_keeps s body w e w' x :
  deferOnError' (clear s) body w = (Normal (Some e), w') ->
  (forall w1, body w = (Normal (Some e), w1) ->
              msBuilder (ctx_of w1 x) = None /\ stats (ctx_of w1 x) = None) ->
  msBuilder (ctx_of w' x) = None /\ stats (ctx_of w' x) = None.
Proof.
  unfold deferOnError', bind.
  destruct (body w) as [[[r|]|p] w1] eqn:Eb; simpl; intros H Hin; inversion H; subst.
  destruct (Hin w1 eq_refl) as [H1 H2].
  exact (clear_cleared s w1 x H1 H2).
Qed.

Lemma createWorkflowExecutionWithRetry_io env request :
  preserves (io_only (fun _ => true)) (createWorkflowExecutionWithRetry env request).
Proof. unfold createWorkflowExecutionWithRetry. preserve. Qed.

Lemma io_only_ctx P w w' x : io_only P w w' -> ctx_of w' x = ctx_of w x.
Proof. intros (E1 & E2 & _). destruct x; simpl; congruence. Qed.

Lemma resetCommit_same_cache env s currMutableState updateCurr a b resetWorkflow size c d
  e f baseRunID baseRunNextEventID :
  preserves same_cache (resetCommit env s currMutableState updateCurr a b resetWorkflow size
                          c d e f baseRunID baseRunNextEventID).
Proof. unfold resetCommit. preserve. Qed.
#[local] Hint Resolve resetCommit_same_cache : frames.

Lemma resetWorkflowExecution_same_cache env s currMutableState updateCurr closeTask cleanupTask
  newMutableState newHistorySize a b c d baseRunID baseRunNextEventID :
  preserves same_cache
    (resetWorkflowExecution env s currMutableState updateCurr closeTask cleanupTask
       newMutableState newHistorySize a b c d baseRunID baseRunNextEventID).
Proof.
  unfold resetWorkflowExecution.
  destruct (setTaskInfo _ _ _ _). destruct (setTaskInfo _ _ _ _).
  preserve.
Qed.

(** ** The retry harness *)

Lemma retryCall_shape env fuel c w :
  exists n, retried env fuel (List.length (w_calls w)) n /\
    retryCall env fuel c w =
    (Normal (env_answer env (List.length (w_calls w) + n)),
     mkWorld (w_current w) (w_new w) ((w_calls w ++ repeat c (S n))%list) (w_notified w)).
Proof.
  unfold retried.
  revert w. induction fuel as [|fuel IH]; intros w; simpl; unfold bind, storageCall; simpl.
  - exists 0%nat. split.
    + split; [lia|]. split; [intros k Hk; lia | left; reflexivity].
    + rewrite Nat.add_0_r. destruct (ans_err _); reflexivity.
  - destruct (ans_err (env_answer env (List.length (w_calls w)))) as [e|] eqn:Ea.
    + destruct (env_is_transient env e) eqn:Et.
      * destruct (IH (mkWorld (w_current w) (w_new w) (w_calls w ++ [c]) (w_notified w)))
          as (n & (Hn & Hk & Hl) & E). simpl in E, Hk, Hl. rewrite E.
        rewrite length_app in Hk, Hl. simpl in Hk, Hl.
        exists (S n). split.
        -- split; [lia|]. split.
           ++ intros [|k] Hk'.
              ** exists e. rewrite Nat.add_0_r. auto.
              ** destruct (Hk k ltac:(lia)) as (e' & He' & Ht'). exists e'.
                 replace (List.length (w_calls w) + S k)%nat
                   with (List.length (w_calls w) + 1 + k)%nat by lia. auto.
           ++ destruct Hl as [-> | Hl]; [left; reflexivity | right].
              replace (List.length (w_calls w) + S n)%nat
                with (List.length (w_calls w) + 1 + n)%nat by lia. exact Hl.
        -- rewrite length_app. simpl.
           rewrite <- app_assoc. simpl. do 3 f_equal. lia.
      * exists 0%nat. split.
        -- split; [lia|]. split; [intros k Hk; lia|]. right.
           rewrite Nat.add_0_r, Ea. exact Et.
        -- rewrite Nat.add_0_r. reflexivity.
    + exists 0%nat. split.
      * split; [lia|]. split; [intros k Hk; lia|]. right.
        rewrite Nat.add_0_r, Ea. exact I.
      * rewrite Nat.add_0_r. reflexivity.
Qed.
Lemma ctx_of_mkWorld_same w s calls notified :
  ctx_of (mkWorld (w_current w) (w_new w) calls notified) s = ctx_of w s.
Proof. destruct s; reflexivity. Qed.

Lemma load_internal_uncached_h env s w :
  msBuilder (ctx_of w s) = None ->
  exists n, retried env (env_retry_budget env) (List.length (w_calls w)) n /\
    let c := ctx_of w s in
    let a := env_answer env (List.length (w_calls w) + n) in
    let w1 := mkWorld (w_current w) (w_new w)
                ((w_calls w ++ repeat (CallGetWorkflowExecution
                                        (mkGetRequest (domainID c) (workflowExecution c)))
                               (S n))%list)
                (w_notified w) in
    loadWorkflowExecutionInternal env s w =
    match ans_err a with
    | Some e => (Normal (Some e), w1)
    | None =>
        (Normal None,
         set_ctx w1 s (mkContext (domainID c) (workflowExecution c)
                         (Some (env_load env (ans_state a)))
                         (Some (wms_ExecutionStats (ans_state a)))
                         (ei_NextEventID (wms_ExecutionInfo (ans_state a)))))
    end.
Proof.
  intros Hc. unfold loadWorkflowExecutionInternal, getWorkflowExecutionWithRetry.
  unfold bind at 1. unfold getCtx at 1. simpl. rewrite Hc.
  unfold bind at 1. unfold bind at 1.
  match goal with |- context [retryCall env ?f ?c w] =>
    destruct (retryCall_shape env f c w) as (n & Hn & E) end.
  rewrite E. exists n. split; [exact Hn|]. simpl.
  destruct (ans_err _) as [e|].
  - destruct e; reflexivity.
  - unfold bind, getCtx. simpl. rewrite ctx_of_mkWorld_same. reflexivity.
Qed.

Lemma updateVersion_error env s w e w' :
  updateVersion env s w = (Normal (Some e), w') -> env_domain env = Fail e /\ w' = w.
Proof.
  unfold updateVersion, bind, getCtx, ret, putCtx, panic. simpl.
  destruct (env_global_domain_enabled env); [|discriminate].
  destruct (msBuilder (ctx_of w s)) as [ms|]; [|discriminate].
  destruct (ms_ReplicationState ms); [|discriminate].
  destruct (negb _); [discriminate|].
  destruct (env_domain env) as [d|err]; simpl; [discriminate|].
  intros H. inversion H; subst. auto.
Qed.

(** A load into an empty cache that fails leaves the cache empty, unless the
    fetch succeeded and only the domain lookup of the version update failed:
    then the freshly fetched state is cached. *)
Lemma load_uncached_error env s w r e w' :
  msBuilder (ctx_of w s) = None ->
  loadWorkflowExecution env s w = (Normal (r, Some e), w') ->
  r = None /\ (forall x, x <> s -> ctx_of w' x = ctx_of w x) /\
  (ctx_of w' s = ctx_of w s \/
   exists n, (List.length (w_calls w) <= n)%nat /\ ans_err (env_answer env n) = None /\
     env_domain env = Fail e /\
     msBuilder (ctx_of w' s) = Some (env_load env (ans_state (env_answer env n)))).
Proof.
  intros Hc H. destruct (load_internal_uncached_h env s w Hc) as (n & _ & E).
  unfold loadWorkflowExecution in H. unfold bind at 1 in H. rewrite E in H.
  destruct (ans_err (env_answer env (List.length (w_calls w) + n))) as [e0|] eqn:Ea.
  - simpl in H. inversion H; subst. split; [reflexivity|].
    split; [intros x _; apply ctx_of_mkWorld_same | left; apply ctx_of_mkWorld_same].
  - cbv beta iota in H. unfold bind at 1 in H.
    match type of H with context [updateVersion env s ?w1] =>
      destruct (updateVersion env s w1) as [[[e1|]|p] w2] eqn:Eu end.
    + destruct (updateVersion_error _ _ _ _ _ Eu) as [Hd ->].
      simpl in H. inversion H; subst. split; [reflexivity|]. split.
      * intros x Hx. rewrite ctx_of_set_ctx_other by congruence. apply ctx_of_mkWorld_same.
      * right. exists (List.length (w_calls w) + n)%nat. split; [lia|]. split; [exact Ea|].
        split; [exact Hd|]. rewrite ctx_of_set_ctx_same. reflexivity.
    + unfold bind, getCtx, ret in H. simpl in H. inversion H.
    + simpl in H. discriminate H.
Qed.

(** C1 (amended): only the update commit clears the context on error.  A
    failed updateWorkflowExecutionWithNew (and so each of its four façades)
    returns with the receiver's cached mutable state and stats cleared.  A
    failed create, a conflict-resolve failing at its close, at its event check
    or at its storage call, and a failed reset return their error without
    clearing: the contexts' cached mutable states are as they were.  Every
    other failed conflict-resolve is one whose storage call succeeded and
    whose reload failed: the context was cleared before that reload, so it
    returns with the receiver holding either nothing or, when only the domain
    lookup failed, a state freshly fetched from storage, and the other context
    as it was. *)
Theorem commit_error_clearing (env : Env) :
  (forall s now newContext newMutableState currentPolicy newPolicy w e w',
     updateWorkflowExecutionWithNew env s now newContext newMutableState currentPolicy
       newPolicy w = (Normal (Some e), w') ->
     msBuilder (ctx_of w' s) = None /\ stats (ctx_of w' s) = None)
  /\ (forall s newWorkflow historySize now createMode prevRunID prevLastWriteVersion w e w' x,
        createWorkflowExecution env s newWorkflow historySize now createMode prevRunID
          prevLastWriteVersion w = (Normal (Some e), w') ->
        ctx_of w' x = ctx_of w x)
  /\ (forall s now prevRunID prevLastWriteVersion prevState resetMutableState
             resetHistorySize w,
        match ms_CloseTransactionAsSnapshot resetMutableState now transactionPolicyPassive with
        | Fail _ => True
        | Ok (_, workflowEventsSeq) =>
            workflowEventsSeq <> [] \/
            ans_err (env_answer env (List.length (w_calls w))) <> None
        end ->
        exists e w',
          conflictResolveWorkflowExecution env s now prevRunID prevLastWriteVersion prevState
            resetMutableState resetHistorySize w = (Normal (None, Some e), w')
          /\ forall x, ctx_of w' x = ctx_of w x)
  /\ (forall s now prevRunID prevLastWriteVersion prevState resetMutableState
             resetHistorySize w r e w',
        conflictResolveWorkflowExecution env s now prevRunID prevLastWriteVersion prevState
          resetMutableState resetHistorySize w = (Normal (r, Some e), w') ->
        r = None /\
        ((forall x, ctx_of w' x = ctx_of w x) \/
         (ans_err (env_answer env (List.length (w_calls w))) = None /\
          (forall x, x <> s -> ctx_of w' x = ctx_of w x) /\
          (msBuilder (ctx_of w' s) = None \/
           exists n, (List.length (w_calls w) < n)%nat /\ ans_err (env_answer env n) = None /\
             env_domain env = Fail e /\
             msBuilder (ctx_of w' s) = Some (env_load env (ans_state (env_answer env n)))))))
  /\ (forall s currMutableState updateCurr closeTask cleanupTask newMutableState
             newHistorySize a b c d baseRunID baseRunNextEventID w e w',
        resetWorkflowExecution env s currMutableState updateCurr closeTask cleanupTask
          newMutableState newHistorySize a b c d baseRunID baseRunNextEventID w
          = (Normal (Some e), w') ->
        forall x, msBuilder (ctx_of w' x) = msBuilder (ctx_of w x)).
Proof.
  split; [|split; [|split; [|split]]].
  - intros s now nc nms cp np w e w' H.
    exact (deferOnError_clear s _ w e w' H).
  - intros s newWorkflow historySize now createMode prevRunID prevLastWriteVersion w e w' x H.
    unfold createWorkflowExecution, bind in H.
    pose proof (createWorkflowExecutionWithRetry_io env
                  (mkCreateRequest createMode prevRunID prevLastWriteVersion
                     (ws_set_ExecutionStats newWorkflow historySize)) w) as Hio.
    destruct (createWorkflowExecutionWithRetry _ _ w) as [[[r [err|]]|p] w1];
      simpl in H, Hio; inversion H; subst.
    exact (io_only_ctx _ _ _ x Hio).
  - intros s now prevRunID prevLastWriteVersion prevState resetMutableState
      resetHistorySize w Hfail.
    unfold conflictResolveWorkflowExecution.
    destruct (ms_CloseTransactionAsSnapshot resetMutableState now transactionPolicyPassive)
      as [[snap seq]|err].
    + destruct seq as [|b seq].
      * destruct Hfail as [Hne | Herr]; [congruence|].
        simpl. unfold bind. simpl.
        destruct (ans_err (env_answer env (List.length (w_calls w)))) as [err|] eqn:Ea;
          [|congruence].
        do 2 eexists. split; [reflexivity|]. intros x. destruct x; reflexivity.
      * do 2 eexists. split; [reflexivity|]. reflexivity.
    + do 2 eexists. split; [reflexivity|]. reflexivity.
  - intros s now prevRunID prevLastWriteVersion prevState resetMutableState
      resetHistorySize w r e w' H.
    unfold conflictResolveWorkflowExecution in H.
    destruct (ms_CloseTransactionAsSnapshot resetMutableState now transactionPolicyPassive)
      as [[snap seq]|err]; [|inversion H; subst; split; [reflexivity | left; reflexivity]].
    destruct seq as [|b seq]; [|inversion H; subst; split; [reflexivity | left; reflexivity]].
    simpl in H. unfold bind at 1 in H. unfold storageCall in H. simpl in H.
    destruct (ans_err (env_answer env (List.length (w_calls w)))) as [err|] eqn:Ea.
    + inversion H; subst. split; [reflexivity|]. left. intros x. destruct x; reflexivity.
    + unfold bind at 1 in H. simpl in H. unfold bind at 1 in H. simpl in H.
      match type of H with loadWorkflowExecution env s ?w2 = _ =>
        assert (Hc : msBuilder (ctx_of w2 s) = None) by (destruct s; reflexivity);
        destruct (load_uncached_error env s w2 r e w' Hc H) as (Hr & Ho & Hs)
      end.
      split; [exact Hr|]. right. split; [reflexivity|]. split.
      * intros x Hx. rewrite (Ho x Hx). destruct s, x; simpl; congruence.
      * destruct Hs as [Hs | (n & Hn & Ha & Hd & Hm)].
        -- left. rewrite Hs. destruct s; reflexivity.
        -- right. exists n. rewrite set_ctx_calls in Hn. simpl in Hn.
           rewrite length_app in Hn. simpl in Hn. split; [lia|]. auto.
  - intros s currMutableState updateCurr closeTask cleanupTask newMutableState
      newHistorySize a b c d baseRunID baseRunNextEventID w e w' H x.
    pose proof (resetWorkflowExecution_same_cache env s currMutableState updateCurr closeTask
                  cleanupTask newMutableState newHistorySize a b c d baseRunID
                  baseRunNextEventID w) as [E1 E2].
    rewrite H in E1, E2. simpl in E1, E2. destruct x; simpl; assumption.
Qed.

(** C1 is refuted by a conflict-resolve whose storage call fails on a
    context with a cached mutable state: the error is returned and the cached
    state survives. *)
Lemma commit_error_clearing_counterexample :
  conflictResolveWorkflowExecution (envWith 0 (OtherError 1) false (Ok (mkDomainEntry "domain" 7 1)))
    SlotCurrent 0 "r0" 0 WorkflowStateRunning plainMs 100
    (worldOf (ctxWith "r1" (Some plainMs) 100 10) freshNew)
  = (Normal (None, Some (OtherError 1)),
     mkWorld (ctxWith "r1" (Some plainMs) 100 10) freshNew
       [CallConflictResolveWorkflowExecution
          (mkConflictResolveRequest "r0" 0 WorkflowStateRunning
             (ws_set_ExecutionStats (snapshot "r1" []) 100))] [])
  /\ msBuilder (ctxWith "r1" (Some plainMs) 100 10) = Some plainMs.
Proof. split; reflexivity. Qed.

Lemma closeCurrentAndPersist_fail_io env s now policy w e w1 :
  closeCurrentAndPersist env s now policy w = (Normal (Fail e), w1) ->
  io_only notUpdate w w1.
Proof.
  unfold closeCurrentAndPersist, bind, getCtx. simpl.
  destruct (msBuilder (ctx_of w s)) as [ms|]; [|discriminate].
  destruct (ms_CloseTransactionAsMutation ms now policy) as [[m seq]|err];
    [|intros H; inversion H; reflexivity].
  unfold getHistorySize, bind, getCtx. simpl.
  destruct (stats (ctx_of w s)) as [st|]; [|discriminate]. simpl.
  pose proof (persistNonFirstLoop_io env seq (HistorySize st) w) as Hio.
  destruct (persistNonFirstLoop env seq (HistorySize st) w) as [[[size' [err|]]|p] w2];
    simpl; [intros H; inversion H; subst; exact Hio | | discriminate].
  unfold setHistorySize, bind, getCtx. simpl.
  destruct (stats (ctx_of w2 s)); simpl; discriminate.
Qed.

(** C2 (amended): when a paired update fails, the current context is
    cleared.  The error comes either from the current workflow's close and
    history appends or from a later step.  In the first case the update
    returns that very error and the paired new context (a context other than
    the receiver) is left as it was; in the second case, i.e. for every error
    from the new run's close, its first-batch append, the merge or the
    storage update, the paired new context is cleared as well. *)
Theorem paired_update_error_clearing (env : Env) (s nc : Slot) (now : Z)
  (nms : mutableState) (currentPolicy newPolicy : transactionPolicy) (w w' : World) (e : Err)
  (Hrun : updateWorkflowExecutionWithNew env s now (Some nc) (Some nms) currentPolicy
            (Some newPolicy) w = (Normal (Some e), w')) :
  msBuilder (ctx_of w' s) = None /\ stats (ctx_of w' s) = None /\
  ((exists m w1, closeCurrentAndPersist env s now currentPolicy w = (Normal (Ok m), w1)) \/
   (exists w1, closeCurrentAndPersist env s now currentPolicy w = (Normal (Fail e), w1))) /\
  ((exists m w1, closeCurrentAndPersist env s now currentPolicy w = (Normal (Ok m), w1)) ->
   msBuilder (ctx_of w' nc) = None /\ stats (ctx_of w' nc) = None) /\
  (forall e0 w1, closeCurrentAndPersist env s now currentPolicy w = (Normal (Fail e0), w1) ->
   s <> nc -> e = e0 /\ ctx_of w' nc = ctx_of w nc).
Proof.
  split; [|split; [|split; [|split]]].
  1-2: exact (proj1 (deferOnError_clear s _ w e w' Hrun)) ||
       exact (proj2 (deferOnError_clear s _ w e w' Hrun)).
  - unfold updateWorkflowExecutionWithNew, deferOnError', bind in Hrun.
    destruct (closeCurrentAndPersist env s now currentPolicy w) as [[[m|e0]|p] w1];
      cbv beta iota in Hrun.
    + left. exists m, w1. reflexivity.
    + right. exists w1. simpl in Hrun. inversion Hrun. reflexivity.
    + discriminate Hrun.
  - intros (m & w1 & E1).
    unfold updateWorkflowExecutionWithNew in Hrun.
    apply (deferOnError_clear_keeps s _ w e w' nc Hrun).
    intros w2 Hbody. unfold bind in Hbody. rewrite E1 in Hbody.
    exact (deferOnError_clear nc _ w1 e w2 Hbody).
  - intros e0 w1 E1 Hne.
    pose proof (closeCurrentAndPersist_fail_io _ _ _ _ _ _ _ E1) as Hio.
    unfold updateWorkflowExecutionWithNew, deferOnError', bind in Hrun.
    rewrite E1 in Hrun. simpl in Hrun. inversion Hrun; subst. split; [reflexivity|].
    rewrite ctx_of_set_ctx_other by exact Hne. exact (io_only_ctx _ _ _ nc Hio).
Qed.

Lemma paired_update_error_clearing_witness :
  let env := envWith 2 (OtherError 1) false (Ok (mkDomainEntry "domain" 7 1)) in
  let w := worldOf (ctxWith "r1" (Some plainMs) 100 10) (ctxWith "r2" (Some pairedMs) 0 0) in
  exists w',
    updateWorkflowExecutionWithNew env SlotCurrent 0 (Some SlotNew) (Some pairedMs)
      transactionPolicyActive (Some transactionPolicyActive) w
    = (Normal (Some (OtherError 1)), w')
    /\ msBuilder (ctx_of w' SlotCurrent) = None /\ stats (ctx_of w' SlotCurrent) = None
    /\ ((exists m w1, closeCurrentAndPersist env SlotCurrent 0 transactionPolicyActive w
                      = (Normal (Ok m), w1)) \/
        (exists w1, closeCurrentAndPersist env SlotCurrent 0 transactionPolicyActive w
                    = (Normal (Fail (OtherError 1)), w1)))
    /\ ((exists m w1, closeCurrentAndPersist env SlotCurrent 0 transactionPolicyActive w
                      = (Normal (Ok m), w1)) ->
        msBuilder (ctx_of w' SlotNew) = None /\ stats (ctx_of w' SlotNew) = None)
    /\ (forall e0 w1, closeCurrentAndPersist env SlotCurrent 0 transactionPolicyActive w
                      = (Normal (Fail e0), w1) ->
        SlotCurrent <> SlotNew -> OtherError 1 = e0 /\ ctx_of w' SlotNew = ctx_of w SlotNew).
Proof.
  intros env w.
  destruct (updateWorkflowExecutionWithNew env SlotCurrent 0 (Some SlotNew) (Some pairedMs)
              transactionPolicyActive (Some transactionPolicyActive) w) as [r w'] eqn:E.
  assert (Hr : r = Normal (Some (OtherError 1))) by (vm_compute in E; inversion E; reflexivity).
  subst r. exists w'. split; [reflexivity|].
  exact (paired_update_error_clearing _ SlotCurrent SlotNew 0 pairedMs _ _ _ w' (OtherError 1) E).
Defined.

(** C2 is refuted by a paired update whose current workflow fails to close:
    the error is returned with the new context's cached state intact. *)
Lemma paired_update_error_clearing_counterexample :
  updateWorkflowExecutionWithNew okEnv SlotCurrent 0 (Some SlotNew) (Some pairedMs)
    transactionPolicyActive (Some transactionPolicyActive)
    (worldOf (ctxWith "r1" (Some failingMs) 100 10) (ctxWith "r2" (Some pairedMs) 0 0))
  = (Normal (Some (OtherError 2)),
     worldOf (mkContext "domain" (mkWorkflowExecution "wf" "r1") None None 10)
       (ctxWith "r2" (Some pairedMs) 0 0))
  /\ msBuilder (ctxWith "r2" (Some pairedMs) 0 0) = Some pairedMs.
Proof. split; reflexivity. Qed.

(** ** C4: the update condition after a successful commit *)

Lemma retryCall_in env fuel c w : In c (w_calls (snd (retryCall env fuel c w))).
Proof.
  revert w. induction fuel as [|fuel IH]; intros w; simpl; unfold bind; simpl;
    destruct (ans_err _); simpl; try (apply in_or_app; right; left; reflexivity).
  - destruct (env_is_transient env e); [apply IH|]. simpl.
    apply in_or_app; right; left; reflexivity.
Qed.

Lemma closeCurrentAndPersist_ok env s now policy w m' w1 :
  closeCurrentAndPersist env s now policy w = (Normal (Ok m'), w1) ->
  exists ms m seq,
    msBuilder (ctx_of w s) = Some ms /\
    ms_CloseTransactionAsMutation ms now policy = Ok (m, seq) /\
    wm_ExecutionInfo m' = wm_ExecutionInfo m /\ wm_Condition m' = wm_Condition m.
Proof.
  unfold closeCurrentAndPersist, bind, getCtx. simpl.
  destruct (msBuilder (ctx_of w s)) as [ms|]; [|discriminate].
  destruct (ms_CloseTransactionAsMutation ms now policy) as [[m seq]|err] eqn:Ec;
    [|discriminate].
  intros H. exists ms, m, seq. split; [reflexivity|]. split; [exact Ec|].
  destruct (getHistorySize s w) as [[size|p] w2]; [|discriminate].
  destruct (persistNonFirstLoop env seq size w2) as [[[size' [err|]]|p] w3]; try discriminate.
  destruct (setHistorySize s size' w3) as [[[]|p] w4]; [|discriminate].
  inversion H. split; reflexivity.
Qed.

Lemma commitUpdate_ok env s m nw w w' :
  commitUpdate env s m nw w = (Normal None, w') ->
  exists request,
    In (CallUpdateWorkflowExecution request) (w_calls w') /\
    wm_ExecutionInfo (UpdateWorkflowMutation request) = wm_ExecutionInfo m /\
    wm_Condition (UpdateWorkflowMutation request) = wm_Condition m /\
    updateCondition (ctx_of w' s) = ei_NextEventID (wm_ExecutionInfo m).
Proof.
  unfold commitUpdate. intros H.
  destruct (mergeContinueAsNewReplicationTasks m nw) as [[[m1 nw1] [err|]]|p] eqn:Em;
    try (unfold panic, ret in H; discriminate H).
  destruct (merge_keeps_execution _ _ _ _ _ Em) as [Ei Ec].
  unfold updateWorkflowExecutionWithRetry, bind in H.
  pose proof (retryCall_in env (env_retry_budget env)
                (CallUpdateWorkflowExecution (mkUpdateRequest m1 nw1)) w) as Hin.
  destruct (retryCall env (env_retry_budget env)
              (CallUpdateWorkflowExecution (mkUpdateRequest m1 nw1)) w) as [[a|p] w1];
    [|simpl in H; discriminate H].
  simpl in Hin.
  destruct (ans_err a) as [[]|]; cbv [check ret snd] in H; simpl in H;
    try (inversion H; fail).
  exists (mkUpdateRequest m1 nw1).
  destruct nw1; simpl in H; inversion H; subst; clear H;
    destruct s; simpl; (split; [exact Hin|]); rewrite Ei, Ec; auto.
Qed.

Lemma deferOnError_none cleanup body w w' :
  deferOnError' cleanup body w = (Normal None, w') -> body w = (Normal None, w').
Proof.
  unfold deferOnError', bind.
  destruct (body w) as [[[r|]|p] w1]; cbv beta iota zeta; intros H.
  - destruct (cleanup w1) as [[u|q] w2]; inversion H.
  - exact H.
  - discriminate H.
Qed.

Lemma update_success_commit env s now newContext newMutableState policy newPolicy w w' :
  updateWorkflowExecutionWithNew env s now newContext newMutableState policy newPolicy w
    = (Normal None, w') ->
  exists cw w1 nw w2,
    closeCurrentAndPersist env s now policy w = (Normal (Ok cw), w1) /\
    commitUpdate env s cw nw w2 = (Normal None, w').
Proof.
  unfold updateWorkflowExecutionWithNew. intros H.
  apply deferOnError_none in H. unfold bind in H.
  destruct (closeCurrentAndPersist env s now policy w) as [[[cw|err]|p] w1] eqn:E1;
    cbv beta iota zeta in H; try discriminate H.
  exists cw, w1.
  destruct newContext as [nc|], newMutableState as [nms|], newPolicy as [np|];
    try (exists None, w1; split; [reflexivity | exact H]).
  apply deferOnError_none in H. unfold bind in H.
  destruct (closeNewAndPersist env s nc nms now np w1) as [[[nw|err]|p] w2];
    cbv beta iota zeta in H; try discriminate H.
  exists (Some nw), w2. split; [reflexivity | exact H].
Qed.

(** C4: a successful update submits the mutation closed from the cached
    mutable state, with its ExecutionInfo and Condition unchanged, and leaves
    the context's updateCondition equal to that mutation's NextEventID.  The
    commit assigns this value without comparing it with the previous update
    condition, so the growth rests on the mutable state builder's contract:
    the events a transaction persists are numbered from the context's update
    condition on, and lie below the NextEventID its closed mutation reports.
    Under that contract, a successful commit that persisted at least one
    event leaves the updateCondition strictly greater than before. *)
Theorem update_success_condition env s now newContext newMutableState policy newPolicy w w' :
  updateWorkflowExecutionWithNew env s now newContext newMutableState policy newPolicy w
    = (Normal None, w') ->
  exists ms m workflowEventsSeq request,
    msBuilder (ctx_of w s) = Some ms /\
    ms_CloseTransactionAsMutation ms now policy = Ok (m, workflowEventsSeq) /\
    In (CallUpdateWorkflowExecution request) (w_calls w') /\
    wm_ExecutionInfo (UpdateWorkflowMutation request) = wm_ExecutionInfo m /\
    wm_Condition (UpdateWorkflowMutation request) = wm_Condition m /\
    updateCondition (ctx_of w' s) = ei_NextEventID (wm_ExecutionInfo m) /\
    (updateCondition (ctx_of w s) < updateCondition (ctx_of w' s) <->
     updateCondition (ctx_of w s) < ei_NextEventID (wm_ExecutionInfo m)) /\
    ((forall b ev, In b workflowEventsSeq -> In ev (we_Events b) ->
        updateCondition (ctx_of w s) <= EventId ev < ei_NextEventID (wm_ExecutionInfo m)) ->
     (exists b, In b workflowEventsSeq /\ we_Events b <> []) ->
     updateCondition (ctx_of w s) < updateCondition (ctx_of w' s)).
Proof.
  intros H.
  destruct (update_success_commit _ _ _ _ _ _ _ _ _ H) as (cw & w1 & nw & w2 & E1 & E2).
  destruct (closeCurrentAndPersist_ok _ _ _ _ _ _ _ E1) as (ms & m & seq & Hms & Hc & Hei & Hco).
  destruct (commitUpdate_ok _ _ _ _ _ _ E2) as (request & Hin & Rei & Rco & Hu).
  exists ms, m, seq, request.
  rewrite Hu, Hei. rewrite Hei in Rei. rewrite Hco in Rco.
  split; [exact Hms|]. split; [exact Hc|]. split; [exact Hin|].
  split; [exact Rei|]. split; [exact Rco|]. split; [reflexivity|].
  split; [split; auto|].
  intros Hcon (b & Hb & Hne).
  destruct (we_Events b) as [|ev evs] eqn:Eb; [congruence|].
  assert (Hev : In ev (we_Events b)) by (rewrite Eb; left; reflexivity).
  destruct (Hcon b ev Hb Hev). lia.
Qed.

Lemma update_success_condition_witness :
  let w := worldOf (ctxWith "r1" (Some plainMs) 100 10) freshNew in
  exists w',
    updateWorkflowExecutionWithNew okEnv SlotCurrent 0 None None transactionPolicyActive None w
      = (Normal None, w') /\
    exists ms m workflowEventsSeq request,
      msBuilder (ctx_of w SlotCurrent) = Some ms /\
      ms_CloseTransactionAsMutation ms 0 transactionPolicyActive = Ok (m, workflowEventsSeq) /\
      In (CallUpdateWorkflowExecution request) (w_calls w') /\
      wm_ExecutionInfo (UpdateWorkflowMutation request) = wm_ExecutionInfo m /\
      wm_Condition (UpdateWorkflowMutation request) = wm_Condition m /\
      updateCondition (ctx_of w' SlotCurrent) = ei_NextEventID (wm_ExecutionInfo m) /\
      (updateCondition (ctx_of w SlotCurrent) < updateCondition (ctx_of w' SlotCurrent) <->
       updateCondition (ctx_of w SlotCurrent) < ei_NextEventID (wm_ExecutionInfo m)) /\
      ((forall b ev, In b workflowEventsSeq -> In ev (we_Events b) ->
          updateCondition (ctx_of w SlotCurrent) <= EventId ev < ei_NextEventID (wm_ExecutionInfo m)) ->
       (exists b, In b workflowEventsSeq /\ we_Events b <> []) ->
       updateCondition (ctx_of w SlotCurrent) < updateCondition (ctx_of w' SlotCurrent)).
Proof.
  intros w.
  destruct (updateWorkflowExecutionWithNew okEnv SlotCurrent 0 None None
              transactionPolicyActive None w) as [r w'] eqn:E.
  assert (Hr : r = Normal None) by (vm_compute in E; inversion E; reflexivity).
  subst r. exists w'. split; [reflexivity|].
  exact (update_success_condition okEnv SlotCurrent 0 None None transactionPolicyActive None
           w w' E).
Defined.

(** ** C8: loading through the cache *)

Lemma retryCall_grows env fuel c w :
  (List.length (w_calls w) < List.length (w_calls (snd (retryCall env fuel c w))))%nat.
Proof.
  revert w. induction fuel as [|fuel IH]; intros w; simpl; unfold bind; simpl;
    destruct (ans_err _) as [e|]; simpl; try (rewrite length_app; simpl; lia).
  destruct (env_is_transient env e); simpl; [|rewrite length_app; simpl; lia].
  match goal with |- context [retryCall env fuel c ?w1] =>
    specialize (IH w1); simpl in IH; rewrite length_app in IH; simpl in IH; lia end.
Qed.

Lemma updateVersion_calls env s w : w_calls (snd (updateVersion env s w)) = w_calls w.
Proof.
  unfold updateVersion, bind, getCtx, ret, putCtx, panic; simpl.
  destruct (env_global_domain_enabled env); [|reflexivity].
  destruct (msBuilder (ctx_of w s)) as [ms|]; [|reflexivity].
  destruct (ms_ReplicationState ms); [|reflexivity].
  destruct (negb _); [reflexivity|].
  destruct (env_domain env); simpl; [apply set_ctx_calls|reflexivity].
Qed.

Lemma updateVersion_cached env s w ms :
  msBuilder (ctx_of w s) = Some ms ->
  msBuilder (ctx_of (snd (updateVersion env s w)) s) <> None /\
  (fst (updateVersion env s w) = Normal None \/
   exists e, env_domain env = Fail e /\ fst (updateVersion env s w) = Normal (Some e)).
Proof.
  intros Hc. unfold updateVersion, bind, getCtx, ret, putCtx; simpl. rewrite Hc.
  destruct (env_global_domain_enabled env);
    [|simpl; rewrite Hc; split; [discriminate | left; reflexivity]].
  destruct (ms_ReplicationState ms); [|simpl; rewrite Hc; split; [discriminate | left; reflexivity]].
  destruct (negb _); [simpl; rewrite Hc; split; [discriminate | left; reflexivity]|].
  destruct (env_domain env) as [d|e]; simpl.
  - rewrite ctx_of_set_ctx_same. simpl. split; [discriminate | left; reflexivity].
  - rewrite Hc. split; [discriminate | right; exists e; auto].
Qed.

Lemma load_cached env s w ms :
  msBuilder (ctx_of w s) = Some ms ->
  let '(r, w1) := loadWorkflowExecution env s w in
  w_calls w1 = w_calls w /\ msBuilder (ctx_of w1 s) <> None /\
  (r = Normal (msBuilder (ctx_of w1 s), None) \/
   exists e, env_domain env = Fail e /\ r = Normal (None, Some e)).
Proof.
  intros Hc. unfold loadWorkflowExecution, loadWorkflowExecutionInternal, bind, getCtx, ret.
  simpl. rewrite Hc. simpl.
  pose proof (updateVersion_calls env s w) as Hcalls.
  destruct (updateVersion_cached env s w ms Hc) as [Hkeep Hres].
  destruct (updateVersion env s w) as [[[e|]|p] w1]; simpl in *.
  - destruct Hres as [Hres|(e' & He & Hres)]; [discriminate Hres|].
    inversion Hres; subst. split; [exact Hcalls|]. split; [exact Hkeep|].
    right. exists e'. auto.
  - split; [exact Hcalls|]. split; [exact Hkeep|]. left. reflexivity.
  - destruct Hres as [Hres|(e' & He & Hres)]; discriminate Hres.
Qed.

Lemma load_uncached_fetches env s w :
  msBuilder (ctx_of w s) = None ->
  exists l, w_calls (snd (loadWorkflowExecution env s w)) = (w_calls w ++ l)%list /\
            l <> [] /\ forallb isGetCall l = true.
Proof.
  intros Hc. unfold loadWorkflowExecution, loadWorkflowExecutionInternal.
  unfold bind at 1. unfold bind at 1. unfold getCtx at 1. simpl. rewrite Hc.
  unfold getWorkflowExecutionWithRetry. unfold bind at 1. unfold bind at 1.
  set (c := CallGetWorkflowExecution (mkGetRequest (domainID (ctx_of w s))
                                        (workflowExecution (ctx_of w s)))).
  pose proof (retryCall_io env isGetCall (env_retry_budget env) c eq_refl w) as Hio.
  pose proof (retryCall_grows env (env_retry_budget env) c w) as Hg.
  destruct (retryCall env (env_retry_budget env) c w) as [[a|p] w1]; simpl in Hio, Hg;
    destruct Hio as (_ & _ & _ & l & Hl & Pl); exists l;
    (split; [|split; [intros ->; rewrite Hl, app_nil_r in Hg; lia | exact Pl]]).
  2: exact Hl.
  destruct (ans_err a) as [[]|]; simpl; try exact Hl.
  unfold bind, getCtx, putCtx, ret. simpl.
  pose proof (updateVersion_calls env s
    (set_ctx w1 s (mkContext (domainID (ctx_of w1 s)) (workflowExecution (ctx_of w1 s))
                     (Some (env_load env (ans_state a))) (Some (wms_ExecutionStats (ans_state a)))
                     (ei_NextEventID (wms_ExecutionInfo (ans_state a)))))) as Hu.
  rewrite set_ctx_calls in Hu.
  destruct (updateVersion env s _) as [[[e|]|p] w2]; simpl in *; rewrite Hu; exact Hl.
Qed.

Lemma load_cached_result env s w ms :
  msBuilder (ctx_of w s) = Some ms ->
  loadWorkflowExecution env s w =
  match env_global_domain_enabled env, ms_ReplicationState ms,
        ms_IsWorkflowExecutionRunning ms, env_domain env with
  | true, Some _, true, Fail e => (Normal (None, Some e), w)
  | true, Some _, true, Ok d =>
      let ms' := UpdateReplicationPolicy
                   (UpdateReplicationStateVersion ms (de_FailoverVersion d) false)
                   (de_ReplicationPolicy d) in
      (Normal (Some ms', None),
       set_ctx w s (ctx_set_cache (ctx_of w s) (Some ms') (stats (ctx_of w s))))
  | _, _, _, _ => (Normal (Some ms, None), w)
  end.
Proof.
  intros Hc.
  unfold loadWorkflowExecution, loadWorkflowExecutionInternal, updateVersion,
    bind, getCtx, ret, putCtx, panic.
  simpl. rewrite Hc. simpl.
  destruct (env_global_domain_enabled env); simpl; rewrite Hc; simpl; [|reflexivity].
  destruct (ms_ReplicationState ms); simpl; [|rewrite Hc; reflexivity].
  destruct (ms_IsWorkflowExecutionRunning ms); simpl; [|rewrite Hc; reflexivity].
  destruct (env_domain env) as [d|e]; simpl; [|reflexivity].
  rewrite ctx_of_set_ctx_same. reflexivity.
Qed.

(** C8 (amended): a load on a context whose mutable state is cached issues
    no storage call.  It returns the cached state itself, unless the version
    update runs (global domains enabled, a replication state, a running
    workflow): then it returns the cached state stamped with the domain's
    failover version and replication policy, now cached in its place, or,
    when the domain lookup fails, that error and no state, the cache left as
    it was.  A load on an empty cache issues one or more Get calls and
    nothing else; a second load then issues no call if the first one
    installed a state, and fetches again if it did not. *)
Theorem load_cache_fetches env s w :
  (forall ms, msBuilder (ctx_of w s) = Some ms ->
     w_calls (snd (loadWorkflowExecution env s w)) = w_calls w /\
     loadWorkflowExecution env s w =
     match env_global_domain_enabled env, ms_ReplicationState ms,
           ms_IsWorkflowExecutionRunning ms, env_domain env with
     | true, Some _, true, Fail e => (Normal (None, Some e), w)
     | true, Some _, true, Ok d =>
         let ms' := UpdateReplicationPolicy
                      (UpdateReplicationStateVersion ms (de_FailoverVersion d) false)
                      (de_ReplicationPolicy d) in
         (Normal (Some ms', None),
          set_ctx w s (ctx_set_cache (ctx_of w s) (Some ms') (stats (ctx_of w s))))
     | _, _, _, _ => (Normal (Some ms, None), w)
     end) /\
  (msBuilder (ctx_of w s) = None ->
     let '(_, w1) := loadWorkflowExecution env s w in
     let '(_, w2) := loadWorkflowExecution env s w1 in
     (exists l, w_calls w1 = (w_calls w ++ l)%list /\ l <> [] /\ forallb isGetCall l = true) /\
     (msBuilder (ctx_of w1 s) <> None -> w_calls w2 = w_calls w1) /\
     (msBuilder (ctx_of w1 s) = None ->
        exists l, w_calls w2 = (w_calls w1 ++ l)%list /\ l <> [] /\
                  forallb isGetCall l = true)).
Proof.
  split.
  - intros ms Hc. pose proof (load_cached env s w ms Hc) as Hk.
    destruct (loadWorkflowExecution env s w) as [r w1] eqn:E.
    split; [exact (proj1 Hk)|].
    rewrite <- E. exact (load_cached_result env s w ms Hc).
  - intros Hc. pose proof (load_uncached_fetches env s w Hc) as H1.
    destruct (loadWorkflowExecution env s w) as [r1 w1]. simpl in H1.
    pose proof (load_uncached_fetches env s w1) as H2.
    destruct (msBuilder (ctx_of w1 s)) as [ms1|] eqn:E1.
    + pose proof (load_cached env s w1 ms1 E1) as H3.
      destruct (loadWorkflowExecution env s w1) as [r2 w2].
      destruct H3 as [H3 _]. split; [exact H1|]. split; [intros _; exact H3 | discriminate].
    + specialize (H2 eq_refl).
      destruct (loadWorkflowExecution env s w1) as [r2 w2]. simpl in H2.
      split; [exact H1|]. split; [intros []; reflexivity | intros _; exact H2].
Qed.

Lemma load_cache_fetches_witness :
  let env := envWith 1000 TimeoutError true (Ok (mkDomainEntry "domain" 7 1)) in
  let w := worldOf (ctxWith "r1" (Some replicatedMs) 100 10) freshNew in
  let ms' := UpdateReplicationPolicy (UpdateReplicationStateVersion replicatedMs 7 false) 1 in
  (w_calls (snd (loadWorkflowExecution env SlotCurrent w)) = w_calls w /\
   loadWorkflowExecution env SlotCurrent w =
   (Normal (Some ms', None),
    set_ctx w SlotCurrent (ctx_set_cache (ctx_of w SlotCurrent) (Some ms')
                             (stats (ctx_of w SlotCurrent))))) /\
  (let '(_, w1) := loadWorkflowExecution env SlotNew w in
   let '(_, w2) := loadWorkflowExecution env SlotNew w1 in
   (exists l, w_calls w1 = (w_calls w ++ l)%list /\ l <> [] /\ forallb isGetCall l = true) /\
   (msBuilder (ctx_of w1 SlotNew) <> None -> w_calls w2 = w_calls w1) /\
   (msBuilder (ctx_of w1 SlotNew) = None ->
      exists l, w_calls w2 = (w_calls w1 ++ l)%list /\ l <> [] /\
                forallb isGetCall l = true)).
Proof.
  intros env w ms'. split.
  - exact (proj1 (load_cache_fetches env SlotCurrent w) replicatedMs eq_refl).
  - exact (proj2 (load_cache_fetches env SlotNew w) eq_refl).
Defined.

(** C8 is refuted twice. A cached load in a global domain whose lookup fails
    returns the lookup error and no state, the cached state kept; and two
    loads on an empty cache whose fetch fails issue two fetches. *)
Lemma load_cache_fetches_counterexample :
  loadWorkflowExecution (envWith 1000 TimeoutError true (Fail (OtherError 1))) SlotCurrent
    (worldOf (ctxWith "r1" (Some replicatedMs) 100 10) freshNew)
  = (Normal (None, Some (OtherError 1)),
     worldOf (ctxWith "r1" (Some replicatedMs) 100 10) freshNew) /\
  (let env := envWith 0 (OtherError 1) false (Ok (mkDomainEntry "domain" 7 1)) in
   let w := worldOf (ctxWith "r1" None 0 0) freshNew in
   let '(r1, w1) := loadWorkflowExecution env SlotCurrent w in
   let '(r2, w2) := loadWorkflowExecution env SlotCurrent w1 in
   r1 = Normal (None, Some (OtherError 1)) /\ r2 = Normal (None, Some (OtherError 1)) /\
   w_calls w2 = [CallGetWorkflowExecution (mkGetRequest "domain" (mkWorkflowExecution "wf" "r1"));
                 CallGetWorkflowExecution (mkGetRequest "domain" (mkWorkflowExecution "wf" "r1"))]).
Proof. split; [reflexivity | vm_compute; repeat split; reflexivity]. Qed.

(** ** C9: the unchecked [workflowEventsSeq[0]] of a paired update *)

Lemma never_ret p {A} (a : A) : never p (ret a).
Proof. intros w. discriminate. Qed.

Lemma never_panic p q {A} : p <> q -> never p (@panic A q).
Proof. intros Hpq w H. inversion H. congruence. Qed.

Lemma never_bind p {A B} (m : M A) (k : A -> M B) :
  never p m -> (forall a, never p (k a)) -> never p (bind m k).
Proof.
  intros Hm Hk w. unfold bind. specialize (Hm w).
  destruct (m w) as [[a|q] w1]; simpl in *; [apply Hk|].
  intros H. inversion H; subst. apply Hm. reflexivity.
Qed.

Lemma never_getCtx p s : never p (getCtx s).
Proof. intros w. discriminate. Qed.

Lemma never_putCtx p s c : never p (putCtx s c).
Proof. intros w. discriminate. Qed.

Lemma never_notifyTasks p a b c : never p (notifyTasks a b c).
Proof. intros w. discriminate. Qed.

Lemma never_deferOnError' p cleanup body :
  never p cleanup -> never p body -> never p (deferOnError' cleanup body).
Proof.
  intros Hc Hb. unfold deferOnError'. apply never_bind; [exact Hb|].
  intros [e|]; [apply never_bind; [exact Hc | intros; apply never_ret] | apply never_ret].
Qed.

Create HintDb never.
#[local] Hint Resolve never_ret never_getCtx never_putCtx never_notifyTasks : never.

Ltac never_tac :=
  repeat match goal with
  | |- never _ (bind _ _) => apply never_bind; [|intros ?]
  | |- never _ (deferOnError' _ _) => apply never_deferOnError'
  | |- never _ (panic _) => apply never_panic; discriminate
  | |- never _ (match ?x with _ => _ end) => destruct x
  | |- never _ (let (_, _) := ?x in _) => destruct x
  | |- never _ ?m => progress (auto with never)
  end.

Lemma never_retryCall env p fuel c : never p (retryCall env fuel c).
Proof.
  induction fuel as [|fuel IH]; simpl; unfold storageCall; never_tac;
    try (intros w; discriminate); auto.
Qed.
#[local] Hint Resolve never_retryCall : never.

Lemma never_persistFirst env p ev : never p (persistFirstWorkflowEvents env ev).
Proof.
  unfold persistFirstWorkflowEvents, appendHistoryEventsWithRetry,
    appendHistoryV2EventsWithRetry; never_tac.
Qed.

Lemma never_persistNonFirst env p ev : never p (persistNonFirstWorkflowEvents env ev).
Proof.
  unfold persistNonFirstWorkflowEvents, appendHistoryEventsWithRetry,
    appendHistoryV2EventsWithRetry; never_tac.
Qed.
#[local] Hint Resolve never_persistFirst never_persistNonFirst : never.

Lemma never_persistNonFirstLoop env p seq size :
  never p (persistNonFirstLoop env seq size).
Proof.
  revert size; induction seq as [|ev seq IH]; intros size; simpl; never_tac; auto.
Qed.
#[local] Hint Resolve never_persistNonFirstLoop : never.

Lemma never_index_getHistorySize s : never IndexOutOfRange (getHistorySize s).
Proof. unfold getHistorySize; never_tac. Qed.

Lemma never_index_setHistorySize s size : never IndexOutOfRange (setHistorySize s size).
Proof. unfold setHistorySize; never_tac. Qed.

Lemma never_index_clear s : never IndexOutOfRange (clear s).
Proof. unfold clear; never_tac. Qed.
#[local] Hint Resolve never_index_getHistorySize never_index_setHistorySize
  never_index_clear : never.

Lemma never_index_closeCurrentAndPersist env s now policy :
  never IndexOutOfRange (closeCurrentAndPersist env s now policy).
Proof. unfold closeCurrentAndPersist; never_tac. Qed.

Lemma merge_panic_kind m nw q :
  mergeContinueAsNewReplicationTasks m nw = Panicked q -> q = TypeAssertion.
Proof.
  unfold mergeContinueAsNewReplicationTasks.
  destruct (negb _); [discriminate|].
  destruct (wm_ReplicationTasks m) as [|t ts]; [discriminate|].
  destruct nw as [snap|]; [|discriminate].
  destruct (ws_ReplicationTasks snap) as [|u [|u' us]]; try discriminate.
  destruct (task_kind u); try (intros H; inversion H; reflexivity).
  destruct (existsb _ _); discriminate.
Qed.

Lemma never_index_commitUpdate env s m nw :
  never IndexOutOfRange (commitUpdate env s m nw).
Proof.
  unfold commitUpdate, updateWorkflowExecutionWithRetry, check.
  destruct (mergeContinueAsNewReplicationTasks m nw) as [[[m1 nw1] r]|q] eqn:E.
  - never_tac.
  - apply never_panic. intros Hq. subst q. apply merge_panic_kind in E. discriminate.
Qed.
#[local] Hint Resolve never_index_closeCurrentAndPersist never_index_commitUpdate : never.

Lemma never_index_paired env s now nc nms policy np :
  (forall snap, ms_CloseTransactionAsSnapshot nms now np <> Ok (snap, [])) ->
  never IndexOutOfRange
    (updateWorkflowExecutionWithNew env s now (Some nc) (Some nms) policy (Some np)).
Proof.
  intros Hne. unfold updateWorkflowExecutionWithNew, closeNewAndPersist.
  apply never_deferOnError'; [auto with never|].
  apply never_bind; [auto with never|]. intros [cw|err]; [|auto with never].
  apply never_deferOnError'; [auto with never|].
  destruct (ms_CloseTransactionAsSnapshot nms now np) as [[snap seq]|err] eqn:Ec;
    [|never_tac].
  destruct seq as [|ev seq]; [exfalso; exact (Hne snap eq_refl)|].
  never_tac.
Qed.

Lemma closeNewAndPersist_empty env s nc nms now np w snap :
  stats (ctx_of w nc) <> None ->
  ms_CloseTransactionAsSnapshot nms now np = Ok (snap, []) ->
  fst (closeNewAndPersist env s nc nms now np w) = Panicked IndexOutOfRange.
Proof.
  intros Hst Ec. unfold closeNewAndPersist. rewrite Ec.
  unfold getHistorySize, bind, getCtx, ret, panic. simpl.
  destruct (stats (ctx_of w nc)); [reflexivity | congruence].
Qed.

Lemma deferOnError'_panics cleanup body w p :
  fst (body w) = Panicked p -> fst (deferOnError' cleanup body w) = Panicked p.
Proof.
  unfold deferOnError', bind. destruct (body w) as [[r|q] w1]; simpl; congruence.
Qed.

(** C9: a paired update stops on an out-of-range index only when the new
    run's CloseTransactionAsSnapshot succeeded with an empty batch sequence;
    conversely, once the current run's close and appends succeeded and the
    new context has its stats, an empty sequence makes the update panic. *)
Theorem paired_update_index_panic env s now nc nms policy np w :
  (forall w', updateWorkflowExecutionWithNew env s now (Some nc) (Some nms) policy (Some np) w
                = (Panicked IndexOutOfRange, w') ->
     exists snap, ms_CloseTransactionAsSnapshot nms now np = Ok (snap, [])) /\
  (forall cw w1 snap,
     closeCurrentAndPersist env s now policy w = (Normal (Ok cw), w1) ->
     stats (ctx_of w1 nc) <> None ->
     ms_CloseTransactionAsSnapshot nms now np = Ok (snap, []) ->
     fst (updateWorkflowExecutionWithNew env s now (Some nc) (Some nms) policy (Some np) w)
       = Panicked IndexOutOfRange).
Proof.
  split.
  - intros w' H.
    destruct (ms_CloseTransactionAsSnapshot nms now np) as [[snap [|ev seq]]|err] eqn:Ec;
      [exists snap; reflexivity| |];
      exfalso; apply (never_index_paired env s now nc nms policy np) with (w := w);
      try (intros snap' Hs; congruence); rewrite H; reflexivity.
  - intros cw w1 snap E1 Hst Ec.
    apply deferOnError'_panics. unfold bind. rewrite E1. simpl.
    apply deferOnError'_panics. unfold bind.
    pose proof (closeNewAndPersist_empty env s nc nms now np w1 snap Hst Ec) as Hp.
    destruct (closeNewAndPersist env s nc nms now np w1) as [[r|q] w2]; simpl in *;
      congruence.
Qed.

Lemma paired_update_index_panic_witness :
  ms_CloseTransactionAsSnapshot emptyNewMs 0 transactionPolicyActive
    = Ok (snapshot "r2" [], []) /\
  fst (updateWorkflowExecutionWithNew okEnv SlotCurrent 0 (Some SlotNew) (Some emptyNewMs)
         transactionPolicyActive (Some transactionPolicyActive)
         (worldOf (ctxWith "r1" (Some plainMs) 100 10) freshNew))
    = Panicked IndexOutOfRange.
Proof.
  split; [reflexivity|].
  destruct (closeCurrentAndPersist okEnv SlotCurrent 0 transactionPolicyActive
              (worldOf (ctxWith "r1" (Some plainMs) 100 10) freshNew)) as [r w1] eqn:E1.
  assert (Hr : r = Normal (Ok (wm_set_ExecutionStats (mutation 12 WorkflowCloseStatusNone [] 10) 300)))
    by (vm_compute in E1; inversion E1; reflexivity).
  assert (Hw1 : stats (ctx_of w1 SlotNew) = Some (mkExecutionStats 0))
    by (vm_compute in E1; inversion E1; reflexivity).
  subst r.
  apply (proj2 (paired_update_index_panic okEnv SlotCurrent 0 SlotNew emptyNewMs
                  transactionPolicyActive transactionPolicyActive
                  (worldOf (ctxWith "r1" (Some plainMs) 100 10) freshNew))
           (wm_set_ExecutionStats (mutation 12 WorkflowCloseStatusNone [] 10) 300)
           w1 (snapshot "r2" [])).
  - exact E1.
  - rewrite Hw1. discriminate.
  - reflexivity.
Defined.

(** * Further properties of the context *)

(** ** The retry harness and the history appends *)


(** The first batch of a run: one request, sent again by the retry harness
    after each transient error: every answer but the last is a transient
    error, and the last is a success, an error that is not transient, or the
    one the retry budget ends on.  Without a branch token it goes to the
    legacy append, keyed by the first event's ID and version; with one it
    opens a new branch whose garbage-cleanup info is
    [domainID:workflowID:runID].  The size and error returned are the last
    answer's. *)
Theorem persistFirst_request env ev e0 es w :
  we_Events ev = e0 :: es ->
  let execution := mkWorkflowExecution (we_WorkflowID ev) (we_RunID ev) in
  let call :=
    match we_BranchToken ev with
    | [] => CallAppendHistoryEvents
              (mkAppendRequest (we_DomainID ev) execution (EventId e0) (Version e0)
                 (we_Events ev))
    | _ => CallAppendHistoryV2Events
             (mkAppendNodesRequest true
                (BuildHistoryGarbageCleanupInfo (we_DomainID ev) (we_WorkflowID ev)
                   (we_RunID ev))
                (we_BranchToken ev) (we_Events ev))
             (we_DomainID ev) execution
    end in
  exists n, retried env (env_retry_budget env) (List.length (w_calls w)) n /\
    persistFirstWorkflowEvents env ev w =
    (Normal (ans_size (env_answer env (List.length (w_calls w) + n)),
             ans_err (env_answer env (List.length (w_calls w) + n))),
     mkWorld (w_current w) (w_new w) ((w_calls w ++ repeat call (S n))%list) (w_notified w)).
Proof.
  intros He execution call. unfold persistFirstWorkflowEvents. rewrite He.
  unfold call; clear call.
  destruct (we_BranchToken ev) as [|b bs];
    unfold appendHistoryEventsWithRetry, appendHistoryV2EventsWithRetry, bind;
    match goal with |- context [retryCall env ?f ?c w] =>
      destruct (retryCall_shape env f c w) as (n & Hn & E) end;
    rewrite E; exists n; split; auto; rewrite He; reflexivity.
Qed.

Lemma persistFirst_request_witness :
  exists n, retried okEnv (env_retry_budget okEnv) (List.length (w_calls (worldOf freshNew freshNew))) n /\
    persistFirstWorkflowEvents okEnv (batch "r2" [mkHistoryEvent 1 1])
      (worldOf freshNew freshNew) =
    (Normal (ans_size (env_answer okEnv (List.length (w_calls (worldOf freshNew freshNew)) + n)),
             ans_err (env_answer okEnv (List.length (w_calls (worldOf freshNew freshNew)) + n))),
     mkWorld freshNew freshNew
       ((w_calls (worldOf freshNew freshNew) ++
         repeat (CallAppendHistoryEvents
                   (mkAppendRequest "domain" (mkWorkflowExecution "wf" "r2") 1 1
                      [mkHistoryEvent 1 1])) (S n))%list) []).
Proof.
  exact (persistFirst_request okEnv (batch "r2" [mkHistoryEvent 1 1]) (mkHistoryEvent 1 1) []
           (worldOf freshNew freshNew) eq_refl).
Defined.

(** A later batch with events: one request, sent again after each transient
    error as for the first batch (every answer but the last a transient
    error, the last ending the retry loop), that never opens a branch: the legacy append keyed by the
    first event without a branch token, otherwise a branch append with
    IsNewBranch false and no cleanup info. *)
Theorem persistNonFirst_request env ev e0 es w :
  we_Events ev = e0 :: es ->
  let execution := mkWorkflowExecution (we_WorkflowID ev) (we_RunID ev) in
  let call :=
    match we_BranchToken ev with
    | [] => CallAppendHistoryEvents
              (mkAppendRequest (we_DomainID ev) execution (EventId e0) (Version e0)
                 (we_Events ev))
    | _ => CallAppendHistoryV2Events
             (mkAppendNodesRequest false "" (we_BranchToken ev) (we_Events ev))
             (we_DomainID ev) execution
    end in
  exists n, retried env (env_retry_budget env) (List.length (w_calls w)) n /\
    persistNonFirstWorkflowEvents env ev w =
    (Normal (ans_size (env_answer env (List.length (w_calls w) + n)),
             ans_err (env_answer env (List.length (w_calls w) + n))),
     mkWorld (w_current w) (w_new w) ((w_calls w ++ repeat call (S n))%list) (w_notified w)).
Proof.
  intros He execution call. unfold persistNonFirstWorkflowEvents. rewrite He.
  unfold call; clear call.
  destruct (we_BranchToken ev) as [|b bs];
    unfold appendHistoryEventsWithRetry, appendHistoryV2EventsWithRetry, bind;
    match goal with |- context [retryCall env ?f ?c w] =>
      destruct (retryCall_shape env f c w) as (n & Hn & E) end;
    rewrite E; exists n; split; auto; rewrite He; reflexivity.
Qed.

Lemma persistNonFirst_request_witness :
  exists n, retried okEnv (env_retry_budget okEnv) (List.length (w_calls (worldOf freshNew freshNew))) n /\
    persistNonFirstWorkflowEvents okEnv
      (mkWorkflowEvents "domain" "wf" "r1" [x01] [mkHistoryEvent 10 1])
      (worldOf freshNew freshNew) =
    (Normal (ans_size (env_answer okEnv (List.length (w_calls (worldOf freshNew freshNew)) + n)),
             ans_err (env_answer okEnv (List.length (w_calls (worldOf freshNew freshNew)) + n))),
     mkWorld freshNew freshNew
       ((w_calls (worldOf freshNew freshNew) ++
         repeat (CallAppendHistoryV2Events
                   (mkAppendNodesRequest false "" [x01] [mkHistoryEvent 10 1])
                   "domain" (mkWorkflowExecution "wf" "r1")) (S n))%list) []).
Proof.
  exact (persistNonFirst_request okEnv
           (mkWorkflowEvents "domain" "wf" "r1" [x01] [mkHistoryEvent 10 1])
           (mkHistoryEvent 10 1) [] (worldOf freshNew freshNew) eq_refl).
Defined.

Lemma persistNonFirstLoop_app env l1 l2 size w :
  persistNonFirstLoop env (l1 ++ l2) size w =
  match persistNonFirstLoop env l1 size w with
  | (Normal (s1, None), w1) => persistNonFirstLoop env l2 s1 w1
  | r => r
  end.
Proof.
  revert size w. induction l1 as [|ev l1 IH]; intros size w; simpl.
  - reflexivity.
  - unfold bind.
    destruct (persistNonFirstWorkflowEvents env ev w) as [[[sz [e|]]|p] w1]; simpl;
      [reflexivity | apply IH | reflexivity].
Qed.

(** Appending the batches of a transaction stops at the first batch whose
    append fails: the batches after it are never sent, and the loop returns
    that error with the size reached before the failing batch. *)
Theorem persistNonFirstLoop_stops env pre b post size w s1 w1 sz err w2 :
  persistNonFirstLoop env pre size w = (Normal (s1, None), w1) ->
  persistNonFirstWorkflowEvents env b w1 = (Normal (sz, Some err), w2) ->
  persistNonFirstLoop env (pre ++ b :: post) size w = (Normal (s1, Some err), w2).
Proof.
  intros Hpre Hb. rewrite persistNonFirstLoop_app, Hpre. simpl.
  unfold bind. rewrite Hb. reflexivity.
Qed.

Lemma persistNonFirstLoop_stops_witness :
  persistNonFirstLoop (envWith 1 (OtherError 1) false (Ok (mkDomainEntry "domain" 7 1)))
    ([batch "r1" [mkHistoryEvent 10 1]] ++ batch "r1" [mkHistoryEvent 11 1]
       :: [batch "r1" [mkHistoryEvent 12 1]]) 0 (worldOf freshNew freshNew)
  = (Normal (200, Some (OtherError 1)),
     mkWorld freshNew freshNew
       [CallAppendHistoryEvents (mkAppendRequest "domain" (mkWorkflowExecution "wf" "r1") 10 1
                                   [mkHistoryEvent 10 1]);
        CallAppendHistoryEvents (mkAppendRequest "domain" (mkWorkflowExecution "wf" "r1") 11 1
                                   [mkHistoryEvent 11 1])] []).
Proof.
  apply (persistNonFirstLoop_stops _ [batch "r1" [mkHistoryEvent 10 1]]
           (batch "r1" [mkHistoryEvent 11 1]) [batch "r1" [mkHistoryEvent 12 1]] 0
           (worldOf freshNew freshNew) 200
           (mkWorld freshNew freshNew
              [CallAppendHistoryEvents (mkAppendRequest "domain" (mkWorkflowExecution "wf" "r1")
                                          10 1 [mkHistoryEvent 10 1])] [])
           0); reflexivity.
Defined.

(** ** Task notifications of an update *)

#[local] Instance same_notified_preorder : PreOrder same_notified.
Proof.
  split; [intros w; reflexivity | intros w1 w2 w3 E1 E2; unfold same_notified in *; congruence].
Qed.

Lemma io_only_same_notified P {A} (m : M A) :
  preserves (io_only P) m -> preserves same_notified m.
Proof. intros Hm w. destruct (Hm w) as (_ & _ & E & _). exact E. Qed.

Lemma putCtx_same_notified s c : preserves same_notified (putCtx s c).
Proof. intros w. unfold same_notified. destruct s; reflexivity. Qed.

Lemma clear_same_notified s : preserves same_notified (clear s).
Proof. intros w. unfold same_notified. destruct s; reflexivity. Qed.

Lemma setHistorySize_same_notified s size : preserves same_notified (setHistorySize s size).
Proof.
  intros w. unfold setHistorySize, bind, getCtx, same_notified.
  destruct (stats (ctx_of w s)); destruct s; reflexivity.
Qed.

Create HintDb notified.
#[local] Hint Resolve putCtx_same_notified clear_same_notified
  setHistorySize_same_notified : notified.
#[local] Hint Extern 2 (preserves same_notified _) =>
  first [ apply (io_only_same_notified notUpdate); solve [eauto with frames]
        | apply (io_only_same_notified (fun _ => true)); solve [eauto with frames] ]
  : notified.
#[local] Hint Extern 1 (preserves _ (ret _)) => apply preserves_ret : notified.
#[local] Hint Extern 1 (preserves _ (panic _)) => apply preserves_panic : notified.
#[local] Hint Extern 1 (preserves _ (getCtx _)) => apply preserves_getCtx : notified.

Ltac preserve_notified :=
  repeat (cbv beta;
    match goal with
    | |- preserves _ (bind _ _) => apply preserves_bind; [ | intro ]
    | |- preserves _ (check ?e _) => unfold check
    | |- preserves _ (match ?x with _ => _ end) => destruct x
    | |- preserves _ (let (_, _) := ?x in _) => destruct x
    | |- _ => solve [eauto with notified]
    end).

Lemma closeCurrentAndPersist_same_notified env s now policy :
  preserves same_notified (closeCurrentAndPersist env s now policy).
Proof. unfold closeCurrentAndPersist. preserve_notified. Qed.

Lemma closeNewAndPersist_same_notified env s nc nms now np :
  preserves same_notified (closeNewAndPersist env s nc nms now np).
Proof. unfold closeNewAndPersist. preserve_notified. Qed.

Lemma commitUpdate_quiet env s m nw : quiet_on_error (commitUpdate env s m nw).
Proof.
  intros w e w'. unfold commitUpdate.
  destruct (mergeContinueAsNewReplicationTasks m nw) as [[[m1 nw1] [err|]]|p];
    unfold ret, panic; [intros H; inversion H; reflexivity | | discriminate].
  unfold bind, updateWorkflowExecutionWithRetry.
  pose proof (retryCall_io env (fun _ => true) (env_retry_budget env)
                (CallUpdateWorkflowExecution (mkUpdateRequest m1 nw1)) eq_refl w) as Hio.
  unfold bind in *.
  destruct (retryCall env (env_retry_budget env)
              (CallUpdateWorkflowExecution (mkUpdateRequest m1 nw1)) w) as [[a|p] w1];
    simpl in Hio; [|discriminate].
  destruct Hio as (_ & _ & Hn & _).
  destruct (ans_err a) as [[]|]; simpl; intros H; inversion H; subst; try exact Hn.
  destruct nw1; discriminate.
Qed.

Lemma quiet_ret e : quiet_on_error (ret e).
Proof. intros w e' w' H. inversion H. reflexivity. Qed.

Lemma quiet_bind {A} (m : M A) (k : A -> M (option Err)) :
  preserves same_notified m -> (forall a, quiet_on_error (k a)) -> quiet_on_error (bind m k).
Proof.
  intros Hm Hk w e w'. unfold bind. specialize (Hm w).
  destruct (m w) as [[a|p] w1]; simpl in *; [|discriminate].
  intros H. rewrite (Hk a w1 e w' H). exact Hm.
Qed.

Lemma quiet_deferOnError' cleanup body :
  preserves same_notified cleanup -> quiet_on_error body ->
  quiet_on_error (deferOnError' cleanup body).
Proof.
  intros Hc Hb w e w'. unfold deferOnError', bind.
  specialize (Hb w).
  destruct (body w) as [[[r|]|p] w1]; simpl; [|discriminate|discriminate].
  specialize (Hc w1). specialize (Hb r w1 eq_refl).
  destruct (cleanup w1) as [[u|p] w2]; simpl in *; intros H; inversion H; subst;
    unfold same_notified in Hc; congruence.
Qed.

(** An update (paired or not, active or passive) that returns an error has
    sent no task notification: the notifications follow the storage update's
    success. *)
Theorem update_error_no_notification env s now newContext newMutableState policy newPolicy
  w e w' :
  updateWorkflowExecutionWithNew env s now newContext newMutableState policy newPolicy w
    = (Normal (Some e), w') ->
  w_notified w' = w_notified w.
Proof.
  revert w e w'. unfold updateWorkflowExecutionWithNew.
  apply quiet_deferOnError'; [apply clear_same_notified|].
  apply quiet_bind; [apply closeCurrentAndPersist_same_notified|].
  intros [cw|err]; [|apply quiet_ret].
  destruct newContext as [nc|], newMutableState as [nms|], newPolicy as [np|];
    try apply commitUpdate_quiet.
  apply quiet_deferOnError'; [apply clear_same_notified|].
  apply quiet_bind; [apply closeNewAndPersist_same_notified|].
  intros [nw|err]; [apply commitUpdate_quiet | apply quiet_ret].
Qed.

Lemma update_error_no_notification_witness :
  w_notified (snd (updateWorkflowExecutionWithNew
                     (envWith 1 ConditionFailedError false (Ok (mkDomainEntry "domain" 7 1)))
                     SlotCurrent 0 None None transactionPolicyActive None
                     (worldOf (ctxWith "r1" (Some plainMs) 100 10) freshNew)))
  = w_notified (worldOf (ctxWith "r1" (Some plainMs) 100 10) freshNew).
Proof.
  destruct (updateWorkflowExecutionWithNew
              (envWith 1 ConditionFailedError false (Ok (mkDomainEntry "domain" 7 1)))
              SlotCurrent 0 None None transactionPolicyActive None
              (worldOf (ctxWith "r1" (Some plainMs) 100 10) freshNew)) as [r w'] eqn:E.
  assert (Hr : r = Normal (Some ErrConflict)) by (vm_compute in E; inversion E; reflexivity).
  subst r. simpl. exact (update_error_no_notification _ _ _ _ _ _ _ _ _ w' E).
Defined.

Lemma commitUpdate_notified env s m nw w w' :
  commitUpdate env s m nw w = (Normal None, w') ->
  exists request,
    In (CallUpdateWorkflowExecution request) (w_calls w') /\
    w_notified w' =
      (w_notified w ++
       [(wm_TransferTasks (UpdateWorkflowMutation request),
         wm_ReplicationTasks (UpdateWorkflowMutation request),
         wm_TimerTasks (UpdateWorkflowMutation request))] ++
       match NewWorkflowSnapshot request with
       | Some nw' => [(ws_TransferTasks nw', ws_ReplicationTasks nw', ws_TimerTasks nw')]
       | None => []
       end)%list.
Proof.
  unfold commitUpdate. intros H.
  destruct (mergeContinueAsNewReplicationTasks m nw) as [[[m1 nw1] [err|]]|p];
    try (unfold panic, ret in H; discriminate H).
  unfold updateWorkflowExecutionWithRetry, bind in H.
  pose proof (retryCall_in env (env_retry_budget env)
                (CallUpdateWorkflowExecution (mkUpdateRequest m1 nw1)) w) as Hin.
  pose proof (retryCall_io env (fun _ => true) (env_retry_budget env)
                (CallUpdateWorkflowExecution (mkUpdateRequest m1 nw1)) eq_refl w) as Hio.
  destruct (retryCall env (env_retry_budget env)
              (CallUpdateWorkflowExecution (mkUpdateRequest m1 nw1)) w) as [[a|p] w1];
    [|simpl in H; discriminate H].
  simpl in Hin, Hio. destruct Hio as (_ & _ & Hn & _).
  destruct (ans_err a) as [[]|]; cbv [check ret snd] in H; simpl in H;
    try (inversion H; fail).
  exists (mkUpdateRequest m1 nw1).
  destruct nw1; simpl in H; inversion H; subst; clear H;
    destruct s; simpl; (split; [exact Hin|]); rewrite Hn; simpl;
    rewrite <- ?app_assoc; reflexivity.
Qed.

Lemma update_success_notified_prefix env s now newContext newMutableState policy newPolicy
  w w' :
  updateWorkflowExecutionWithNew env s now newContext newMutableState policy newPolicy w
    = (Normal None, w') ->
  exists cw nw w2,
    w_notified w2 = w_notified w /\ commitUpdate env s cw nw w2 = (Normal None, w').
Proof.
  unfold updateWorkflowExecutionWithNew. intros H.
  apply deferOnError_none in H. unfold bind in H.
  pose proof (closeCurrentAndPersist_same_notified env s now policy w) as N1.
  destruct (closeCurrentAndPersist env s now policy w) as [[[cw|err]|p] w1];
    cbv beta iota zeta in H; try discriminate H.
  simpl in N1. exists cw.
  destruct newContext as [nc|], newMutableState as [nms|], newPolicy as [np|];
    try (exists None, w1; split; [exact N1 | exact H]).
  apply deferOnError_none in H. unfold bind in H.
  pose proof (closeNewAndPersist_same_notified env s nc nms now np w1) as N2.
  destruct (closeNewAndPersist env s nc nms now np w1) as [[[nw|err]|p] w2];
    cbv beta iota zeta in H; try discriminate H.
  simpl in N2. exists (Some nw), w2. split; [unfold same_notified in *; congruence | exact H].
Qed.

(** A successful update notifies exactly the tasks it committed, once: the
    transfer, replication and timer tasks of the mutation sent to storage,
    then those of the new run's snapshot when one was sent. *)
Theorem update_success_notifications env s now newContext newMutableState policy newPolicy
  w w' :
  updateWorkflowExecutionWithNew env s now newContext newMutableState policy newPolicy w
    = (Normal None, w') ->
  exists request,
    In (CallUpdateWorkflowExecution request) (w_calls w') /\
    w_notified w' =
      (w_notified w ++
       [(wm_TransferTasks (UpdateWorkflowMutation request),
         wm_ReplicationTasks (UpdateWorkflowMutation request),
         wm_TimerTasks (UpdateWorkflowMutation request))] ++
       match NewWorkflowSnapshot request with
       | Some nw' => [(ws_TransferTasks nw', ws_ReplicationTasks nw', ws_TimerTasks nw')]
       | None => []
       end)%list.
Proof.
  intros H.
  destruct (update_success_notified_prefix _ _ _ _ _ _ _ _ _ H) as (cw & nw & w2 & N & C).
  destruct (commitUpdate_notified _ _ _ _ _ _ C) as (request & Hin & Hn).
  exists request. rewrite Hn, N. split; [exact Hin | reflexivity].
Qed.

Lemma update_success_notifications_witness :
  exists request,
    In (CallUpdateWorkflowExecution request)
       (w_calls (snd (updateWorkflowExecutionWithNew okEnv SlotCurrent 0 None None
                        transactionPolicyActive None
                        (worldOf (ctxWith "r1" (Some plainMs) 100 10) freshNew)))) /\
    w_notified (snd (updateWorkflowExecutionWithNew okEnv SlotCurrent 0 None None
                       transactionPolicyActive None
                       (worldOf (ctxWith "r1" (Some plainMs) 100 10) freshNew))) =
      (w_notified (worldOf (ctxWith "r1" (Some plainMs) 100 10) freshNew) ++
       [(wm_TransferTasks (UpdateWorkflowMutation request),
         wm_ReplicationTasks (UpdateWorkflowMutation request),
         wm_TimerTasks (UpdateWorkflowMutation request))] ++
       match NewWorkflowSnapshot request with
       | Some nw' => [(ws_TransferTasks nw', ws_ReplicationTasks nw', ws_TimerTasks nw')]
       | None => []
       end)%list.
Proof.
  destruct (updateWorkflowExecutionWithNew okEnv SlotCurrent 0 None None
              transactionPolicyActive None
              (worldOf (ctxWith "r1" (Some plainMs) 100 10) freshNew)) as [r w'] eqn:E.
  assert (Hr : r = Normal None) by (vm_compute in E; inversion E; reflexivity).
  subst r. simpl. exact (update_success_notifications _ _ _ _ _ _ _ _ w' E).
Defined.

(** ** Failures and frame of an update *)

(** When closing the current workflow or appending its history fails, the
    update returns that error having sent no storage update and no
    notification; the receiver is cleared and the other context is left as
    it was. *)
Theorem update_current_failure env s now newContext newMutableState policy newPolicy w e w1 :
  closeCurrentAndPersist env s now policy w = (Normal (Fail e), w1) ->
  exists w',
    updateWorkflowExecutionWithNew env s now newContext newMutableState policy newPolicy w
      = (Normal (Some e), w') /\
    msBuilder (ctx_of w' s) = None /\ stats (ctx_of w' s) = None /\
    (exists l, w_calls w' = (w_calls w ++ l)%list /\ forallb notUpdate l = true) /\
    w_notified w' = w_notified w /\
    (forall x, x <> s -> ctx_of w' x = ctx_of w x).
Proof.
  intros H. pose proof (closeCurrentAndPersist_fail_io _ _ _ _ _ _ _ H) as (C & N & Nt & Io).
  exists (set_ctx w1 s (ctx_set_cache (ctx_of w1 s) None None)).
  split.
  - unfold updateWorkflowExecutionWithNew, deferOnError', bind. rewrite H. reflexivity.
  - rewrite ctx_of_set_ctx_same. simpl. split; [reflexivity|]. split; [reflexivity|].
    destruct s; simpl; (split; [exact Io|]); (split; [exact Nt|]);
      intros [] Hx; simpl; congruence.
Qed.

Lemma update_current_failure_witness :
  exists w',
    updateWorkflowExecutionWithNew (envWith 0 (OtherError 1) false (Ok (mkDomainEntry "domain" 7 1)))
      SlotCurrent 0 None None transactionPolicyActive None
      (worldOf (ctxWith "r1" (Some plainMs) 100 10) freshNew)
      = (Normal (Some (OtherError 1)), w') /\
    msBuilder (ctx_of w' SlotCurrent) = None /\ stats (ctx_of w' SlotCurrent) = None /\
    (exists l, w_calls w' =
                 (w_calls (worldOf (ctxWith "r1" (Some plainMs) 100 10) freshNew) ++ l)%list /\
               forallb notUpdate l = true) /\
    w_notified w' = w_notified (worldOf (ctxWith "r1" (Some plainMs) 100 10) freshNew) /\
    (forall x, x <> SlotCurrent ->
       ctx_of w' x = ctx_of (worldOf (ctxWith "r1" (Some plainMs) 100 10) freshNew) x).
Proof.
  apply (update_current_failure _ SlotCurrent 0 None None transactionPolicyActive None
           (worldOf (ctxWith "r1" (Some plainMs) 100 10) freshNew) (OtherError 1)
           (mkWorld (ctxWith "r1" (Some plainMs) 100 10) freshNew
              [CallAppendHistoryEvents (mkAppendRequest "domain" (mkWorkflowExecution "wf" "r1")
                                          10 1 [mkHistoryEvent 10 1; mkHistoryEvent 11 1])] [])).
  reflexivity.
Defined.

Lemma retryCall_final env fuel c w e :
  ans_err (env_answer env (List.length (w_calls w))) = Some e ->
  env_is_transient env e = false ->
  retryCall env fuel c w =
  (Normal (env_answer env (List.length (w_calls w))),
   mkWorld (w_current w) (w_new w) ((w_calls w ++ [c])%list) (w_notified w)).
Proof.
  intros He Ht. destruct fuel; simpl; unfold bind, storageCall; simpl; rewrite He;
    [reflexivity | rewrite Ht; reflexivity].
Qed.

(** Optimistic-lock loss: when the storage update of a non-paired update is
    refused with a condition failure (not retried), the update sends that one
    request, returns ErrConflict and clears the context. *)
Theorem update_condition_failed_conflict env s now policy w cw w1 m1 nw1 :
  closeCurrentAndPersist env s now policy w = (Normal (Ok cw), w1) ->
  mergeContinueAsNewReplicationTasks cw None = Normal (m1, nw1, None) ->
  ans_err (env_answer env (List.length (w_calls w1))) = Some ConditionFailedError ->
  env_is_transient env ConditionFailedError = false ->
  exists w',
    updateWorkflowExecutionWithNew env s now None None policy None w
      = (Normal (Some ErrConflict), w') /\
    msBuilder (ctx_of w' s) = None /\ stats (ctx_of w' s) = None /\
    w_calls w' = (w_calls w1 ++ [CallUpdateWorkflowExecution (mkUpdateRequest m1 nw1)])%list.
Proof.
  intros H1 Hm Ha Ht.
  eexists. split.
  - unfold updateWorkflowExecutionWithNew, deferOnError', bind. rewrite H1. simpl.
    unfold commitUpdate. rewrite Hm. unfold updateWorkflowExecutionWithRetry, bind.
    rewrite (retryCall_final env _ _ w1 _ Ha Ht). simpl. rewrite Ha. reflexivity.
  - rewrite ctx_of_set_ctx_same. simpl. split; [reflexivity|]. split; [reflexivity|].
    destruct s; reflexivity.
Qed.

Lemma update_condition_failed_conflict_witness :
  exists w',
    updateWorkflowExecutionWithNew
      (envWith 1 ConditionFailedError false (Ok (mkDomainEntry "domain" 7 1)))
      SlotCurrent 0 None None transactionPolicyActive None
      (worldOf (ctxWith "r1" (Some plainMs) 100 10) freshNew)
      = (Normal (Some ErrConflict), w') /\
    msBuilder (ctx_of w' SlotCurrent) = None /\ stats (ctx_of w' SlotCurrent) = None /\
    w_calls w' =
      [CallAppendHistoryEvents (mkAppendRequest "domain" (mkWorkflowExecution "wf" "r1")
                                  10 1 [mkHistoryEvent 10 1; mkHistoryEvent 11 1]);
       CallUpdateWorkflowExecution
         (mkUpdateRequest (wm_set_ExecutionStats (mutation 12 WorkflowCloseStatusNone [] 10) 300)
            None)].
Proof.
  apply (update_condition_failed_conflict _ SlotCurrent 0 transactionPolicyActive
           (worldOf (ctxWith "r1" (Some plainMs) 100 10) freshNew)
           (wm_set_ExecutionStats (mutation 12 WorkflowCloseStatusNone [] 10) 300)
           (mkWorld (ctxWith "r1" (Some plainMs) 300 10) freshNew
              [CallAppendHistoryEvents (mkAppendRequest "domain" (mkWorkflowExecution "wf" "r1")
                                          10 1 [mkHistoryEvent 10 1; mkHistoryEvent 11 1])] [])
           (wm_set_ExecutionStats (mutation 12 WorkflowCloseStatusNone [] 10) 300) None);
    reflexivity.
Defined.

(** An update on a context whose mutable state is not loaded dereferences
    nil before anything else: no storage call, no change. *)
Theorem update_unloaded_panics env s now newContext newMutableState policy newPolicy w :
  msBuilder (ctx_of w s) = None ->
  updateWorkflowExecutionWithNew env s now newContext newMutableState policy newPolicy w
    = (Panicked NilDereference, w).
Proof.
  intros H. unfold updateWorkflowExecutionWithNew, deferOnError', closeCurrentAndPersist,
    bind, getCtx. simpl. rewrite H. reflexivity.
Qed.

Lemma update_unloaded_panics_witness :
  updateWorkflowExecutionWithNew okEnv SlotNew 0 None None transactionPolicyActive None
    (worldOf (ctxWith "r1" (Some plainMs) 100 10) freshNew)
  = (Panicked NilDereference, worldOf (ctxWith "r1" (Some plainMs) 100 10) freshNew).
Proof. apply update_unloaded_panics. reflexivity. Defined.

(** ** Creating, loading and conflict resolution *)

(** createWorkflowExecution stamps the snapshot with the given history size
    and sends that one create request, again after each transient error
    (every answer but the last a transient error, the last a success, an
    error that is not transient, or the one the budget ends on); it returns the last answer's error, touches neither context,
    and notifies the snapshot's tasks exactly when the create succeeded. *)
Theorem create_outcome env s newWorkflow historySize now createMode prevRunID
  prevLastWriteVersion w :
  exists n, retried env (env_retry_budget env) (List.length (w_calls w)) n /\
    let a := env_answer env (List.length (w_calls w) + n) in
    createWorkflowExecution env s newWorkflow historySize now createMode prevRunID
      prevLastWriteVersion w =
    (Normal (ans_err a),
     mkWorld (w_current w) (w_new w)
       ((w_calls w ++ repeat (CallCreateWorkflowExecution
                               (mkCreateRequest createMode prevRunID prevLastWriteVersion
                                  (ws_set_ExecutionStats newWorkflow historySize))) (S n))%list)
       ((w_notified w ++
         match ans_err a with
         | None => [(ws_TransferTasks newWorkflow, ws_ReplicationTasks newWorkflow,
                     ws_TimerTasks newWorkflow)]
         | Some _ => []
         end)%list)).
Proof.
  unfold createWorkflowExecution, createWorkflowExecutionWithRetry, bind.
  match goal with |- context [retryCall env ?f ?c w] =>
    destruct (retryCall_shape env f c w) as (n & Hn & E) end.
  rewrite E. exists n. split; [exact Hn|]. simpl.
  destruct (ans_err _) as [[]|]; simpl; try rewrite app_nil_r; reflexivity.
Qed.



(** Loading into a context with nothing cached fetches the execution by the
    context's own domain and execution, sending the Get again after each
    transient error until an answer that is a success, an error that is not
    transient, or the last one the retry budget allows.  A failed
    fetch returns its error and leaves the context as it was; a successful
    one caches the mutable state built from the answer, its stats, and the
    answer's next event ID as the update condition.  It never panics. *)
Theorem load_internal_uncached env s w :
  msBuilder (ctx_of w s) = None ->
  exists n, retried env (env_retry_budget env) (List.length (w_calls w)) n /\
    let c := ctx_of w s in
    let a := env_answer env (List.length (w_calls w) + n) in
    let w1 := mkWorld (w_current w) (w_new w)
                ((w_calls w ++ repeat (CallGetWorkflowExecution
                                        (mkGetRequest (domainID c) (workflowExecution c)))
                               (S n))%list)
                (w_notified w) in
    loadWorkflowExecutionInternal env s w =
    match ans_err a with
    | Some e => (Normal (Some e), w1)
    | None =>
        (Normal None,
         set_ctx w1 s (mkContext (domainID c) (workflowExecution c)
                         (Some (env_load env (ans_state a)))
                         (Some (wms_ExecutionStats (ans_state a)))
                         (ei_NextEventID (wms_ExecutionInfo (ans_state a)))))
    end.
Proof. apply load_internal_uncached_h. Qed.

Lemma load_internal_uncached_witness :
  let w := worldOf (ctxWith "r1" (Some plainMs) 100 10) freshNew in
  exists n, retried okEnv (env_retry_budget okEnv) (List.length (w_calls w)) n /\
    let c := ctx_of w SlotNew in
    let a := env_answer okEnv (List.length (w_calls w) + n) in
    let w1 := mkWorld (w_current w) (w_new w)
                ((w_calls w ++ repeat (CallGetWorkflowExecution
                                        (mkGetRequest (domainID c) (workflowExecution c)))
                               (S n))%list)
                (w_notified w) in
    loadWorkflowExecutionInternal okEnv SlotNew w =
    match ans_err a with
    | Some e => (Normal (Some e), w1)
    | None =>
        (Normal None,
         set_ctx w1 SlotNew (mkContext (domainID c) (workflowExecution c)
                         (Some (env_load okEnv (ans_state a)))
                         (Some (wms_ExecutionStats (ans_state a)))
                         (ei_NextEventID (wms_ExecutionInfo (ans_state a)))))
    end.
Proof.
  intros w. apply (load_internal_uncached okEnv SlotNew w).
  reflexivity.
Defined.

Lemma load_internal_success_loaded env s w w1 :
  loadWorkflowExecutionInternal env s w = (Normal None, w1) ->
  msBuilder (ctx_of w1 s) <> None.
Proof.
  unfold loadWorkflowExecutionInternal. unfold bind at 1. unfold getCtx at 1. simpl.
  destruct (msBuilder (ctx_of w s)) eqn:Hc.
  - simpl. intros H. inversion H; subst. rewrite Hc. discriminate.
  - unfold bind at 1.
    destruct (getWorkflowExecutionWithRetry env _ w) as [[[[st|] [e|]]|p] w2]; simpl;
      try discriminate.
    unfold bind, getCtx, putCtx. simpl. intros H. inversion H; subst.
    rewrite ctx_of_set_ctx_same. discriminate.
Qed.

Lemma load_success_cached_h env s w r w' :
  loadWorkflowExecution env s w = (Normal (r, None), w') ->
  exists ms, r = Some ms /\ msBuilder (ctx_of w' s) = Some ms.
Proof.
  unfold loadWorkflowExecution. unfold bind at 1.
  destruct (loadWorkflowExecutionInternal env s w) as [[[e|]|p] w1] eqn:E1; simpl;
    try discriminate.
  pose proof (load_internal_success_loaded env s w w1 E1) as Hl.
  destruct (msBuilder (ctx_of w1 s)) as [ms|] eqn:Hm; [|congruence].
  destruct (updateVersion_cached env s w1 ms Hm) as [Hk _].
  unfold bind at 1.
  destruct (updateVersion env s w1) as [[[e|]|p] w2]; simpl in *; try discriminate.
  unfold bind, getCtx. simpl. intros H. inversion H; subst.
  destruct (msBuilder (ctx_of w' s)) as [ms'|]; [eauto | congruence].
Qed.

(** A load that reports no error always returns a mutable state, the one the
    context now caches. *)
Theorem load_success_cached env s w r w' :
  loadWorkflowExecution env s w = (Normal (r, None), w') ->
  exists ms, r = Some ms /\ msBuilder (ctx_of w' s) = Some ms.
Proof. apply load_success_cached_h. Qed.

Lemma load_success_cached_witness :
  exists ms, Some plainMs = Some ms /\
    msBuilder (ctx_of (mkWorld (ctxWith "r1" (Some plainMs) 100 10)
                         (mkContext "domain" (mkWorkflowExecution "wf" "r2") (Some plainMs)
                            (Some (mkExecutionStats 100)) 10)
                         [CallGetWorkflowExecution
                            (mkGetRequest "domain" (mkWorkflowExecution "wf" "r2"))] [])
                SlotNew) = Some ms.
Proof.
  apply (load_success_cached okEnv SlotNew (worldOf (ctxWith "r1" (Some plainMs) 100 10) freshNew)).
  reflexivity.
Defined.

Lemma load_same_notified env s : preserves same_notified (loadWorkflowExecution env s).
Proof.
  unfold loadWorkflowExecution, loadWorkflowExecutionInternal, updateVersion,
    getWorkflowExecutionWithRetry.
  preserve_notified.
Qed.

(** A conflict resolution that reports no error closed the reset state into
    a snapshot without new events, sent one conflict-resolve request carrying
    it with the given history size, notified its tasks, and then reloaded the
    context from storage: the cache was dropped and fetched again, and the
    state returned is the one now cached. *)
Theorem conflict_resolve_success env s now prevRunID prevLastWriteVersion prevState
  resetMutableState resetHistorySize w r w' :
  conflictResolveWorkflowExecution env s now prevRunID prevLastWriteVersion prevState
    resetMutableState resetHistorySize w = (Normal (r, None), w') ->
  exists resetWorkflow l ms,
    ms_CloseTransactionAsSnapshot resetMutableState now transactionPolicyPassive
      = Ok (resetWorkflow, []) /\
    w_calls w' =
      (w_calls w ++
       CallConflictResolveWorkflowExecution
         (mkConflictResolveRequest prevRunID prevLastWriteVersion prevState
            (ws_set_ExecutionStats resetWorkflow resetHistorySize)) :: l)%list /\
    l <> [] /\ forallb isGetCall l = true /\
    r = Some ms /\ msBuilder (ctx_of w' s) = Some ms /\
    w_notified w' =
      (w_notified w ++ [(ws_TransferTasks resetWorkflow, ws_ReplicationTasks resetWorkflow,
                         ws_TimerTasks resetWorkflow)])%list.
Proof.
  unfold conflictResolveWorkflowExecution.
  destruct (ms_CloseTransactionAsSnapshot resetMutableState now transactionPolicyPassive)
    as [[rw seq]|err] eqn:Ec; [|simpl; discriminate].
  destruct seq as [|b seq]; [|simpl; discriminate]. simpl.
  unfold bind at 1. unfold storageCall. simpl.
  destruct (ans_err (env_answer env (List.length (w_calls w)))) as [e|]; [simpl; discriminate|].
  intros H. unfold bind at 1 in H. simpl in H. unfold bind at 1 in H. simpl in H.
  match type of H with loadWorkflowExecution env s ?w2 = _ =>
    assert (Hc : msBuilder (ctx_of w2 s) = None) by (destruct s; reflexivity);
    destruct (load_uncached_fetches env s w2 Hc) as (l & El & Hne & Hg);
    pose proof (load_same_notified env s w2) as Hn;
    destruct (load_success_cached_h env s w2 r w' H) as (ms & Er & Em);
    rewrite H in El, Hn
  end.
  simpl in El, Hn. unfold same_notified in Hn.
  exists rw, l, ms. split; [reflexivity|].
  split; [|split; [exact Hne|split; [exact Hg|split; [exact Er|split; [exact Em|]]]]].
  - rewrite El. destruct s; simpl; rewrite <- app_assoc; reflexivity.
  - rewrite Hn. destruct s; reflexivity.
Qed.

Lemma conflict_resolve_success_witness :
  let w := worldOf (ctxWith "r1" (Some plainMs) 100 10) freshNew in
  let '(res, w') := conflictResolveWorkflowExecution okEnv SlotCurrent 0 "r0" 1 2 emptyNewMs 50 w in
  match res with
  | Normal (r, None) =>
      exists resetWorkflow l ms,
        ms_CloseTransactionAsSnapshot emptyNewMs 0 transactionPolicyPassive
          = Ok (resetWorkflow, []) /\
        w_calls w' =
          (w_calls w ++
           CallConflictResolveWorkflowExecution
             (mkConflictResolveRequest "r0" 1 2 (ws_set_ExecutionStats resetWorkflow 50)) :: l)%list /\
        l <> [] /\ forallb isGetCall l = true /\
        r = Some ms /\ msBuilder (ctx_of w' SlotCurrent) = Some ms /\
        w_notified w' =
          (w_notified w ++ [(ws_TransferTasks resetWorkflow, ws_ReplicationTasks resetWorkflow,
                             ws_TimerTasks resetWorkflow)])%list
  | _ => False
  end.
Proof.
  intros w.
  destruct (conflictResolveWorkflowExecution okEnv SlotCurrent 0 "r0" 1 2 emptyNewMs 50 w)
    as [res w'] eqn:E.
  destruct res as [[r [e|]]|p].
  - vm_compute in E. discriminate E.
  - exact (conflict_resolve_success okEnv SlotCurrent 0 "r0" 1 2 emptyNewMs 50 w r w' E).
  - vm_compute in E. discriminate E.
Defined.

(** ** Reset: the checks before the storage reset *)

#[local] Instance calls_without_preorder P : PreOrder (calls_without P).
Proof.
  split.
  - intros w. split; [reflexivity|]. exists []. rewrite app_nil_r. auto.
  - intros w1 w2 w3 (E1 & l & El & Pl) (F1 & l' & Fl & Pl').
    split; [congruence|]. exists (l ++ l')%list. rewrite Fl, El, app_assoc.
    split; [reflexivity|]. rewrite forallb_app, Pl, Pl'. reflexivity.
Qed.

Lemma io_only_calls_without P {A} (m : M A) :
  preserves (io_only P) m -> preserves (calls_without P) m.
Proof.
  intros Hm w. destruct (Hm w) as (_ & _ & E & Hl). split; [exact E | exact Hl].
Qed.

Lemma putCtx_calls_without P s c : preserves (calls_without P) (putCtx s c).
Proof.
  intros w. split; [destruct s; reflexivity|]. exists []. rewrite app_nil_r.
  split; [destruct s; reflexivity | reflexivity].
Qed.

Lemma setHistorySize_calls_without P s size : preserves (calls_without P) (setHistorySize s size).
Proof.
  intros w. unfold setHistorySize, bind, getCtx. simpl.
  destruct (stats (ctx_of w s)); [apply putCtx_calls_without | simpl; reflexivity].
Qed.

Lemma persistNonFirstWorkflowEvents_notReset env ev :
  preserves (io_only notReset) (persistNonFirstWorkflowEvents env ev).
Proof.
  unfold persistNonFirstWorkflowEvents, appendHistoryEventsWithRetry,
    appendHistoryV2EventsWithRetry. preserve.
Qed.

Lemma persistNonFirstLoop_notReset env seq size :
  preserves (io_only notReset) (persistNonFirstLoop env seq size).
Proof.
  revert size. induction seq as [|ev seq IH]; intros size; simpl;
    [preserve | apply preserves_bind; [apply persistNonFirstWorkflowEvents_notReset|]].
  intros r. destruct (snd r); [apply preserves_ret | apply IH].
Qed.

Create HintDb calls.
#[local] Hint Resolve putCtx_calls_without setHistorySize_calls_without : calls.
#[local] Hint Extern 2 (preserves (calls_without notReset) _) =>
  apply io_only_calls_without;
  first [ apply persistNonFirstWorkflowEvents_notReset | apply persistNonFirstLoop_notReset
        | solve [eauto with frames] ] : calls.
#[local] Hint Extern 1 (preserves _ (ret _)) => apply preserves_ret : calls.
#[local] Hint Extern 1 (preserves _ (panic _)) => apply preserves_panic : calls.
#[local] Hint Extern 1 (preserves _ (getCtx _)) => apply preserves_getCtx : calls.

Lemma rejects_bind P {A} (m : M A) (k : A -> M (option Err)) :
  preserves (calls_without P) m -> (forall a, rejects P (k a)) -> rejects P (bind m k).
Proof.
  intros Hm Hk w. unfold bind. specialize (Hm w).
  destruct (m w) as [[a|p] w1]; simpl in *.
  - destruct (Hk a w1) as [Hc Hr]. split; [etransitivity; eauto | exact Hr].
  - split; [exact Hm | discriminate].
Qed.

Lemma rejects_ret P e : rejects P (ret (Some e)).
Proof. intros w. split; [reflexivity | discriminate]. Qed.

Lemma rejects_check P e k : rejects P k -> rejects P (check e k).
Proof. intros Hk. destruct e; [apply rejects_ret | exact Hk]. Qed.

Ltac reject :=
  repeat (cbv beta;
    match goal with
    | |- rejects _ (bind _ _) => apply rejects_bind; [ | intro ]
    | |- rejects _ (check _ _) => apply rejects_check
    | |- rejects _ (ret (Some _)) => apply rejects_ret
    | |- rejects _ (match ?x with _ => _ end) => destruct x
    | |- preserves _ (bind _ _) => apply preserves_bind; [ | intro ]
    | |- preserves _ (check ?e _) => unfold check
    | |- preserves _ (match ?x with _ => _ end) => destruct x
    | |- _ => solve [eauto with calls]
    end).

(** The prefix of a reset up to its batch check: buffered events, the two
    flushes and, under updateCurr, the current run's append. *)
Lemma reset_rejects_from_close env s currMutableState updateCurr closeTask cleanupTask
  newMutableState newHistorySize newTransferTasks newTimerTasks currReplicationTasks
  newReplicationTasks baseRunID baseRunNextEventID :
  (forall rw seq, ms_CloseTransactionAsSnapshot newMutableState (env_now env)
                    transactionPolicyPassive = Ok (rw, seq) ->
     forall a b c d, rejects notReset
       (if negb (List.length seq =? 1)%nat then ret (Some errResetEventBatches)
        else r <- persistNonFirstLoop env seq newHistorySize ;;
             check (snd r)
               (resetCommit env s currMutableState updateCurr a b rw (fst r) c d
                  currReplicationTasks newReplicationTasks baseRunID baseRunNextEventID))) ->
  rejects notReset
    (resetWorkflowExecution env s currMutableState updateCurr closeTask cleanupTask
       newMutableState newHistorySize newTransferTasks newTimerTasks currReplicationTasks
       newReplicationTasks baseRunID baseRunNextEventID).
Proof.
  intros Hk. unfold resetWorkflowExecution.
  destruct (setTaskInfo _ _ _ _) as [a b]. destruct (setTaskInfo _ _ _ _) as [c d].
  destruct (ms_HasBufferedEvents newMutableState); [apply rejects_ret|].
  apply rejects_check. apply rejects_check.
  apply rejects_bind.
  - destruct updateCurr; reject.
  - intros err. apply rejects_check.
    destruct (ms_CloseTransactionAsSnapshot newMutableState (env_now env)
                transactionPolicyPassive) as [[rw seq]|e] eqn:Ec; [|apply rejects_ret].
    apply (Hk rw seq eq_refl).
Qed.

(** A reset whose new run does not close into exactly one event batch never
    issues the storage reset, notifies no task and does not succeed.  With
    updateCurr the current run's events may already have been appended. *)
Theorem reset_rejects_batch_count env s currMutableState updateCurr closeTask cleanupTask
  newMutableState newHistorySize newTransferTasks newTimerTasks currReplicationTasks
  newReplicationTasks baseRunID baseRunNextEventID rw seq w :
  ms_CloseTransactionAsSnapshot newMutableState (env_now env) transactionPolicyPassive
    = Ok (rw, seq) ->
  List.length seq <> 1%nat ->
  let '(r, w') := resetWorkflowExecution env s currMutableState updateCurr closeTask
                    cleanupTask newMutableState newHistorySize newTransferTasks newTimerTasks
                    currReplicationTasks newReplicationTasks baseRunID baseRunNextEventID w in
  r <> Normal None /\ w_notified w' = w_notified w /\
  exists l, w_calls w' = (w_calls w ++ l)%list /\ forallb notReset l = true.
Proof.
  intros Hc Hl.
  match goal with |- let '(_, _) := ?m w in _ =>
    assert (H : rejects notReset m) end.
  { apply reset_rejects_from_close. intros rw' seq' Hc' a b c d.
    rewrite Hc in Hc'. injection Hc' as <- <-.
    apply Nat.eqb_neq in Hl. rewrite Hl. apply rejects_ret. }
  destruct (H w) as [(Hn & Hcalls) Hr].
  destruct (resetWorkflowExecution _ _ _ _ _ _ _ _ _ _ _ _ _ _ w) as [r w'].
  simpl in *. auto.
Qed.

Lemma reset_rejects_batch_count_witness :
  let '(r, w') := resetWorkflowExecution okEnv SlotCurrent plainMs true None None emptyNewMs
                    0 [] [] [] [] "r0" 5 (worldOf (ctxWith "r1" (Some plainMs) 100 10) freshNew) in
  r <> Normal None /\
  w_notified w' = w_notified (worldOf (ctxWith "r1" (Some plainMs) 100 10) freshNew) /\
  exists l, w_calls w' = (w_calls (worldOf (ctxWith "r1" (Some plainMs) 100 10) freshNew) ++ l)%list /\
            forallb notReset l = true.
Proof.
  apply (reset_rejects_batch_count okEnv SlotCurrent plainMs true None None emptyNewMs 0 [] [] [] []
           "r0" 5 (snapshot "r2" []) []); [reflexivity | discriminate].
Defined.

(** A reset whose new run still holds pending children, signals or signal
    requests never issues the storage reset, notifies no task and does not
    succeed. *)
Theorem reset_refuses_pending env s currMutableState updateCurr closeTask cleanupTask
  newMutableState newHistorySize newTransferTasks newTimerTasks currReplicationTasks
  newReplicationTasks baseRunID baseRunNextEventID rw seq w :
  ms_CloseTransactionAsSnapshot newMutableState (env_now env) transactionPolicyPassive
    = Ok (rw, seq) ->
  ws_ChildExecutionInfos rw <> [] \/ ws_SignalInfos rw <> [] \/ ws_SignalRequestedIDs rw <> [] ->
  let '(r, w') := resetWorkflowExecution env s currMutableState updateCurr closeTask
                    cleanupTask newMutableState newHistorySize newTransferTasks newTimerTasks
                    currReplicationTasks newReplicationTasks baseRunID baseRunNextEventID w in
  r <> Normal None /\ w_notified w' = w_notified w /\
  exists l, w_calls w' = (w_calls w ++ l)%list /\ forallb notReset l = true.
Proof.
  intros Hc Hp.
  match goal with |- let '(_, _) := ?m w in _ =>
    assert (H : rejects notReset m) end.
  { apply reset_rejects_from_close. intros rw' seq' Hc' a b c d.
    rewrite Hc in Hc'. injection Hc' as <- <-.
    destruct (negb _); [apply rejects_ret|].
    apply rejects_bind; [reject|]. intros r. apply rejects_check.
    unfold resetCommit. simpl.
    replace ((0 <? List.length (ws_ChildExecutionInfos rw))%nat
             || (0 <? List.length (ws_SignalInfos rw))%nat
             || (0 <? List.length (ws_SignalRequestedIDs rw))%nat) with true;
      [apply rejects_ret|].
    destruct Hp as [Hp|[Hp|Hp]];
      [destruct (ws_ChildExecutionInfos rw) | destruct (ws_SignalInfos rw)
      | destruct (ws_SignalRequestedIDs rw)]; try congruence; simpl;
      repeat rewrite orb_true_r; reflexivity. }
  destruct (H w) as [(Hn & Hcalls) Hr].
  destruct (resetWorkflowExecution _ _ _ _ _ _ _ _ _ _ _ _ _ _ w) as [r w'].
  simpl in *. auto.
Qed.

Lemma reset_refuses_pending_witness :
  let '(r, w') := resetWorkflowExecution okEnv SlotCurrent plainMs false None None pendingChildMs
                    0 [] [] [] [] "r0" 5 (worldOf (ctxWith "r1" (Some plainMs) 100 10) freshNew) in
  r <> Normal None /\
  w_notified w' = w_notified (worldOf (ctxWith "r1" (Some plainMs) 100 10) freshNew) /\
  exists l, w_calls w' = (w_calls (worldOf (ctxWith "r1" (Some plainMs) 100 10) freshNew) ++ l)%list /\
            forallb notReset l = true.
Proof.
  apply (reset_refuses_pending okEnv SlotCurrent plainMs false None None pendingChildMs 0 [] [] [] []
           "r0" 5 (mkWorkflowSnapshot (info "r2" 3 WorkflowCloseStatusNone) None None [1] [] [] [] [] [] 0)
           [batch "r2" [mkHistoryEvent 1 1]]); [reflexivity | left; discriminate].
Defined.

(** ** The continue-as-new merge *)

Lemma sameExceptNewRun_refl t : sameExceptNewRun t t.
Proof.
  unfold sameExceptNewRun. split; [reflexivity|]. split; [reflexivity|].
  destruct (task_kind t); repeat split.
Qed.

Lemma sameExceptNewRun_setNewRun bt v t : sameExceptNewRun t (setNewRun bt v t).
Proof.
  unfold sameExceptNewRun, setNewRun.
  destruct (task_kind t) eqn:Ek; simpl; try rewrite Ek; repeat split.
Qed.

Lemma Forall2_sameExceptNewRun_refl ts : Forall2 sameExceptNewRun ts ts.
Proof. induction ts; constructor; auto using sameExceptNewRun_refl. Qed.

Lemma Forall2_sameExceptNewRun_map bt v ts :
  Forall2 sameExceptNewRun ts (map (setNewRun bt v) ts).
Proof. induction ts; constructor; auto using sameExceptNewRun_setNewRun. Qed.

(** Whatever its outcome, the merge changes nothing of the current mutation
    but its replication tasks, and of those only the new-run branch token and
    event store version of history replication tasks (same tasks, same
    order); the new snapshot is either passed through or has its replication
    tasks emptied. *)
Theorem merge_touches_only_new_run m nw m' nw' r :
  mergeContinueAsNewReplicationTasks m nw = Normal (m', nw', r) ->
  m' = wm_set_ReplicationTasks m (wm_ReplicationTasks m') /\
  Forall2 sameExceptNewRun (wm_ReplicationTasks m) (wm_ReplicationTasks m') /\
  (nw' = nw \/ exists snap, nw = Some snap /\ nw' = Some (ws_set_ReplicationTasks snap [])).
Proof.
  assert (Hid : m = wm_set_ReplicationTasks m (wm_ReplicationTasks m)) by (destruct m; reflexivity).
  unfold mergeContinueAsNewReplicationTasks.
  destruct (negb _);
    [intros H; inversion H; subst; auto using Forall2_sameExceptNewRun_refl|].
  destruct (wm_ReplicationTasks m) as [|t0 ts] eqn:Et;
    [intros H; inversion H; subst; rewrite Et; auto|].
  destruct nw as [snap|];
    [|intros H; inversion H; subst; rewrite Et; auto using Forall2_sameExceptNewRun_refl].
  destruct (ws_ReplicationTasks snap) as [|t [|t1 ts1]];
    try (intros H; inversion H; subst; rewrite Et; auto using Forall2_sameExceptNewRun_refl; fail).
  destruct (task_kind t) as [| | | | |h|]; try discriminate.
  destruct (existsb _ _); intros H; inversion H; subst;
    (split; [reflexivity|]);
    (split; [exact (Forall2_sameExceptNewRun_map _ _ (t0 :: ts))|]); eauto.
Qed.

Lemma merge_touches_only_new_run_witness :
  match mergeContinueAsNewReplicationTasks
          (mutation 12 WorkflowCloseStatusContinuedAsNew [hrt [] 0; syncTask] 10)
          (Some (snapshot "r2" [hrt [x01] 2])) with
  | Normal (m', nw', r) =>
      m' = wm_set_ReplicationTasks (mutation 12 WorkflowCloseStatusContinuedAsNew
                                      [hrt [] 0; syncTask] 10) (wm_ReplicationTasks m') /\
      Forall2 sameExceptNewRun [hrt [] 0; syncTask] (wm_ReplicationTasks m') /\
      (nw' = Some (snapshot "r2" [hrt [x01] 2]) \/
       exists snap, Some (snapshot "r2" [hrt [x01] 2]) = Some snap /\
                    nw' = Some (ws_set_ReplicationTasks snap []))
  | Panicked _ => False
  end.
Proof.
  destruct (mergeContinueAsNewReplicationTasks
              (mutation 12 WorkflowCloseStatusContinuedAsNew [hrt [] 0; syncTask] 10)
              (Some (snapshot "r2" [hrt [x01] 2]))) as [[[m' nw'] r]|p] eqn:E.
  - exact (merge_touches_only_new_run _ _ m' nw' r E).
  - vm_compute in E. discriminate E.
Defined.

(** A paired update of a run continuing as new, whose replication tasks
    include no history replication task while the new run's single task is
    one, fails with the internal error for a missing current replication
    task: no storage update is sent and no task is notified. *)
Theorem update_no_current_replication_task env s now nc nms policy np w cw w1 nw w2 t h :
  closeCurrentAndPersist env s now policy w = (Normal (Ok cw), w1) ->
  closeNewAndPersist env s nc nms now np w1 = (Normal (Ok nw), w2) ->
  ei_CloseStatus (wm_ExecutionInfo cw) = WorkflowCloseStatusContinuedAsNew ->
  wm_ReplicationTasks cw <> [] ->
  existsb isHistoryReplicationTask (wm_ReplicationTasks cw) = false ->
  ws_ReplicationTasks nw = [t] -> task_kind t = HistoryReplication h ->
  exists w',
    updateWorkflowExecutionWithNew env s now (Some nc) (Some nms) policy (Some np) w
      = (Normal (Some errNoCurrentReplicationTask), w') /\
    w_calls w' = w_calls w2 /\ w_notified w' = w_notified w.
Proof.
  intros H1 H2 Hcan Hne Hno Ht Hk.
  assert (Hm : mergeContinueAsNewReplicationTasks cw (Some nw) =
               Normal (wm_set_ReplicationTasks cw
                         (map (setNewRun (hrt_BranchToken h) (hrt_EventStoreVersion h))
                            (wm_ReplicationTasks cw)),
                       Some (ws_set_ReplicationTasks nw []), Some errNoCurrentReplicationTask)).
  { unfold mergeContinueAsNewReplicationTasks. rewrite Hcan. simpl.
    destruct (wm_ReplicationTasks cw) as [|t0 ts] eqn:Et; [congruence|].
    rewrite Ht, Hk. simpl. simpl in Hno. rewrite Hno. reflexivity. }
  pose proof (closeCurrentAndPersist_same_notified env s now policy w) as N1.
  pose proof (closeNewAndPersist_same_notified env s nc nms now np w1) as N2.
  rewrite H1 in N1. rewrite H2 in N2. unfold same_notified in N1, N2. simpl in N1, N2.
  eexists. split.
  - unfold updateWorkflowExecutionWithNew, deferOnError', bind. rewrite H1. simpl.
    rewrite H2. simpl. unfold commitUpdate. rewrite Hm. reflexivity.
  - simpl. rewrite !set_ctx_calls. split; [reflexivity|].
    destruct s, nc; simpl; congruence.
Qed.

Lemma update_no_current_replication_task_witness :
  let w := worldOf (ctxWith "r1" (Some canSyncMs) 100 10) freshNew in
  match closeCurrentAndPersist okEnv SlotCurrent 0 transactionPolicyActive w with
  | (Normal (Ok cw), w1) =>
      match closeNewAndPersist okEnv SlotCurrent SlotNew canNewMs 0 transactionPolicyActive w1 with
      | (Normal (Ok nw), w2) =>
          exists w',
            updateWorkflowExecutionWithNew okEnv SlotCurrent 0 (Some SlotNew) (Some canNewMs)
              transactionPolicyActive (Some transactionPolicyActive) w
              = (Normal (Some errNoCurrentReplicationTask), w') /\
            w_calls w' = w_calls w2 /\ w_notified w' = w_notified w
      | _ => False
      end
  | _ => False
  end.
Proof.
  intros w.
  destruct (closeCurrentAndPersist okEnv SlotCurrent 0 transactionPolicyActive w)
    as [[[cw|e]|p] w1] eqn:E1; try (vm_compute in E1; discriminate E1).
  destruct (closeNewAndPersist okEnv SlotCurrent SlotNew canNewMs 0 transactionPolicyActive w1)
    as [[[nw|e]|p] w2] eqn:E2;
    try (vm_compute in E1; injection E1 as <- <-; vm_compute in E2; discriminate E2).
  apply (update_no_current_replication_task okEnv SlotCurrent 0 SlotNew canNewMs
           transactionPolicyActive transactionPolicyActive w cw w1 nw w2 (hrt [x01] 2)
           (mkHistoryReplicationTask 1 3 2 [x01] 0 []) E1 E2);
    vm_compute in E1; injection E1 as <- <-; vm_compute in E2; injection E2 as <- <-;
    first [reflexivity | discriminate].
Defined.

(** ** Reset: the successful path *)

Lemma resetCommit_success env s cms uc a b rw size c d crt nrt baseRunID baseRunNextEventID w w' :
  resetCommit env s cms uc a b rw size c d crt nrt baseRunID baseRunNextEventID w = (Normal None, w') ->
  exists req,
    w_calls w' = (w_calls w ++ [CallResetWorkflowExecution req])%list /\
    w_current w' = w_current w /\ w_new w' = w_new w /\
    BaseRunID req = baseRunID /\ BaseRunNextEventID req = baseRunNextEventID /\
    CurrentRunID req = ei_RunID (ms_ExecutionInfo cms) /\
    CurrentRunNextEventID req = ei_NextEventID (ms_ExecutionInfo cms) /\
    rs_NewWorkflowSnapshot req = ws_set_Tasks (ws_set_ExecutionStats rw size) c nrt d /\
    match CurrentWorkflowMutation req with
    | None => uc = false
    | Some m => uc = true /\ wm_ExecutionInfo m = ms_ExecutionInfo cms /\
                wm_Condition m = updateCondition (ctx_of w s) /\
                wm_ExecutionStats m = stats (ctx_of w s) /\ wm_ReplicationTasks m = crt
    end /\
    w_notified w' =
      (w_notified w ++ [(c, nrt, d)] ++
       match CurrentWorkflowMutation req with
       | Some m => [(wm_TransferTasks m, wm_ReplicationTasks m, wm_TimerTasks m)]
       | None => []
       end)%list.
Proof.
  intros H. unfold resetCommit in H. cbv zeta in H.
  match type of H with (if ?b then _ else _) _ = _ => destruct b end;
    [unfold ret in H; discriminate H|].
  unfold getHistorySize, storageCall, check in H. unfold bind, getCtx, ret, panic in H.
  destruct uc; simpl in H.
  - destruct (stats (ctx_of w s)) as [[st]|] eqn:Est; simpl in H; [|discriminate H].
    destruct (ans_err _); simpl in H; [discriminate H|].
    inversion H; subst. clear H.
    eexists. repeat split.
    all: simpl; try rewrite Est; try rewrite <- app_assoc; try rewrite app_nil_r; reflexivity.
  - destruct (ans_err _); simpl in H; [discriminate H|].
    inversion H; subst. clear H.
    eexists. repeat split.
    all: simpl; try rewrite Est; try rewrite <- app_assoc; try rewrite app_nil_r; reflexivity.
Qed.

#[local] Instance keeps_condition_preorder s : PreOrder (keeps_condition s).
Proof.
  split; [intros w; reflexivity | intros w1 w2 w3 E1 E2; unfold keeps_condition in *; congruence].
Qed.

Lemma io_only_keeps_condition P s {A} (m : M A) :
  preserves (io_only P) m -> preserves (keeps_condition s) m.
Proof.
  intros Hm w. destruct (Hm w) as (E1 & E2 & _). unfold keeps_condition.
  destruct s; simpl; congruence.
Qed.

Lemma setHistorySize_keeps_condition s x size :
  preserves (keeps_condition x) (setHistorySize s size).
Proof.
  intros w. unfold setHistorySize, bind, getCtx, keeps_condition. simpl.
  destruct (stats (ctx_of w s)); [|reflexivity]. simpl.
  destruct s, x; reflexivity.
Qed.

Create HintDb condition.
#[local] Hint Resolve setHistorySize_keeps_condition : condition.
#[local] Hint Extern 2 (preserves (keeps_condition _) _) =>
  apply (io_only_keeps_condition notReset);
  first [ apply persistNonFirstWorkflowEvents_notReset | solve [eauto with frames] ]
  : condition.
#[local] Hint Extern 1 (preserves _ (ret _)) => apply preserves_ret : condition.
#[local] Hint Extern 1 (preserves _ (panic _)) => apply preserves_panic : condition.
#[local] Hint Extern 1 (preserves _ (getCtx _)) => apply preserves_getCtx : condition.

Ltac split_bind H :=
  match type of H with bind ?p ?k ?w0 = _ =>
    change (bind p k w0) with
      (match p w0 with
       | (Normal a, w') => k a w'
       | (Panicked q, w') => (Panicked q, w')
       end) in H
  end.

(** A successful reset sent one storage reset, as its last storage call: based on
    the given base run, naming the current run by its RunID and NextEventID,
    with the new run's snapshot carrying the given replication tasks and the
    given transfer and timer tasks stamped with the new run's version and the
    time.  It carries a mutation of the current run exactly under updateCurr,
    with the current run's execution info, the context's update condition,
    its history size and the given current replication tasks.  The snapshot's
    tasks are then notified, followed by the mutation's. *)
Theorem reset_success_request env s currMutableState updateCurr closeTask cleanupTask
  newMutableState newHistorySize newTransferTasks newTimerTasks currReplicationTasks
  newReplicationTasks baseRunID baseRunNextEventID w w' :
  resetWorkflowExecution env s currMutableState updateCurr closeTask cleanupTask
    newMutableState newHistorySize newTransferTasks newTimerTasks currReplicationTasks
    newReplicationTasks baseRunID baseRunNextEventID w = (Normal None, w') ->
  exists pre req,
    w_calls w' = (w_calls w ++ pre ++ [CallResetWorkflowExecution req])%list /\
    forallb notReset pre = true /\
    BaseRunID req = baseRunID /\ BaseRunNextEventID req = baseRunNextEventID /\
    CurrentRunID req = ei_RunID (ms_ExecutionInfo currMutableState) /\
    CurrentRunNextEventID req = ei_NextEventID (ms_ExecutionInfo currMutableState) /\
    ws_TransferTasks (rs_NewWorkflowSnapshot req) =
      map (stampTask (ms_CurrentVersion newMutableState) (env_now env)) newTransferTasks /\
    ws_ReplicationTasks (rs_NewWorkflowSnapshot req) = newReplicationTasks /\
    ws_TimerTasks (rs_NewWorkflowSnapshot req) =
      map (stampTask (ms_CurrentVersion newMutableState) (env_now env)) newTimerTasks /\
    match CurrentWorkflowMutation req with
    | None => updateCurr = false
    | Some m => updateCurr = true /\ wm_ExecutionInfo m = ms_ExecutionInfo currMutableState /\
                wm_Condition m = updateCondition (ctx_of w s) /\
                wm_ExecutionStats m = stats (ctx_of w' s) /\
                wm_ReplicationTasks m = currReplicationTasks
    end /\
    w_notified w' =
      (w_notified w ++
       [(ws_TransferTasks (rs_NewWorkflowSnapshot req),
         ws_ReplicationTasks (rs_NewWorkflowSnapshot req),
         ws_TimerTasks (rs_NewWorkflowSnapshot req))] ++
       match CurrentWorkflowMutation req with
       | Some m => [(wm_TransferTasks m, wm_ReplicationTasks m, wm_TimerTasks m)]
       | None => []
       end)%list.
Proof.
  intros H. unfold resetWorkflowExecution in H.
  cbv beta iota zeta delta [setTaskInfo] in H.
  destruct (ms_HasBufferedEvents newMutableState); [unfold ret in H; discriminate H|].
  destruct (ms_FlushBufferedEvents currMutableState);
    [unfold check, ret in H; discriminate H|].
  destruct (ms_FlushBufferedEvents newMutableState);
    [unfold check, ret in H; discriminate H|].
  unfold check at 1 2 in H.
  split_bind H.
  match type of H with (match ?p w with _ => _ end) = _ =>
    assert (Hp1 : preserves (calls_without notReset) p) by (destruct updateCurr; reject);
    assert (Hp2 : preserves (keeps_condition s) p)
      by (destruct updateCurr;
          repeat (cbv beta;
            match goal with
            | |- preserves _ (bind _ _) => apply preserves_bind; [ | intro ]
            | |- preserves _ (check ?e _) => unfold check
            | |- preserves _ (match ?x with _ => _ end) => destruct x
            | |- _ => solve [eauto with condition]
            end));
    specialize (Hp1 w); specialize (Hp2 w);
    destruct (p w) as [[err|q] w1]
  end; [|discriminate H].
  simpl in Hp1, Hp2. cbv beta in H.
  destruct err as [e|]; [unfold check, ret in H; discriminate H|].
  unfold check at 1 in H.
  destruct (ms_CloseTransactionAsSnapshot newMutableState (env_now env) transactionPolicyPassive)
    as [[rw seq]|e]; [|unfold ret in H; discriminate H].
  destruct (negb _); [unfold ret in H; discriminate H|].
  split_bind H.
  pose proof (persistNonFirstLoop_notReset env seq newHistorySize w1) as Hl.
  destruct (persistNonFirstLoop env seq newHistorySize w1) as [[[size [e|]]|q] w2];
    [unfold check, ret in H; simpl in H; discriminate H| |discriminate H].
  simpl in Hl, H.
  destruct (resetCommit_success _ _ _ _ _ _ _ _ _ _ _ _ _ _ _ _ H)
    as (req & Ec & Ecur & Enew & Eb & Ebn & Er & Ern & Esnap & Emut & En).
  destruct Hp1 as (N1 & l1 & C1 & P1).
  destruct Hl as (L1 & L2 & N2 & l2 & C2 & P2).
  unfold keeps_condition in Hp2.
  exists (l1 ++ l2)%list, req.
  split; [rewrite Ec, C2, C1, !app_assoc; reflexivity|].
  split; [rewrite forallb_app, P1, P2; reflexivity|].
  do 4 (split; [assumption|]).
  rewrite Esnap. simpl.
  split; [reflexivity|]. split; [reflexivity|]. split; [reflexivity|].
  split.
  - destruct (CurrentWorkflowMutation req) as [m|]; [|exact Emut].
    destruct Emut as (U & Ei & Ecd & Est & Ert).
    repeat split; auto.
    + rewrite Ecd. destruct s; simpl in *; congruence.
    + rewrite Est. destruct s; simpl in *; congruence.
  - rewrite En, N2, N1. reflexivity.
Qed.

Lemma reset_success_request_witness :
  let w := worldOf (ctxWith "r1" (Some plainMs) 100 10) freshNew in
  match resetWorkflowExecution okEnv SlotCurrent plainMs true (Some syncTask) None pairedMs 0
          [syncTask] [] [] [] "r0" 5 w with
  | (Normal None, w') =>
      exists pre req,
        w_calls w' = (w_calls w ++ pre ++ [CallResetWorkflowExecution req])%list /\
        forallb notReset pre = true /\
        BaseRunID req = "r0"%string /\ BaseRunNextEventID req = 5 /\
        CurrentRunID req = ei_RunID (ms_ExecutionInfo plainMs) /\
        CurrentRunNextEventID req = ei_NextEventID (ms_ExecutionInfo plainMs) /\
        ws_TransferTasks (rs_NewWorkflowSnapshot req) =
          map (stampTask (ms_CurrentVersion pairedMs) (env_now okEnv)) [syncTask] /\
        ws_ReplicationTasks (rs_NewWorkflowSnapshot req) = [] /\
        ws_TimerTasks (rs_NewWorkflowSnapshot req) =
          map (stampTask (ms_CurrentVersion pairedMs) (env_now okEnv)) [] /\
        match CurrentWorkflowMutation req with
        | None => true = false
        | Some m => true = true /\ wm_ExecutionInfo m = ms_ExecutionInfo plainMs /\
                    wm_Condition m = updateCondition (ctx_of w SlotCurrent) /\
                    wm_ExecutionStats m = stats (ctx_of w' SlotCurrent) /\
                    wm_ReplicationTasks m = []
        end /\
        w_notified w' =
          (w_notified w ++
           [(ws_TransferTasks (rs_NewWorkflowSnapshot req),
             ws_ReplicationTasks (rs_NewWorkflowSnapshot req),
             ws_TimerTasks (rs_NewWorkflowSnapshot req))] ++
           match CurrentWorkflowMutation req with
           | Some m => [(wm_TransferTasks m, wm_ReplicationTasks m, wm_TimerTasks m)]
           | None => []
           end)%list
  | _ => False
  end.
Proof.
  intros w.
  destruct (resetWorkflowExecution okEnv SlotCurrent plainMs true (Some syncTask) None pairedMs 0
              [syncTask] [] [] [] "r0" 5 w) as [[[e|]|p] w'] eqn:E;
    try (vm_compute in E; discriminate E).
  exact (reset_success_request okEnv SlotCurrent plainMs true (Some syncTask) None pairedMs 0
           [syncTask] [] [] [] "r0" 5 w w' E).
Defined.

(** ** Version update, a new context and the history size *)

(** updateVersion leaves the context alone and reports no error unless
    global domains are enabled and the cached workflow is running and has a
    replication state: a local domain, a workflow without replication state
    and a finished workflow are all left as they are, without even looking
    the domain up. *)
Theorem updateVersion_noop env s w ms :
  msBuilder (ctx_of w s) = Some ms ->
  env_global_domain_enabled env = false \/ ms_ReplicationState ms = None \/
  ms_IsWorkflowExecutionRunning ms = false ->
  updateVersion env s w = (Normal None, w).
Proof.
  intros Hc Hcase. unfold updateVersion, bind, getCtx. simpl.
  destruct (env_global_domain_enabled env) eqn:Eg; [|reflexivity].
  rewrite Hc.
  destruct Hcase as [Hg|[Hr|Hrun]]; [discriminate|rewrite Hr; reflexivity|].
  destruct (ms_ReplicationState ms); [|reflexivity]. rewrite Hrun. reflexivity.
Qed.

Lemma updateVersion_noop_witness :
  updateVersion (envWith 1000 TimeoutError true (Fail TimeoutError)) SlotCurrent
    (worldOf (ctxWith "r1" (Some finishedMs) 100 10) freshNew)
  = (Normal None, worldOf (ctxWith "r1" (Some finishedMs) 100 10) freshNew).
Proof.
  apply (updateVersion_noop _ _ _ finishedMs); [reflexivity | right; right; reflexivity].
Defined.

Lemma load_uncached_calls env s w :
  msBuilder (ctx_of w s) = None ->
  exists n, w_calls (snd (loadWorkflowExecution env s w)) =
            (w_calls w ++ repeat (CallGetWorkflowExecution
                                    (mkGetRequest (domainID (ctx_of w s))
                                       (workflowExecution (ctx_of w s)))) (S n))%list.
Proof.
  intros Hc. destruct (load_internal_uncached_h env s w Hc) as (n & _ & E).
  exists n. unfold loadWorkflowExecution. unfold bind at 1. rewrite E.
  destruct (ans_err _) as [e|]; [reflexivity|].
  cbv beta iota. unfold bind at 1.
  match goal with |- context [updateVersion env s ?w1] =>
    pose proof (updateVersion_calls env s w1) as Hv;
    destruct (updateVersion env s w1) as [[[e|]|p] w2] end;
    simpl in *; rewrite Hv; apply set_ctx_calls.
Qed.

(** A fresh context has nothing cached, a zero history size that reads
    without a nil dereference and a zero update condition; its first load
    goes to storage, fetching by the domain ID and execution it was created
    with. *)
Theorem new_context_first_load env s domainID execution w :
  ctx_of w s = newWorkflowExecutionContext domainID execution ->
  msBuilder (ctx_of w s) = None /\ getHistorySize s w = (Normal 0, w) /\
  updateCondition (ctx_of w s) = 0 /\
  exists n, w_calls (snd (loadWorkflowExecution env s w)) =
            (w_calls w ++ repeat (CallGetWorkflowExecution (mkGetRequest domainID execution))
                           (S n))%list.
Proof.
  intros Hc.
  assert (Hm : msBuilder (ctx_of w s) = None) by (rewrite Hc; reflexivity).
  split; [exact Hm|]. split.
  - unfold getHistorySize, bind, getCtx. simpl. rewrite Hc. reflexivity.
  - split; [rewrite Hc; reflexivity|].
    destruct (load_uncached_calls env s w Hm) as (n & E). exists n. rewrite E, Hc. reflexivity.
Qed.

Lemma new_context_first_load_witness :
  let w := worldOf (ctxWith "r1" (Some plainMs) 100 10)
             (newWorkflowExecutionContext "domain" (mkWorkflowExecution "wf" "r2")) in
  msBuilder (ctx_of w SlotNew) = None /\ getHistorySize SlotNew w = (Normal 0, w) /\
  updateCondition (ctx_of w SlotNew) = 0 /\
  exists n, w_calls (snd (loadWorkflowExecution okEnv SlotNew w)) =
            (w_calls w ++ repeat (CallGetWorkflowExecution
                                    (mkGetRequest "domain" (mkWorkflowExecution "wf" "r2")))
                           (S n))%list.
Proof.
  intros w. apply (new_context_first_load okEnv SlotNew "domain" (mkWorkflowExecution "wf" "r2") w).
  reflexivity.
Defined.

(** The history size reads back what was last set; setting it changes
    nothing but the stats of that context.  Once the context is cleared,
    reading the history size is a nil dereference. *)
Theorem history_size_round_trip s size w :
  stats (ctx_of w s) <> None ->
  (setHistorySize s size ;;; getHistorySize s) w = (Normal size, snd (setHistorySize s size w)) /\
  ctx_of (snd (setHistorySize s size w)) s =
    ctx_set_cache (ctx_of w s) (msBuilder (ctx_of w s)) (Some (mkExecutionStats size)) /\
  (forall x, x <> s -> ctx_of (snd (setHistorySize s size w)) x = ctx_of w x) /\
  w_calls (snd (setHistorySize s size w)) = w_calls w /\
  (clear s ;;; getHistorySize s) w = (Panicked NilDereference, snd (clear s w)).
Proof.
  intros Hs. unfold setHistorySize, bind, getCtx. simpl.
  destruct (stats (ctx_of w s)) as [st|] eqn:Est; [|congruence]. simpl.
  split; [|split; [|split; [|split]]].
  - unfold getHistorySize, bind, getCtx. simpl. rewrite ctx_of_set_ctx_same. reflexivity.
  - apply ctx_of_set_ctx_same.
  - intros x Hx. apply ctx_of_set_ctx_other. congruence.
  - apply set_ctx_calls.
  - unfold getHistorySize, bind, getCtx. simpl. rewrite ctx_of_set_ctx_same. reflexivity.
Qed.

Lemma history_size_round_trip_witness :
  let w := worldOf (ctxWith "r1" (Some plainMs) 100 10) freshNew in
  (setHistorySize SlotCurrent 300 ;;; getHistorySize SlotCurrent) w
    = (Normal 300, snd (setHistorySize SlotCurrent 300 w)) /\
  ctx_of (snd (setHistorySize SlotCurrent 300 w)) SlotCurrent =
    ctx_set_cache (ctx_of w SlotCurrent) (msBuilder (ctx_of w SlotCurrent))
      (Some (mkExecutionStats 300)) /\
  (forall x, x <> SlotCurrent -> ctx_of (snd (setHistorySize SlotCurrent 300 w)) x = ctx_of w x) /\
  w_calls (snd (setHistorySize SlotCurrent 300 w)) = w_calls w /\
  (clear SlotCurrent ;;; getHistorySize SlotCurrent) w
    = (Panicked NilDereference, snd (clear SlotCurrent w)).
Proof. intros w. apply history_size_round_trip. discriminate. Defined.
